(** * Sovereign bond marketplace: pricing, yield, settlement, statistics

    A shallow embedding of [backend/server.py] and the properties its
    specification states about it.

    Conventions of the embedding.
    - A Python [float] is an exact rational ([Q]).  The arithmetic is the
      source's, operation by operation, without binary64 rounding, NaN or
      infinities.  Results are compared with [==] and [<=] on [Q].
    - A Python [int] is a [Z].
    - A naive [datetime] is a number of microseconds ([Z]); subtracting two of
      them gives a [timedelta], whose [.days] is the floored number of days.
    - The three MongoDB collections are lists of documents in insertion order;
      [find_one] and [update_one] act on the first matching document.
    - An endpoint runs in a state-and-exception monad over the database and
      returns the database as it stands when the endpoint returns or raises.
    - [uuid.uuid4()], [datetime.utcnow()] and [datetime.now()] are inputs of
      a request, gathered in [Env.t]. *)

From Stdlib Require Import ZArith QArith Qround Qminmax Lqa Lia.
From Stdlib Require Import Bool List String Ascii.
Import ListNotations.

Local Open Scope Q_scope.

(** ** Python numerics *)

Module Py.

(** [a < b] on floats, as a boolean. *)
Definition ltb (a b : Q) : bool := negb (Qle_bool b a).

(** [max(a, b)]: the first argument unless the second is strictly larger. *)
Definition max (a b : Q) : Q := if ltb a b then b else a.

(** Nearest integer, ties to the even one. *)
Definition round_half_even (x : Q) : Z :=
  let f := Qfloor x in
  match Qcompare (x - inject_Z f) (1 # 2) with
  | Lt => f
  | Gt => (f + 1)%Z
  | Eq => if Z.even f then f else (f + 1)%Z
  end.

(** [round(x, 2)]. *)
Definition round2 (x : Q) : Q := round_half_even (x * 100) # 100.

(** [timedelta.days] of a difference given in microseconds. *)
Definition timedelta_days (us : Z) : Z := (us / 86400000000)%Z.

(** [int(x)]: truncation toward zero. *)
Definition trunc (x : Q) : Z := Z.quot (Qnum x) (Z.pos (Qden x)).

(** Whether a float has no fractional part. *)
Definition is_integral (x : Q) : bool :=
  (Z.rem (Qnum x) (Z.pos (Qden x)) =? 0)%Z.

End Py.

(** ** Exceptions and results *)

Inductive exn : Type :=
| HTTPException (status_code : Z) (detail : string)
| ValidationError
| ValueError
| KeyError
| ZeroDivisionError.

Definition result (A : Type) : Type := (exn + A)%type.

Definition is_http (e : exn) : bool :=
  match e with HTTPException _ _ => true | _ => false end.

(** ** Models *)

(** Naive datetimes, in microseconds. *)
Definition datetime : Type := Z.

(** A bond as the [Bond] model holds it after validation. *)
Module Bond.
Record t : Type := mk {
  id : string;
  country : string;
  country_code : string;
  face_value : Q;
  coupon_rate : Q;
  maturity_date : string;
  issue_date : string;
  current_price : Q;
  risk_factor : Q;
  currency : string;
  total_supply : Z;
  available_supply : Z
}.

Definition with_risk_factor (r : Q) (b : t) : t :=
  mk (id b) (country b) (country_code b) (face_value b) (coupon_rate b)
     (maturity_date b) (issue_date b) (current_price b) r (currency b)
     (total_supply b) (available_supply b).
End Bond.

(** A bond document as the [bonds] collection stores it.  Settlement writes
    [int - float] into [available_supply], so the stored field is a float. *)
Module BondDoc.
Record t : Type := mk {
  id : string;
  country : string;
  country_code : string;
  face_value : Q;
  coupon_rate : Q;
  maturity_date : string;
  issue_date : string;
  current_price : Q;
  risk_factor : Q;
  currency : string;
  total_supply : Z;
  available_supply : Q
}.

(** [{"$set": {"available_supply": v}}] *)
Definition set_available_supply (v : Q) (d : t) : t :=
  mk (id d) (country d) (country_code d) (face_value d) (coupon_rate d)
     (maturity_date d) (issue_date d) (current_price d) (risk_factor d)
     (currency d) (total_supply d) v.
End BondDoc.

Module Portfolio.
Record t : Type := mk {
  id : string;
  user_address : string;
  bonds : list (string * Q);     (* bond_id -> quantity, insertion order *)
  total_value : Q;
  total_yield : Q;
  created_at : datetime
}.
End Portfolio.

Module BondTransaction.
Record t : Type := mk {
  id : string;
  user_address : string;
  bond_id : string;
  transaction_type : string;
  quantity : Q;
  price_per_bond : Q;
  total_amount : Q;
  timestamp : datetime
}.
End BondTransaction.

Module TradeRequest.
Record t : Type := mk {
  user_address : string;
  bond_id : string;
  quantity : Q;
  transaction_type : string
}.
End TradeRequest.

(** What a request reads from outside the database. *)
Module Env.
Record t : Type := mk {
  now : datetime;            (* datetime.now() *)
  utcnow : datetime;         (* datetime.utcnow() *)
  transaction_uuid : string; (* uuid4 of the new BondTransaction *)
  portfolio_uuid : string    (* uuid4 of a Portfolio created by the request *)
}.
End Env.

(** ** The document store *)

Module DB.
Record t : Type := mk {
  bonds : list BondDoc.t;
  transactions : list BondTransaction.t;
  portfolios : list Portfolio.t
}.
End DB.

(** State and exceptions: a computation returns its value or the exception it
    raised, together with the database at that point. *)
Definition M (A : Type) : Type := DB.t -> result A * DB.t.

Definition ret {A : Type} (a : A) : M A := fun db => (inr a, db).

Definition bind {A B : Type} (m : M A) (k : A -> M B) : M B :=
  fun db =>
    match m db with
    | (inl e, db') => (inl e, db')
    | (inr a, db') => k a db'
    end.

Definition raise {A : Type} (e : exn) : M A := fun db => (inl e, db).

Definition lift {A : Type} (r : result A) : M A := fun db => (r, db).

Declare Scope m_scope.
Delimit Scope m_scope with m.
Notation "x <- c ;; k" := (bind c (fun x => k))
  (at level 61, c at next level, right associativity) : m_scope.
Notation "c ;; k" := (bind c (fun _ => k))
  (at level 61, right associativity) : m_scope.

(** *** Collection operations *)

Open Scope string_scope.

(** [find_one({"id": id})] *)
Fixpoint find_bond (id : string) (l : list BondDoc.t) : option BondDoc.t :=
  match l with
  | [] => None
  | d :: l' => if BondDoc.id d =? id then Some d else find_bond id l'
  end.

(** [update_one({"id": id}, {"$set": {"available_supply": v}})] *)
Fixpoint update_bond_supply (id : string) (v : Q) (l : list BondDoc.t)
  : list BondDoc.t :=
  match l with
  | [] => []
  | d :: l' =>
      if BondDoc.id d =? id then BondDoc.set_available_supply v d :: l'
      else d :: update_bond_supply id v l'
  end.

(** [find_one({"user_address": a})] *)
Fixpoint find_portfolio (a : string) (l : list Portfolio.t) : option Portfolio.t :=
  match l with
  | [] => None
  | p :: l' => if Portfolio.user_address p =? a then Some p else find_portfolio a l'
  end.

(** [replace_one({"user_address": a}, p, upsert=True)] *)
Fixpoint replace_portfolio (a : string) (p : Portfolio.t) (l : list Portfolio.t)
  : list Portfolio.t :=
  match l with
  | [] => [p]
  | p0 :: l' =>
      if Portfolio.user_address p0 =? a then p :: l'
      else p0 :: replace_portfolio a p l'
  end.

Definition bonds_find_one (id : string) : M (option BondDoc.t) :=
  fun db => (inr (find_bond id (DB.bonds db)), db).

Definition bonds_update_one (id : string) (v : Q) : M unit :=
  fun db =>
    (inr tt,
     DB.mk (update_bond_supply id v (DB.bonds db)) (DB.transactions db)
       (DB.portfolios db)).

(** [find().to_list(n)] *)
Definition bonds_to_list (n : nat) : M (list BondDoc.t) :=
  fun db => (inr (firstn n (DB.bonds db)), db).

Definition transactions_insert_one (tx : BondTransaction.t) : M unit :=
  fun db =>
    (inr tt,
     DB.mk (DB.bonds db) (DB.transactions db ++ [tx]) (DB.portfolios db)).

Definition transactions_to_list (n : nat) : M (list BondTransaction.t) :=
  fun db => (inr (firstn n (DB.transactions db)), db).

Definition portfolios_find_one (a : string) : M (option Portfolio.t) :=
  fun db => (inr (find_portfolio a (DB.portfolios db)), db).

Definition portfolios_replace_one (a : string) (p : Portfolio.t) : M unit :=
  fun db =>
    (inr tt,
     DB.mk (DB.bonds db) (DB.transactions db)
       (replace_portfolio a p (DB.portfolios db))).

(** *** Python dictionaries with string keys, in insertion order *)

Module Dict.
Definition t : Type := list (string * Q).

(** [k in d] *)
Fixpoint mem (k : string) (d : t) : bool :=
  match d with
  | [] => false
  | (k', _) :: d' => if k' =? k then true else mem k d'
  end.

(** [d[k]], [None] standing for [KeyError] *)
Fixpoint get (k : string) (d : t) : option Q :=
  match d with
  | [] => None
  | (k', v) :: d' => if k' =? k then Some v else get k d'
  end.

(** [d[k] = v]: in place when the key exists, at the end otherwise *)
Fixpoint set (k : string) (v : Q) (d : t) : t :=
  match d with
  | [] => [(k, v)]
  | (k', v') :: d' => if k' =? k then (k', v) :: d' else (k', v') :: set k v d'
  end.

(** [del d[k]] *)
Definition del (k : string) (d : t) : t :=
  filter (fun kv => negb (fst kv =? k)) d.
End Dict.

Module TradeReceipt.
Record t : Type := mk {
  success : bool;
  transaction_id : string;
  trade_price : Q;
  total_amount : Q;
  new_portfolio_value : Q
}.
End TradeReceipt.

Module MarketStats.
Record t : Type := mk {
  total_market_value : Q;
  total_volume_24h : Q;
  average_yield : Q;
  active_bonds : Z;
  total_transactions : Z
}.
End MarketStats.

Section Marketplace.

(** [datetime.strptime(s, "%Y-%m-%d")]: the midnight of the date written in
    [s], or [None] where the library raises [ValueError]. *)
Variable strptime : string -> option datetime.

(** How pydantic validates a float for an [int] field.  Version 1 applies
    [int()], version 2 rejects a float with a fractional part; the source
    does not pin the version, so both are covered: [strict_int = true] is
    version 2. *)
Variable strict_int : bool.

Definition validate_int (x : Q) : result Z :=
  if Py.is_integral x then inr (Py.trunc x)
  else if strict_int then inl ValidationError
  else inr (Py.trunc x).

(** The [Bond] model built from a stored document. *)
Definition Bond_of_doc (d : BondDoc.t) : result Bond.t :=
  match validate_int (BondDoc.available_supply d) with
  | inl e => inl e
  | inr a =>
      inr (Bond.mk (BondDoc.id d) (BondDoc.country d) (BondDoc.country_code d)
             (BondDoc.face_value d) (BondDoc.coupon_rate d)
             (BondDoc.maturity_date d) (BondDoc.issue_date d)
             (BondDoc.current_price d) (BondDoc.risk_factor d)
             (BondDoc.currency d) (BondDoc.total_supply d) a)
  end.

(** ** Risk engine *)

Definition calculate_dynamic_yield (bond : Bond.t) (now : datetime) : result Q :=
  let base_yield := Bond.coupon_rate bond in
  let risk_adjusted_yield := base_yield * (1 + Bond.risk_factor bond / 100) in
  match strptime (Bond.maturity_date bond) with
  | None => inl ValueError
  | Some maturity_date =>
      let years_to_maturity :=
        inject_Z (Py.timedelta_days (maturity_date - now)) / (36525 # 100) in
      let maturity_adjustment := Py.max 0 (years_to_maturity - 2) * (3 # 10) in
      inr (Py.round2 (risk_adjusted_yield + maturity_adjustment))
  end.

Definition calculate_bond_price (bond : Bond.t) (market_demand : Q) : result Q :=
  let base_price := Bond.current_price bond in
  if (Bond.total_supply bond =? 0)%Z then inl ZeroDivisionError
  else
    let scarcity_factor :=
      1 - inject_Z (Bond.available_supply bond) / inject_Z (Bond.total_supply bond) in
    let scarcity_adjustment := scarcity_factor * 50 in
    let risk_discount := Bond.risk_factor bond * 10 in
    let demand_adjustment := (market_demand - 1) * 25 in
    let final_price :=
      base_price + scarcity_adjustment - risk_discount + demand_adjustment in
    inr (Py.max final_price (Bond.face_value bond * (7 # 10))).

(** ** Trade settlement *)

Local Open Scope m_scope.

(** The loop that recalculates a portfolio's value and yield, over
    [portfolio.bonds.items()], from the running totals [acc]. *)
Fixpoint recalculate (now : datetime) (items : Dict.t) (acc : Q * Q)
  : M (Q * Q) :=
  match items with
  | [] => ret acc
  | (bond_id, quantity) :: rest =>
      bond_info <- bonds_find_one bond_id ;;
      match bond_info with
      | None => recalculate now rest acc
      | Some bond_info =>
          bond_obj <- lift (Bond_of_doc bond_info) ;;
          let total_value := fst acc + Bond.current_price bond_obj * quantity in
          bond_yield <- lift (calculate_dynamic_yield bond_obj now) ;;
          let total_yield :=
            snd acc +
            (if Py.ltb 0 total_value
             then bond_yield * (Bond.current_price bond_obj * quantity) / total_value
             else 0) in
          recalculate now rest (total_value, total_yield)
      end
  end.

(** The holdings after the trade is booked on them. *)
Definition update_holdings (trade : TradeRequest.t) (bonds : Dict.t)
  : result Dict.t :=
  let bond_id := TradeRequest.bond_id trade in
  let quantity := TradeRequest.quantity trade in
  let bonds :=
    if negb (Dict.mem bond_id bonds) then Dict.set bond_id 0 bonds else bonds in
  match Dict.get bond_id bonds with
  | None => inl KeyError
  | Some held =>
      if TradeRequest.transaction_type trade =? "buy" then
        inr (Dict.set bond_id (held + quantity) bonds)
      else
        let bonds := Dict.set bond_id (held - quantity) bonds in
        match Dict.get bond_id bonds with
        | None => inl KeyError
        | Some remaining =>
            if Qle_bool remaining 0 then inr (Dict.del bond_id bonds) else inr bonds
        end
  end.

Definition execute_trade (env : Env.t) (trade : TradeRequest.t)
  : M TradeReceipt.t :=
  bond_data <- bonds_find_one (TradeRequest.bond_id trade) ;;
  match bond_data with
  | None => raise (HTTPException 404 "Bond not found")
  | Some bond_data =>
      bond <- lift (Bond_of_doc bond_data) ;;
      if (TradeRequest.transaction_type trade =? "buy")
         && Py.ltb (inject_Z (Bond.available_supply bond))
              (TradeRequest.quantity trade)
      then raise (HTTPException 400 "Insufficient bond supply")
      else
        trade_price <- lift (calculate_bond_price bond 1) ;;
        let total_amount := trade_price * TradeRequest.quantity trade in
        let transaction :=
          BondTransaction.mk (Env.transaction_uuid env)
            (TradeRequest.user_address trade) (TradeRequest.bond_id trade)
            (TradeRequest.transaction_type trade) (TradeRequest.quantity trade)
            trade_price total_amount (Env.utcnow env) in
        transactions_insert_one transaction ;;
        let new_available_supply :=
          if TradeRequest.transaction_type trade =? "buy"
          then inject_Z (Bond.available_supply bond) - TradeRequest.quantity trade
          else inject_Z (Bond.available_supply bond) + TradeRequest.quantity trade in
        bonds_update_one (TradeRequest.bond_id trade) new_available_supply ;;
        portfolio_data <- portfolios_find_one (TradeRequest.user_address trade) ;;
        let portfolio :=
          match portfolio_data with
          | Some p => p
          | None =>
              Portfolio.mk (Env.portfolio_uuid env)
                (TradeRequest.user_address trade) [] 0 0 (Env.utcnow env)
          end in
        holdings <- lift (update_holdings trade (Portfolio.bonds portfolio)) ;;
        totals <- recalculate (Env.now env) holdings (0, 0) ;;
        let portfolio :=
          Portfolio.mk (Portfolio.id portfolio) (Portfolio.user_address portfolio)
            holdings (Py.round2 (fst totals)) (Py.round2 (snd totals))
            (Portfolio.created_at portfolio) in
        portfolios_replace_one (TradeRequest.user_address trade) portfolio ;;
        ret (TradeReceipt.mk true (BondTransaction.id transaction) trade_price
               total_amount (Portfolio.total_value portfolio))
  end.

(** ** Market statistics *)

(** [sum(calculate_dynamic_yield(Bond(..)) for bond in bonds)] *)
Fixpoint sum_yields (now : datetime) (bonds : list BondDoc.t) (acc : Q)
  : result Q :=
  match bonds with
  | [] => inr acc
  | d :: rest =>
      match Bond_of_doc d with
      | inl e => inl e
      | inr b =>
          match calculate_dynamic_yield b now with
          | inl e => inl e
          | inr y => sum_yields now rest (acc + y)
          end
      end
  end.

(** [sum(f(x) for x in l)] *)
Definition py_sum {A : Type} (f : A -> Q) (l : list A) : Q :=
  fold_left (fun acc x => acc + f x) l 0.

(** [datetime.now() - tx["timestamp"] < timedelta(days=1)] *)
Definition in_last_day (now : datetime) (tx : BondTransaction.t) : bool :=
  (now - BondTransaction.timestamp tx <? 86400000000)%Z.

Definition get_market_stats (env : Env.t) : M MarketStats.t :=
  bonds <- bonds_to_list 1000 ;;
  transactions <- transactions_to_list 1000 ;;
  let total_market_value :=
    py_sum (fun bond => BondDoc.current_price bond
                        * inject_Z (BondDoc.total_supply bond)) bonds in
  let total_volume_24h :=
    py_sum BondTransaction.total_amount
      (filter (in_last_day (Env.now env)) transactions) in
  avg_yield <-
    match bonds with
    | [] => ret 0
    | _ :: _ =>
        s <- lift (sum_yields (Env.now env) bonds 0) ;;
        ret (s / inject_Z (Z.of_nat (List.length bonds)))
    end ;;
  ret (MarketStats.mk (Py.round2 total_market_value) (Py.round2 total_volume_24h)
         (Py.round2 avg_yield) (Z.of_nat (List.length bonds))
         (Z.of_nat (List.length transactions))).

End Marketplace.

(** ** Concrete inputs *)

(** A parser for zero-padded [YYYY-MM-DD] dates of the proleptic Gregorian
    calendar, as microseconds since 0001-01-01T00:00.  It agrees with
    [datetime.strptime(s, "%Y-%m-%d")] on such strings and is used to run the
    model on concrete bonds; the theorems hold for every parser. *)
Module Calendar.

Definition digit (c : ascii) : option Z :=
  let n := Z.of_nat (nat_of_ascii c) in
  if ((48 <=? n) && (n <=? 57))%Z then Some (n - 48)%Z else None.

Fixpoint number (l : list ascii) (acc : Z) : option Z :=
  match l with
  | [] => Some acc
  | c :: l' =>
      match digit c with
      | Some d => number l' (10 * acc + d)%Z
      | None => None
      end
  end.

Definition is_leap (y : Z) : bool :=
  ((y mod 4 =? 0) && (negb (y mod 100 =? 0) || (y mod 400 =? 0)))%Z.

Definition days_in_month (y m : Z) : Z :=
  (if (m =? 2) then (if is_leap y then 29 else 28)
   else if (m =? 4) || (m =? 6) || (m =? 9) || (m =? 11) then 30 else 31)%Z.

Fixpoint days_before_month (y : Z) (m : nat) : Z :=
  match m with
  | O => 0%Z
  | S m' => (days_before_month y m' + days_in_month y (Z.of_nat m))%Z
  end.

(** [date(y, m, d).toordinal()] *)
Definition toordinal (y m d : Z) : Z :=
  (let y1 := y - 1 in
   y1 * 365 + y1 / 4 - y1 / 100 + y1 / 400
   + days_before_month y (Z.to_nat (m - 1)) + d)%Z.

Definition midnight (y m d : Z) : datetime :=
  ((toordinal y m d - 1) * 86400000000)%Z.

Definition strptime_ymd (s : string) : option datetime :=
  match list_ascii_of_string s with
  | [y1; y2; y3; y4; "-"%char; m1; m2; "-"%char; d1; d2] =>
      match number [y1; y2; y3; y4] 0, number [m1; m2] 0, number [d1; d2] 0 with
      | Some y, Some m, Some d =>
          if ((1 <=? y) && (1 <=? m) && (m <=? 12) && (1 <=? d)
              && (d <=? days_in_month y m))%Z
          then Some (midnight y m d) else None
      | _, _, _ => None
      end
  | _ => None
  end.

End Calendar.

(** The seed catalog of the source, [MOCK_BONDS], with identifiers chosen here
    in place of the generated ones. *)
Module Mock.

Definition ghana : BondDoc.t :=
  BondDoc.mk "bond-gh" "Ghana" "GH" 1000 (75 # 10) "2029-12-31" "2024-01-01"
    950 (23 # 10) "USD" 10000 7500.

Definition nigeria : BondDoc.t :=
  BondDoc.mk "bond-ng" "Nigeria" "NG" 1000 (82 # 10) "2026-06-30" "2023-07-01"
    920 (41 # 10) "USD" 15000 12000.

Definition kenya : BondDoc.t :=
  BondDoc.mk "bond-ke" "Kenya" "KE" 1000 (68 # 10) "2028-03-15" "2023-03-15"
    965 (18 # 10) "USD" 8000 5500.

Definition south_africa : BondDoc.t :=
  BondDoc.mk "bond-za" "South Africa" "ZA" 1000 (91 # 10) "2027-09-30"
    "2023-10-01" 890 (52 # 10) "USD" 20000 18500.

Definition MOCK_BONDS : list BondDoc.t := [ghana; nigeria; kenya; south_africa].

Definition seeded : DB.t := DB.mk MOCK_BONDS [] [].

Definition alice : string := "0x1234567890abcdef1234567890abcdef12345678".

(** A request made on 2025-01-01 at 00:00. *)
Definition env : Env.t :=
  Env.mk (Calendar.midnight 2025 1 1) (Calendar.midnight 2025 1 1) "tx-1" "pf-1".

End Mock.

(** ** Further concrete inputs *)

(** A Ghana bond after one unit was sold back: 7501 of 10000 available. *)
Definition ghana_7501 : Bond.t :=
  Bond.mk "bond-gh" "Ghana" "GH" 1000 (75 # 10) "2029-12-31" "2024-01-01"
    950 (23 # 10) "USD" 10000 7501.

(** A bond with a negative coupon rate, maturing on 2025-06-30. *)
Definition negative_coupon : Bond.t :=
  Bond.mk "bond-x" "X" "XX" 1000 (-5) "2025-06-30" "2024-01-01"
    950 0 "USD" 10000 7500.

(** The Ghana bond of the seed catalog, validated. *)
Definition ghana_bond : Bond.t :=
  Bond.mk "bond-gh" "Ghana" "GH" 1000 (75 # 10) "2029-12-31" "2024-01-01"
    950 (23 # 10) "USD" 10000 7500.

(** Requests of alice. *)
Definition buy_5 : TradeRequest.t :=
  TradeRequest.mk Mock.alice "bond-gh" 5 "buy".

Definition buy_1 : TradeRequest.t :=
  TradeRequest.mk Mock.alice "bond-gh" 1 "buy".

Definition sell_5 : TradeRequest.t :=
  TradeRequest.mk Mock.alice "bond-gh" 5 "sell".

Definition sell_3000 : TradeRequest.t :=
  TradeRequest.mk Mock.alice "bond-gh" 3000 "sell".

Definition buy_minus_5 : TradeRequest.t :=
  TradeRequest.mk Mock.alice "bond-gh" (-5) "buy".

Definition swap_5 : TradeRequest.t :=
  TradeRequest.mk Mock.alice "bond-gh" 5 "swap".

Definition buy_5_kenya : TradeRequest.t :=
  TradeRequest.mk Mock.alice "bond-ke" 5 "buy".

(** A database in which alice holds 2 units of the Ghana bond. *)
Definition alice_holds_2 : DB.t :=
  DB.mk Mock.MOCK_BONDS []
    [Portfolio.mk "pf-0" Mock.alice [("bond-gh", 2)] 1900 (857 # 100)
       (Calendar.midnight 2024 12 1)].

(** A database in which alice holds 5 units of the Ghana bond. *)
Definition alice_holds_5 : DB.t :=
  DB.mk Mock.MOCK_BONDS []
    [Portfolio.mk "pf-0" Mock.alice [("bond-gh", 5)] 4750 (857 # 100)
       (Calendar.midnight 2024 12 1)].

(** A database in which alice holds 92 units of the Ghana bond. *)
Definition alice_holds_92 : DB.t :=
  DB.mk Mock.MOCK_BONDS []
    [Portfolio.mk "pf-0" Mock.alice [("bond-gh", 92)] 87400 (857 # 100)
       (Calendar.midnight 2024 12 1)].

(** A buy of -95 units of the Nigeria bond. *)
Definition buy_minus_95_nigeria : TradeRequest.t :=
  TradeRequest.mk Mock.alice "bond-ng" (-95) "buy".

(** A catalog whose Ghana bond is quoted at 950.005. *)
Definition odd_price_catalog : DB.t :=
  DB.mk
    [BondDoc.mk "bond-gh" "Ghana" "GH" 1000 (75 # 10) "2029-12-31" "2024-01-01"
       (950005 # 1000) (23 # 10) "USD" 10000 7500]
    [] [].

(** A log of 1001 transactions of amount 1, all stamped at request time. *)
Definition long_log : DB.t :=
  DB.mk Mock.MOCK_BONDS
    (repeat (BondTransaction.mk "tx" Mock.alice "bond-gh" "buy" 1 1 1
               (Env.utcnow Mock.env)) 1001)
    [].

(** * Definitions used to state the properties *)

Section Specification.

Variable strptime : string -> option datetime.
Variable strict_int : bool.

(** The specification's pricing formula, before the floor. *)
Definition spec_raw_price (bond : Bond.t) (demand_signal : Q) : Q :=
  Bond.current_price bond
  + (1 - inject_Z (Bond.available_supply bond) / inject_Z (Bond.total_supply bond)) * 50
  - Bond.risk_factor bond * 10
  + (demand_signal - 1) * 25.

(** The specification's result: the floored price rounded to 2 decimals. *)
Definition spec_price (bond : Bond.t) (demand_signal : Q) : Q :=
  Py.round2 (Qmax (spec_raw_price bond demand_signal)
               (Bond.face_value bond * (7 # 10))).

(** The specification's years to maturity, from the whole days left. *)
Definition spec_years_to_maturity (days : Z) : Q := inject_Z days / (36525 # 100).

(** The specification's yield, from the coupon rate, the risk factor and the
    whole days left to maturity. *)
Definition spec_yield (coupon_rate risk_factor : Q) (days : Z) : Q :=
  let risk_adjusted := coupon_rate * (1 + risk_factor / 100) in
  let maturity_adjustment := Qmax 0 (spec_years_to_maturity days - 2) * (3 # 10) in
  Py.round2 (risk_adjusted + maturity_adjustment).

(** Whole days from [now] to [maturity], as [timedelta.days] counts them. *)
Definition days_between (maturity now : datetime) : Z :=
  Py.timedelta_days (maturity - now).

(** The portfolios of the users other than [a]. *)
Definition other_portfolios (a : string) (l : list Portfolio.t) : list Portfolio.t :=
  filter (fun p => negb (Portfolio.user_address p =? a)) l.

(** The supply invariant of a stored bond. *)
Definition supply_in_bounds (d : BondDoc.t) : Prop :=
  0 <= BondDoc.available_supply d <= inject_Z (BondDoc.total_supply d).

(** The two guards of [execute_trade], read off the database. *)
Definition guard (trade : TradeRequest.t) (db : DB.t) : option exn :=
  match find_bond (TradeRequest.bond_id trade) (DB.bonds db) with
  | None => Some (HTTPException 404 "Bond not found")
  | Some d =>
      match Bond_of_doc strict_int d with
      | inl _ => None
      | inr bond =>
          if (TradeRequest.transaction_type trade =? "buy")
             && Py.ltb (inject_Z (Bond.available_supply bond))
                  (TradeRequest.quantity trade)
          then Some (HTTPException 400 "Insufficient bond supply")
          else None
      end
  end.

(** The quantity of a bond a user holds, 0 without a portfolio or entry. *)
Definition holding (db : DB.t) (user bond_id : string) : Q :=
  match find_portfolio user (DB.portfolios db) with
  | Some p =>
      match Dict.get bond_id (Portfolio.bonds p) with
      | Some q => q
      | None => 0
      end
  | None => 0
  end.

(** Two bond documents that agree on every field but [available_supply]. *)
Definition same_but_supply (d d' : BondDoc.t) : Prop :=
  BondDoc.id d' = BondDoc.id d
  /\ BondDoc.country d' = BondDoc.country d
  /\ BondDoc.country_code d' = BondDoc.country_code d
  /\ BondDoc.face_value d' = BondDoc.face_value d
  /\ BondDoc.coupon_rate d' = BondDoc.coupon_rate d
  /\ BondDoc.maturity_date d' = BondDoc.maturity_date d
  /\ BondDoc.issue_date d' = BondDoc.issue_date d
  /\ BondDoc.current_price d' = BondDoc.current_price d
  /\ BondDoc.risk_factor d' = BondDoc.risk_factor d
  /\ BondDoc.currency d' = BondDoc.currency d
  /\ BondDoc.total_supply d' = BondDoc.total_supply d.

(** The value of one holding at the bond's current price; a holding whose
    bond is not in the catalog counts for nothing. *)
Definition holding_value (bonds : list BondDoc.t) (kv : string * Q) : Q :=
  match find_bond (fst kv) bonds with
  | Some d => BondDoc.current_price d * snd kv
  | None => 0
  end.

(** The sum of the holdings' values. *)
Definition holdings_value (bonds : list BondDoc.t) (items : Dict.t) : Q :=
  fold_right (fun kv s => holding_value bonds kv + s) 0 items.

(** The average of the yields weighted by each holding's share of the total
    value, as the specification words it. *)
Definition spec_weighted_yield (bonds : list BondDoc.t) (now : datetime)
    (items : Dict.t) : Q :=
  let total := holdings_value bonds items in
  if Qeq_bool total 0 then 0
  else
    fold_right
      (fun kv s =>
         match find_bond (fst kv) bonds with
         | Some d =>
             match Bond_of_doc strict_int d with
             | inr b =>
                 match calculate_dynamic_yield strptime b now with
                 | inr y => y * (holding_value bonds kv / total) + s
                 | inl _ => s
                 end
             | inl _ => s
             end
         | None => s
         end) 0 items.

(** The caches as the specification words them. *)
Definition caches_as_specified (bonds : list BondDoc.t) (now : datetime)
    (p : Portfolio.t) : Prop :=
  Portfolio.total_value p == holdings_value bonds (Portfolio.bonds p)
  /\ Portfolio.total_yield p == spec_weighted_yield bonds now (Portfolio.bonds p).

(** The sum of [f] over a list. *)
Definition total {A : Type} (f : A -> Q) (l : list A) : Q :=
  fold_right (fun x s => f x + s) 0 l.

(** The yields of the bonds, in order, or the first exception. *)
Fixpoint yields (now : datetime) (bonds : list BondDoc.t) : result (list Q) :=
  match bonds with
  | [] => inr []
  | d :: rest =>
      match Bond_of_doc strict_int d with
      | inl e => inl e
      | inr b =>
          match calculate_dynamic_yield strptime b now with
          | inl e => inl e
          | inr y =>
              match yields now rest with
              | inl e => inl e
              | inr ys => inr (y :: ys)
              end
          end
      end
  end.

(** A transaction stamped later than 24 hours before [now]. *)
Definition within_24h (now : datetime) (tx : BondTransaction.t) : bool :=
  (now - 86400000000 <? BondTransaction.timestamp tx)%Z.

(** The mean of a list of yields, 0 for the empty list. *)
Definition mean (ys : list Q) : Q :=
  match ys with
  | [] => 0
  | _ :: _ => total (fun y => y) ys / inject_Z (Z.of_nat (List.length ys))
  end.

(** The statistics over the documents the endpoint reads. *)
Definition spec_market_stats (now : datetime) (bonds : list BondDoc.t)
    (transactions : list BondTransaction.t) (ys : list Q) : MarketStats.t :=
  MarketStats.mk
    (Py.round2
       (total (fun b => BondDoc.current_price b * inject_Z (BondDoc.total_supply b))
          bonds))
    (Py.round2
       (total BondTransaction.total_amount (filter (within_24h now) transactions)))
    (Py.round2 (mean ys))
    (Z.of_nat (List.length bonds))
    (Z.of_nat (List.length transactions)).

(** ** The outcomes of a settlement *)

Section Outcomes.

Variable env : Env.t.
Variable trade : TradeRequest.t.

(** The supply written to the traded bond. *)
Definition new_available_supply (bond : Bond.t) : Q :=
  if TradeRequest.transaction_type trade =? "buy"
  then inject_Z (Bond.available_supply bond) - TradeRequest.quantity trade
  else inject_Z (Bond.available_supply bond) + TradeRequest.quantity trade.

(** The record appended to the log. *)
Definition transaction_record (trade_price : Q) : BondTransaction.t :=
  BondTransaction.mk (Env.transaction_uuid env)
    (TradeRequest.user_address trade) (TradeRequest.bond_id trade)
    (TradeRequest.transaction_type trade) (TradeRequest.quantity trade)
    trade_price (trade_price * TradeRequest.quantity trade) (Env.utcnow env).

(** The database once the transaction and the supply are written. *)
Definition booked (bond : Bond.t) (trade_price : Q) (db : DB.t) : DB.t :=
  DB.mk
    (update_bond_supply (TradeRequest.bond_id trade) (new_available_supply bond)
       (DB.bonds db))
    (DB.transactions db ++ [transaction_record trade_price])
    (DB.portfolios db).

(** The requester's portfolio as loaded, or a new one. *)
Definition loaded_portfolio (db : DB.t) : Portfolio.t :=
  match find_portfolio (TradeRequest.user_address trade) (DB.portfolios db) with
  | Some p => p
  | None =>
      Portfolio.mk (Env.portfolio_uuid env) (TradeRequest.user_address trade)
        [] 0 0 (Env.utcnow env)
  end.

(** The portfolio with its new holdings and recalculated caches. *)
Definition saved_portfolio (p : Portfolio.t) (holdings : Dict.t)
    (totals : Q * Q) : Portfolio.t :=
  Portfolio.mk (Portfolio.id p) (Portfolio.user_address p) holdings
    (Py.round2 (fst totals)) (Py.round2 (snd totals)) (Portfolio.created_at p).

(** The database once the requester's portfolio is saved. *)
Definition with_portfolio (p : Portfolio.t) (db : DB.t) : DB.t :=
  DB.mk (DB.bonds db) (DB.transactions db)
    (replace_portfolio (TradeRequest.user_address trade) p (DB.portfolios db)).

(** The request passes the supply guard on [bond]. *)
Definition passes_guard (bond : Bond.t) : Prop :=
  (TradeRequest.transaction_type trade =? "buy") = true ->
  TradeRequest.quantity trade <= inject_Z (Bond.available_supply bond).

(** [settles db r db']: the request ends with [r], leaving [db']. *)
Inductive settles (db : DB.t) : result TradeReceipt.t -> DB.t -> Prop :=
| settles_not_found :
    find_bond (TradeRequest.bond_id trade) (DB.bonds db) = None ->
    settles db (inl (HTTPException 404 "Bond not found")) db
| settles_invalid_bond d :
    find_bond (TradeRequest.bond_id trade) (DB.bonds db) = Some d ->
    Bond_of_doc strict_int d = inl ValidationError ->
    settles db (inl ValidationError) db
| settles_insufficient d bond :
    find_bond (TradeRequest.bond_id trade) (DB.bonds db) = Some d ->
    Bond_of_doc strict_int d = inr bond ->
    (TradeRequest.transaction_type trade =? "buy") = true ->
    inject_Z (Bond.available_supply bond) < TradeRequest.quantity trade ->
    settles db (inl (HTTPException 400 "Insufficient bond supply")) db
| settles_no_price d bond :
    find_bond (TradeRequest.bond_id trade) (DB.bonds db) = Some d ->
    Bond_of_doc strict_int d = inr bond ->
    passes_guard bond ->
    Bond.total_supply bond = 0%Z ->
    settles db (inl ZeroDivisionError) db
| settles_interrupted d bond trade_price e :
    find_bond (TradeRequest.bond_id trade) (DB.bonds db) = Some d ->
    Bond_of_doc strict_int d = inr bond ->
    passes_guard bond ->
    calculate_bond_price bond 1 = inr trade_price ->
    is_http e = false ->
    settles db (inl e) (booked bond trade_price db)
| settles_done d bond trade_price holdings totals :
    find_bond (TradeRequest.bond_id trade) (DB.bonds db) = Some d ->
    Bond_of_doc strict_int d = inr bond ->
    passes_guard bond ->
    calculate_bond_price bond 1 = inr trade_price ->
    update_holdings trade (Portfolio.bonds (loaded_portfolio db)) = inr holdings ->
    fst (recalculate strptime strict_int (Env.now env) holdings (0, 0)
           (booked bond trade_price db)) = inr totals ->
    let p := saved_portfolio (loaded_portfolio db) holdings totals in
    settles db
      (inr (TradeReceipt.mk true (Env.transaction_uuid env) trade_price
              (trade_price * TradeRequest.quantity trade) (Portfolio.total_value p)))
      (with_portfolio p (booked bond trade_price db)).

End Outcomes.

End Specification.

(** * The other endpoints *)

(** ** More collection operations *)

(** [{"$set": {"current_price": v}}] *)
Definition set_current_price (v : Q) (d : BondDoc.t) : BondDoc.t :=
  BondDoc.mk (BondDoc.id d) (BondDoc.country d) (BondDoc.country_code d)
    (BondDoc.face_value d) (BondDoc.coupon_rate d) (BondDoc.maturity_date d)
    (BondDoc.issue_date d) v (BondDoc.risk_factor d) (BondDoc.currency d)
    (BondDoc.total_supply d) (BondDoc.available_supply d).

(** [update_one({"id": id}, {"$set": {"current_price": v}})] *)
Fixpoint update_bond_price (id : string) (v : Q) (l : list BondDoc.t)
  : list BondDoc.t :=
  match l with
  | [] => []
  | d :: l' =>
      if BondDoc.id d =? id then set_current_price v d :: l'
      else d :: update_bond_price id v l'
  end.

Definition bonds_update_price (id : string) (v : Q) : M unit :=
  fun db =>
    (inr tt,
     DB.mk (update_bond_price id v (DB.bonds db)) (DB.transactions db)
       (DB.portfolios db)).

(** [count_documents({})] *)
Definition bonds_count_documents : M nat :=
  fun db => (inr (List.length (DB.bonds db)), db).

Definition bonds_insert_one (d : BondDoc.t) : M unit :=
  fun db =>
    (inr tt, DB.mk (DB.bonds db ++ [d]) (DB.transactions db) (DB.portfolios db)).

(** [bond.id = i] *)
Definition Bond_with_id (i : string) (b : Bond.t) : Bond.t :=
  Bond.mk i (Bond.country b) (Bond.country_code b) (Bond.face_value b)
    (Bond.coupon_rate b) (Bond.maturity_date b) (Bond.issue_date b)
    (Bond.current_price b) (Bond.risk_factor b) (Bond.currency b)
    (Bond.total_supply b) (Bond.available_supply b).

(** [bond.current_price = v] *)
Definition Bond_with_price (v : Q) (b : Bond.t) : Bond.t :=
  Bond.mk (Bond.id b) (Bond.country b) (Bond.country_code b) (Bond.face_value b)
    (Bond.coupon_rate b) (Bond.maturity_date b) (Bond.issue_date b)
    v (Bond.risk_factor b) (Bond.currency b)
    (Bond.total_supply b) (Bond.available_supply b).

(** [bond.dict()] *)
Definition Bond_dict (b : Bond.t) : BondDoc.t :=
  BondDoc.mk (Bond.id b) (Bond.country b) (Bond.country_code b) (Bond.face_value b)
    (Bond.coupon_rate b) (Bond.maturity_date b) (Bond.issue_date b)
    (Bond.current_price b) (Bond.risk_factor b) (Bond.currency b)
    (Bond.total_supply b) (inject_Z (Bond.available_supply b)).

(** The body of [GET /bonds/{bond_id}/yield]. *)
Module YieldInfo.
Record t : Type := mk {
  bond_id : string;
  country : string;
  base_yield : Q;
  risk_factor : Q;
  dynamic_yield : Q;
  current_price : Q;
  face_value : Q
}.
End YieldInfo.

(** An entry of [detailed_holdings]. *)
Module Holding.
Record t : Type := mk {
  bond : BondDoc.t;
  quantity : Q;
  current_value : Q;
  dynamic_yield : Q;
  unrealized_pnl : Q
}.
End Holding.

(** The body of [GET /portfolio/{user_address}] for a known user; its
    [summary] is the last three fields. *)
Module PortfolioReport.
Record t : Type := mk {
  portfolio : Portfolio.t;
  detailed_holdings : list Holding.t;
  total_bonds : Z;
  total_value : Q;
  average_yield : Q
}.
End PortfolioReport.

Section Endpoints.

Variable strptime : string -> option datetime.
Variable strict_int : bool.

(** The identifiers [uuid.uuid4()] gives the seeded bonds, in order. *)
Variable seed_uuid : nat -> string.

(** The values [random.uniform(0.8, 1.3)] gives, in order. *)
Variable market_demand : nat -> Q.

Local Open Scope m_scope.

(** The loop of [initialize_bonds] over the seed data, from the [i]-th
    identifier. *)
Fixpoint insert_seeds (i : nat) (seeds : list BondDoc.t) : M unit :=
  match seeds with
  | [] => ret tt
  | bond_data :: rest =>
      bond <- lift (Bond_of_doc strict_int bond_data) ;;
      bonds_insert_one (Bond_dict (Bond_with_id (seed_uuid i) bond)) ;;
      insert_seeds (S i) rest
  end.

Definition initialize_bonds : M unit :=
  existing_bonds <- bonds_count_documents ;;
  if (existing_bonds =? 0)%nat then insert_seeds 0 Mock.MOCK_BONDS else ret tt.

(** The loop of [get_bonds] over the bonds it has read, from the [i]-th
    draw of the market demand. *)
Fixpoint refresh_prices (i : nat) (bonds : list BondDoc.t) : M unit :=
  match bonds with
  | [] => ret tt
  | bond_data :: rest =>
      bond <- lift (Bond_of_doc strict_int bond_data) ;;
      updated_price <- lift (calculate_bond_price bond (market_demand i)) ;;
      let bond := Bond_with_price (Py.round2 updated_price) bond in
      bonds_update_price (Bond.id bond) (Bond.current_price bond) ;;
      refresh_prices (S i) rest
  end.

(** [[Bond(..) for bond in bonds]] *)
Fixpoint validate_bonds (bonds : list BondDoc.t) : result (list Bond.t) :=
  match bonds with
  | [] => inr []
  | d :: rest =>
      match Bond_of_doc strict_int d with
      | inl e => inl e
      | inr b =>
          match validate_bonds rest with
          | inl e => inl e
          | inr bs => inr (b :: bs)
          end
      end
  end.

Definition get_bonds : M (list Bond.t) :=
  initialize_bonds ;;
  bonds <- bonds_to_list 1000 ;;
  refresh_prices 0 bonds ;;
  updated_bonds <- bonds_to_list 1000 ;;
  lift (validate_bonds updated_bonds).

Definition get_bond (bond_id : string) : M Bond.t :=
  bond_data <- bonds_find_one bond_id ;;
  match bond_data with
  | None => raise (HTTPException 404 "Bond not found")
  | Some bond_data => lift (Bond_of_doc strict_int bond_data)
  end.

Definition get_bond_yield (env : Env.t) (bond_id : string) : M YieldInfo.t :=
  bond_data <- bonds_find_one bond_id ;;
  match bond_data with
  | None => raise (HTTPException 404 "Bond not found")
  | Some bond_data =>
      bond <- lift (Bond_of_doc strict_int bond_data) ;;
      dynamic_yield <- lift (calculate_dynamic_yield strptime bond (Env.now env)) ;;
      ret (YieldInfo.mk bond_id (Bond.country bond) (Bond.coupon_rate bond)
             (Bond.risk_factor bond) dynamic_yield (Bond.current_price bond)
             (Bond.face_value bond))
  end.

(** The loop of [get_portfolio] that enriches the holdings, appending to
    [detailed_holdings]. *)
Fixpoint enrich (now : datetime) (items : Dict.t) (detailed_holdings : list Holding.t)
  : M (list Holding.t) :=
  match items with
  | [] => ret detailed_holdings
  | (bond_id, quantity) :: rest =>
      bond_data <- bonds_find_one bond_id ;;
      match bond_data with
      | None => enrich now rest detailed_holdings
      | Some bond_data =>
          bond <- lift (Bond_of_doc strict_int bond_data) ;;
          yield_info <- lift (calculate_dynamic_yield strptime bond now) ;;
          let holding_value := Bond.current_price bond * quantity in
          enrich now rest
            (detailed_holdings
             ++ [Holding.mk (Bond_dict bond) quantity (Py.round2 holding_value)
                   yield_info
                   (Py.round2
                      ((Bond.current_price bond - Bond.face_value bond) * quantity))])
      end
  end.

(** [GET /portfolio/{user_address}]: a bare empty portfolio for an unknown
    user, the report otherwise. *)
Definition get_portfolio (env : Env.t) (user_address : string)
  : M (Portfolio.t + PortfolioReport.t) :=
  portfolio_data <- portfolios_find_one user_address ;;
  match portfolio_data with
  | None =>
      ret (inl (Portfolio.mk (Env.portfolio_uuid env) user_address [] 0 0
                  (Env.utcnow env)))
  | Some portfolio =>
      detailed_holdings <- enrich (Env.now env) (Portfolio.bonds portfolio) [] ;;
      ret (inr (PortfolioReport.mk portfolio detailed_holdings
                  (Z.of_nat (List.length (Portfolio.bonds portfolio)))
                  (Portfolio.total_value portfolio)
                  (Portfolio.total_yield portfolio)))
  end.

End Endpoints.

(** * Definitions used to state further properties *)

(** [bond.available_supply = a] *)
Definition Bond_with_supply (a : Z) (b : Bond.t) : Bond.t :=
  Bond.mk (Bond.id b) (Bond.country b) (Bond.country_code b) (Bond.face_value b)
    (Bond.coupon_rate b) (Bond.maturity_date b) (Bond.issue_date b)
    (Bond.current_price b) (Bond.risk_factor b) (Bond.currency b)
    (Bond.total_supply b) a.

(** [bond.maturity_date = s] *)
Definition Bond_with_maturity (s : string) (b : Bond.t) : Bond.t :=
  Bond.mk (Bond.id b) (Bond.country b) (Bond.country_code b) (Bond.face_value b)
    (Bond.coupon_rate b) s (Bond.issue_date b)
    (Bond.current_price b) (Bond.risk_factor b) (Bond.currency b)
    (Bond.total_supply b) (Bond.available_supply b).

(** The price before the scarcity premium and the floor. *)
Definition base_price (bond : Bond.t) (market_demand : Q) : Q :=
  Bond.current_price bond - Bond.risk_factor bond * 10 + (market_demand - 1) * 25.

(** The coupon rate adjusted for risk, before the maturity premium. *)
Definition risk_adjusted (coupon_rate risk_factor : Q) : Q :=
  coupon_rate * (1 + risk_factor / 100).

(** The quantity a dictionary of holdings has for a bond, 0 without entry. *)
Definition held (bonds : Dict.t) (bond_id : string) : Q :=
  match Dict.get bond_id bonds with
  | Some q => q
  | None => 0
  end.

(** Every entry of the holdings has a positive quantity. *)
Definition positive_holdings (bonds : Dict.t) : Prop :=
  Forall (fun kv => 0 < snd kv) bonds.

(** Two bond documents that agree on every field but [current_price]. *)
Definition same_but_price (d d' : BondDoc.t) : Prop :=
  BondDoc.id d' = BondDoc.id d
  /\ BondDoc.country d' = BondDoc.country d
  /\ BondDoc.country_code d' = BondDoc.country_code d
  /\ BondDoc.face_value d' = BondDoc.face_value d
  /\ BondDoc.coupon_rate d' = BondDoc.coupon_rate d
  /\ BondDoc.maturity_date d' = BondDoc.maturity_date d
  /\ BondDoc.issue_date d' = BondDoc.issue_date d
  /\ BondDoc.risk_factor d' = BondDoc.risk_factor d
  /\ BondDoc.currency d' = BondDoc.currency d
  /\ BondDoc.total_supply d' = BondDoc.total_supply d
  /\ BondDoc.available_supply d' = BondDoc.available_supply d.

Section Refresh.

Variable strict_int : bool.
Variable market_demand : nat -> Q.

(** A stored bond that validates and has a non-zero total supply. *)
Definition priceable (d : BondDoc.t) : Prop :=
  exists b, Bond_of_doc strict_int d = inr b /\ Bond.total_supply b <> 0%Z.

(** The stored bond with its price refreshed at the [i]-th demand drawn. *)
Definition refreshed_bond (i : nat) (d : BondDoc.t) : BondDoc.t :=
  match Bond_of_doc strict_int d with
  | inr b =>
      match calculate_bond_price b (market_demand i) with
      | inr p => set_current_price (Py.round2 p) d
      | inl _ => d
      end
  | inl _ => d
  end.

(** The stored bonds, each refreshed at its own draw, from the [i]-th. *)
Fixpoint refreshed (i : nat) (bonds : list BondDoc.t) : list BondDoc.t :=
  match bonds with
  | [] => []
  | d :: rest => refreshed_bond i d :: refreshed (S i) rest
  end.

End Refresh.

(** Whether the catalog has the bond of a holding. *)
Definition in_catalog (bonds : list BondDoc.t) (kv : string * Q) : bool :=
  match find_bond (fst kv) bonds with
  | Some _ => true
  | None => false
  end.

(** An entry of [detailed_holdings] whose value and profit follow from the
    bond and the quantity it shows. *)
Definition consistent_entry (h : Holding.t) : Prop :=
  Holding.current_value h
  = Py.round2 (BondDoc.current_price (Holding.bond h) * Holding.quantity h)
  /\ Holding.unrealized_pnl h
     = Py.round2 ((BondDoc.current_price (Holding.bond h)
                   - BondDoc.face_value (Holding.bond h)) * Holding.quantity h).

(** The Nigeria bond of the seed catalog, validated. *)
Definition nigeria_bond : Bond.t :=
  Bond.mk "bond-ng" "Nigeria" "NG" 1000 (82 # 10) "2026-06-30" "2023-07-01"
    920 (41 # 10) "USD" 15000 12000.

(** A request for a bond that is not in the catalog. *)
Definition buy_unknown : TradeRequest.t :=
  TradeRequest.mk Mock.alice "bond-xx" 5 "buy".

(** Identifiers and demands for a poll of the catalog. *)
Definition some_uuid (i : nat) : string :=
  match i with
  | O => "uuid-0"
  | S O => "uuid-1"
  | S (S O) => "uuid-2"
  | _ => "uuid-3"
  end.

Definition steady_demand (i : nat) : Q := 1.

(** * Properties *)

(** ** Facts about the numeric primitives *)

Section Numerics.

(** [Py.ltb] decides the strict order. *)
Lemma ltb_lt (a b : Q) : Py.ltb a b = true <-> a < b.
Proof.
  unfold Py.ltb. rewrite negb_true_iff. split.
  - intros H. apply Qnot_le_lt. intros Hle.
    apply Qle_bool_iff in Hle. congruence.
  - intros H. destruct (Qle_bool b a) eqn:E; [| reflexivity].
    apply Qle_bool_iff in E. exfalso. exact (Qlt_not_le _ _ H E).
Qed.

(** [Py.ltb] is false exactly when the order is the other way round. *)
Lemma ltb_ge (a b : Q) : Py.ltb a b = false <-> b <= a.
Proof.
  unfold Py.ltb. rewrite negb_false_iff. apply Qle_bool_iff.
Qed.

(** [max(a, b)] is at least [a]. *)
Lemma max_ge_l (a b : Q) : a <= Py.max a b.
Proof.
  unfold Py.max. destruct (Py.ltb a b) eqn:E.
  - apply ltb_lt in E. apply Qlt_le_weak, E.
  - apply Qle_refl.
Qed.

(** [max(a, b)] is at least [b]. *)
Lemma max_ge_r (a b : Q) : b <= Py.max a b.
Proof.
  unfold Py.max. destruct (Py.ltb a b) eqn:E.
  - apply Qle_refl.
  - apply ltb_ge, E.
Qed.

(** Python's [max] of two floats is the library maximum. *)
Lemma max_Qmax (a b : Q) : Py.max a b = Qmax a b.
Proof.
  unfold Py.max, Qmax, GenericMinMax.gmax.
  destruct (Py.ltb a b) eqn:E.
  - apply ltb_lt in E.
    destruct (Qcompare_spec a b) as [H | H | H]; try reflexivity; exfalso; lra.
  - destruct (Qcompare_spec a b) as [H | H | H]; try reflexivity.
    apply ltb_lt in H. congruence.
Qed.

(** Rounding moves to the floor or to the integer above it. *)
Lemma round_half_even_floor (x : Q) :
  (Qfloor x <= Py.round_half_even x <= Qfloor x + 1)%Z.
Proof.
  unfold Py.round_half_even.
  destruct (Qcompare _ _); [destruct (Z.even _) | |]; lia.
Qed.

(** Rounding to the nearest integer is monotone. *)
Lemma round_half_even_mono (x y : Q) :
  x <= y -> (Py.round_half_even x <= Py.round_half_even y)%Z.
Proof.
  intros Hxy.
  pose proof (Qfloor_resp_le _ _ Hxy) as Hf.
  destruct (Z.eq_dec (Qfloor x) (Qfloor y)) as [Heq | Hne].
  - unfold Py.round_half_even. rewrite <- Heq.
    destruct (Qcompare_spec (x - inject_Z (Qfloor x)) (1 # 2)) as [Hx | Hx | Hx];
      destruct (Qcompare_spec (y - inject_Z (Qfloor x)) (1 # 2)) as [Hy | Hy | Hy];
      try (destruct (Z.even (Qfloor x))); try lia; exfalso; lra.
  - pose proof (round_half_even_floor x). pose proof (round_half_even_floor y).
    lia.
Qed.

(** [round(x, 2)] is monotone. *)
Lemma round2_mono (x y : Q) : x <= y -> Py.round2 x <= Py.round2 y.
Proof.
  intros Hxy. unfold Py.round2, Qle. simpl.
  apply Z.mul_le_mono_nonneg_r; [lia |].
  apply round_half_even_mono. lra.
Qed.

(** Rounding does not tell equal rationals apart. *)
Lemma round2_comp (x y : Q) : x == y -> Py.round2 x = Py.round2 y.
Proof.
  intros H. unfold Py.round2. f_equal.
  apply Z.le_antisymm; apply round_half_even_mono; rewrite H; apply Qle_refl.
Qed.

(** An integer is its own rounding. *)
Lemma round_half_even_Z (z : Z) : Py.round_half_even (inject_Z z) = z.
Proof.
  unfold Py.round_half_even. rewrite Qfloor_Z.
  destruct (Qcompare_spec (inject_Z z - inject_Z z) (1 # 2)) as [H | H | H];
    try reflexivity; exfalso; lra.
Qed.

(** A value with two decimals is its own rounding. *)
Lemma round2_idempotent (x : Q) : Py.round2 (Py.round2 x) = Py.round2 x.
Proof.
  unfold Py.round2 at 1 3. f_equal.
  set (z := Py.round_half_even (x * 100)).
  transitivity (Py.round_half_even (inject_Z z)); [| apply round_half_even_Z].
  apply Z.le_antisymm; apply round_half_even_mono;
    unfold Py.round2; fold z; unfold Qle, Qmult, inject_Z; simpl; lia.
Qed.

(** [round(x, 2)] is within half a cent of [x]. *)
Lemma round2_close (x : Q) :
  x - (1 # 200) <= Py.round2 x <= x + (1 # 200).
Proof.
  unfold Py.round2, Py.round_half_even.
  pose proof (Qfloor_le (x * 100)) as Hlo.
  pose proof (Qlt_floor (x * 100)) as Hhi.
  set (f := Qfloor (x * 100)) in *. clearbody f.
  rewrite inject_Z_plus in Hhi. change (inject_Z 1) with 1 in Hhi.
  assert (Hmk : forall z : Z, z # 100 == inject_Z z * (1 # 100)).
  { intros z. unfold Qeq. simpl. lia. }
  destruct (Qcompare_spec (x * 100 - inject_Z f) (1 # 2)) as [H | H | H];
    [destruct (Z.even f) | |]; rewrite Hmk; try rewrite inject_Z_plus;
    try change (inject_Z 1) with 1; generalize dependent (inject_Z f);
    intros; split; lra.
Qed.

End Numerics.

(** ** Pricing engine *)

Section Pricing.

(** The engine raises exactly when the bond has no supply at all. *)
Lemma calculate_bond_price_total (bond : Bond.t) (market_demand : Q) :
  Bond.total_supply bond <> 0%Z ->
  exists p, calculate_bond_price bond market_demand = inr p.
Proof.
  intros H. unfold calculate_bond_price.
  destruct (Z.eqb_spec (Bond.total_supply bond) 0); [contradiction |].
  eexists. reflexivity.
Qed.

(** C3.  Whatever the bond and the demand signal, the price the engine
    returns is at least 70% of the face value; the engine returns a price
    unless the bond's total supply is zero, where the division raises. *)
Theorem calculate_bond_price_floor (bond : Bond.t) (market_demand : Q) :
  match calculate_bond_price bond market_demand with
  | inr price => Bond.face_value bond * (7 # 10) <= price
  | inl e => e = ZeroDivisionError /\ Bond.total_supply bond = 0%Z
  end.
Proof.
  unfold calculate_bond_price.
  destruct (Z.eqb_spec (Bond.total_supply bond) 0) as [H0 | Hn0].
  - split; [reflexivity | assumption].
  - apply max_ge_r.
Qed.

(** C4, as stated, fails: the engine's price for [ghana_7501] is 939.495,
    which is not a value rounded to 2 decimals. *)
Lemma calculate_bond_price_not_rounded :
  match calculate_bond_price ghana_7501 1 with
  | inr price => price == 939495 # 1000 /\ ~ price == spec_price ghana_7501 1
  | inl _ => False
  end.
Proof.
  vm_compute. split; [reflexivity | discriminate].
Qed.

(** C4, amended.  The engine returns the maximum of the raw price and 70% of
    the face value, unrounded; it raises when the total supply is zero. *)
Theorem calculate_bond_price_formula (bond : Bond.t) (demand_signal : Q) :
  match calculate_bond_price bond demand_signal with
  | inr price =>
      price = Qmax (spec_raw_price bond demand_signal)
                (Bond.face_value bond * (7 # 10))
  | inl e => e = ZeroDivisionError /\ Bond.total_supply bond = 0%Z
  end.
Proof.
  unfold calculate_bond_price, spec_raw_price.
  destruct (Z.eqb_spec (Bond.total_supply bond) 0) as [H0 | Hn0].
  - split; [reflexivity | assumption].
  - apply max_Qmax.
Qed.

End Pricing.

(** ** Yield engine *)

Section Yield.

Variable strptime : string -> option datetime.

(** Past maturity the day count, and with it the years to maturity, is
    negative. *)
Lemma years_to_maturity_negative (maturity now : datetime) :
  (maturity < now)%Z -> spec_years_to_maturity (days_between maturity now) < 0.
Proof.
  intros H. unfold spec_years_to_maturity, days_between, Py.timedelta_days.
  assert (Hd : ((maturity - now) / 86400000000 < 0)%Z).
  { apply Z.div_lt_upper_bound; lia. }
  unfold Qdiv. change (/ (36525 # 100)) with (100 # 36525).
  assert (Hq : inject_Z ((maturity - now) / 86400000000) < 0).
  { change 0 with (inject_Z 0). rewrite <- Zlt_Qlt. exact Hd. }
  lra.
Qed.

(** C5.  For every bond and current time, the yield engine returns
    [round(coupon_rate * (1 + risk_factor/100) + max(0, years - 2) * 0.3, 2)]
    with [years] the whole days to maturity over 365.25, unclamped; it
    raises [ValueError] when the maturity date does not parse. *)
Theorem calculate_dynamic_yield_formula (bond : Bond.t) (now : datetime) :
  match strptime (Bond.maturity_date bond) with
  | Some maturity =>
      calculate_dynamic_yield strptime bond now
      = inr (spec_yield (Bond.coupon_rate bond) (Bond.risk_factor bond)
               (days_between maturity now))
  | None => calculate_dynamic_yield strptime bond now = inl ValueError
  end.
Proof.
  unfold calculate_dynamic_yield, spec_yield, spec_years_to_maturity, days_between.
  destruct (strptime (Bond.maturity_date bond)) as [maturity |].
  - rewrite max_Qmax. reflexivity.
  - reflexivity.
Qed.

(** C8, as stated, fails for a bond with a negative coupon rate: raising the
    risk factor from 0 to 10 lowers the yield from -5.0 to -5.5. *)
Lemma yield_decreases_for_negative_coupon :
  0 <= 10 /\
  match calculate_dynamic_yield Calendar.strptime_ymd
          (Bond.with_risk_factor 0 negative_coupon) (Calendar.midnight 2025 1 1),
        calculate_dynamic_yield Calendar.strptime_ymd
          (Bond.with_risk_factor 10 negative_coupon) (Calendar.midnight 2025 1 1)
  with
  | inr y0, inr y10 => y0 == -5 /\ y10 == -55 # 10 /\ ~ y0 <= y10
  | _, _ => False
  end.
Proof.
  split; [unfold Qle; simpl; lia |].
  vm_compute. repeat split. intros H. apply H. reflexivity.
Qed.

(** C8, amended.  For a bond whose coupon rate is not negative, and a fixed
    current time, the yield is non-decreasing in the risk factor, the other
    fields being fixed; the two calls raise together when the maturity date
    does not parse. *)
Theorem calculate_dynamic_yield_monotone_in_risk
    (bond : Bond.t) (r1 r2 : Q) (now : datetime) :
  0 <= Bond.coupon_rate bond ->
  r1 <= r2 ->
  match calculate_dynamic_yield strptime (Bond.with_risk_factor r1 bond) now,
        calculate_dynamic_yield strptime (Bond.with_risk_factor r2 bond) now
  with
  | inr y1, inr y2 => y1 <= y2
  | inl e1, inl e2 => e1 = ValueError /\ e2 = ValueError
  | _, _ => False
  end.
Proof.
  intros Hc Hr. unfold calculate_dynamic_yield. simpl.
  destruct (strptime (Bond.maturity_date bond)) as [maturity |];
    [| split; reflexivity].
  apply round2_mono.
  apply Qplus_le_compat; [| apply Qle_refl].
  unfold Qdiv. change (/ 100) with (1 # 100).
  rewrite (Qmult_comm _ (1 + r1 * _)), (Qmult_comm _ (1 + r2 * _)).
  apply Qmult_le_compat_r; [lra | exact Hc].
Qed.

End Yield.

(** ** Facts about the collections *)

Section Collections.

(** [find_one] returns a document with the identifier asked for. *)
Lemma find_bond_id (id : string) (l : list BondDoc.t) (d : BondDoc.t) :
  find_bond id l = Some d -> BondDoc.id d = id.
Proof.
  induction l as [| d0 l IH]; simpl; [discriminate |].
  destruct (String.eqb_spec (BondDoc.id d0) id) as [E | E]; [| exact IH].
  intros [= <-]. exact E.
Qed.

(** [update_one] rewrites the first document with the identifier and leaves
    the documents around it as they are. *)
Lemma update_bond_supply_split (id : string) (v : Q) (l : list BondDoc.t)
    (d : BondDoc.t) :
  find_bond id l = Some d ->
  exists before after,
    l = (before ++ d :: after)%list /\
    find_bond id before = None /\
    update_bond_supply id v l
    = (before ++ BondDoc.set_available_supply v d :: after)%list.
Proof.
  induction l as [| d0 l IH]; simpl; [discriminate |].
  destruct (BondDoc.id d0 =? id) eqn:E.
  - intros [= <-]. exists [], l. simpl. auto.
  - intros H. destruct (IH H) as (before & after & -> & Hb & Hu).
    exists (d0 :: before), after. simpl. rewrite E, Hu. auto.
Qed.

(** [update_one] without a matching document changes nothing. *)
Lemma update_bond_supply_absent (id : string) (v : Q) (l : list BondDoc.t) :
  find_bond id l = None -> update_bond_supply id v l = l.
Proof.
  induction l as [| d0 l IH]; simpl; [reflexivity |].
  destruct (BondDoc.id d0 =? id); [discriminate |].
  intros H. now rewrite IH.
Qed.

(** Reading the traded bond back after [update_one]. *)
Lemma find_bond_update_same (id : string) (v : Q) (l : list BondDoc.t) :
  find_bond id (update_bond_supply id v l)
  = option_map (BondDoc.set_available_supply v) (find_bond id l).
Proof.
  induction l as [| d0 l IH]; simpl; [reflexivity |].
  destruct (BondDoc.id d0 =? id) eqn:E; simpl; rewrite E; auto.
Qed.

(** [update_one] does not affect the lookup of another identifier. *)
Lemma find_bond_update_other (id id' : string) (v : Q) (l : list BondDoc.t) :
  id' <> id ->
  find_bond id' (update_bond_supply id v l) = find_bond id' l.
Proof.
  intros Hne. induction l as [| d0 l IH]; simpl; [reflexivity |].
  destruct (String.eqb_spec (BondDoc.id d0) id) as [E | E]; simpl.
  - destruct (String.eqb_spec (BondDoc.id d0) id'); [congruence | reflexivity].
  - now rewrite IH.
Qed.

(** [find_one] returns a portfolio of the address asked for. *)
Lemma find_portfolio_address (a : string) (l : list Portfolio.t) (p : Portfolio.t) :
  find_portfolio a l = Some p -> Portfolio.user_address p = a.
Proof.
  induction l as [| p0 l IH]; simpl; [discriminate |].
  destruct (String.eqb_spec (Portfolio.user_address p0) a) as [E | E]; [| exact IH].
  intros [= <-]. exact E.
Qed.

(** After [replace_one] with upsert the address finds the new document. *)
Lemma find_portfolio_replace (a : string) (p : Portfolio.t) (l : list Portfolio.t) :
  Portfolio.user_address p = a ->
  find_portfolio a (replace_portfolio a p l) = Some p.
Proof.
  intros Hp. induction l as [| p0 l IH]; simpl.
  - rewrite Hp, String.eqb_refl. reflexivity.
  - destruct (Portfolio.user_address p0 =? a) eqn:E; simpl.
    + rewrite Hp, String.eqb_refl. reflexivity.
    + rewrite E. exact IH.
Qed.

(** [replace_one] leaves the portfolios of the other users as they are. *)
Lemma other_portfolios_replace (a : string) (p : Portfolio.t) (l : list Portfolio.t) :
  Portfolio.user_address p = a ->
  other_portfolios a (replace_portfolio a p l) = other_portfolios a l.
Proof.
  intros Hp. unfold other_portfolios.
  induction l as [| p0 l IH]; simpl.
  - rewrite Hp, String.eqb_refl. reflexivity.
  - destruct (Portfolio.user_address p0 =? a) eqn:E; simpl.
    + rewrite Hp, String.eqb_refl. reflexivity.
    + rewrite E. simpl. now rewrite IH.
Qed.

(** Reading a key back after writing it. *)
Lemma dict_get_set (k : string) (v : Q) (d : Dict.t) :
  Dict.get k (Dict.set k v d) = Some v.
Proof.
  induction d as [| [k' v'] d IH]; simpl.
  - now rewrite String.eqb_refl.
  - destruct (k' =? k) eqn:E; simpl; rewrite E; auto.
Qed.

(** Membership is having a value. *)
Lemma dict_mem_get (k : string) (d : Dict.t) :
  Dict.mem k d = match Dict.get k d with Some _ => true | None => false end.
Proof.
  induction d as [| [k' v'] d IH]; simpl; [reflexivity |].
  destruct (k' =? k); auto.
Qed.

(** A deleted key is not a member. *)
Lemma dict_mem_del (k : string) (d : Dict.t) : Dict.mem k (Dict.del k d) = false.
Proof.
  unfold Dict.del. induction d as [| [k' v'] d IH]; simpl; [reflexivity |].
  destruct (k' =? k) eqn:E; simpl; [exact IH |]. now rewrite E.
Qed.

End Collections.

(** ** Trade settlement, case by case *)

Section Settlement.

Variable strptime : string -> option datetime.
Variable strict_int : bool.

(** *** Exceptions of the helpers *)

(** Validation fails with [ValidationError] only. *)
Lemma Bond_of_doc_error (d : BondDoc.t) (e : exn) :
  Bond_of_doc strict_int d = inl e -> e = ValidationError.
Proof.
  unfold Bond_of_doc, validate_int.
  destruct (Py.is_integral _); [discriminate |].
  destruct strict_int; [| discriminate].
  now intros [= <-].
Qed.

(** Validation copies the fields and converts the available supply. *)
Lemma Bond_of_doc_fields (d : BondDoc.t) (b : Bond.t) :
  Bond_of_doc strict_int d = inr b ->
  Bond.id b = BondDoc.id d /\
  Bond.current_price b = BondDoc.current_price d /\
  Bond.total_supply b = BondDoc.total_supply d /\
  validate_int strict_int (BondDoc.available_supply d) = inr (Bond.available_supply b).
Proof.
  unfold Bond_of_doc.
  destruct (validate_int _ _) as [e | a]; [discriminate |].
  intros [= <-]. simpl. auto.
Qed.

(** The yield engine fails with [ValueError] only. *)
Lemma calculate_dynamic_yield_error (b : Bond.t) (now : datetime) (e : exn) :
  calculate_dynamic_yield strptime b now = inl e -> e = ValueError.
Proof.
  unfold calculate_dynamic_yield. destruct (strptime _); [discriminate |].
  now intros [= <-].
Qed.

(** The pricing engine fails only by dividing by a zero total supply. *)
Lemma calculate_bond_price_error (b : Bond.t) (m : Q) (e : exn) :
  calculate_bond_price b m = inl e ->
  e = ZeroDivisionError /\ Bond.total_supply b = 0%Z.
Proof.
  unfold calculate_bond_price.
  destruct (Z.eqb_spec (Bond.total_supply b) 0) as [H0 | Hn0]; [| discriminate].
  intros [= <-]. split; [reflexivity | assumption].
Qed.

(** *** The recalculation loop only reads *)

(** The recalculation loop leaves the database as it is. *)
Lemma recalculate_snd (now : datetime) (items : Dict.t) (acc : Q * Q) (db : DB.t) :
  snd (recalculate strptime strict_int now items acc db) = db.
Proof.
  revert acc. induction items as [| [bond_id quantity] rest IH]; intros acc.
  - reflexivity.
  - simpl. unfold bind, bonds_find_one, lift. simpl.
    destruct (find_bond bond_id (DB.bonds db)) as [d |]; [| apply IH].
    destruct (Bond_of_doc strict_int d) as [e | b]; [reflexivity |].
    destruct (calculate_dynamic_yield strptime b now) as [e | y]; [reflexivity |].
    apply IH.
Qed.

(** The recalculation loop raises no HTTP error. *)
Lemma recalculate_error (now : datetime) (items : Dict.t) (acc : Q * Q)
    (db : DB.t) (e : exn) :
  fst (recalculate strptime strict_int now items acc db) = inl e -> is_http e = false.
Proof.
  revert acc. induction items as [| [bond_id quantity] rest IH]; intros acc.
  - discriminate.
  - simpl. unfold bind, bonds_find_one, lift. simpl.
    destruct (find_bond bond_id (DB.bonds db)) as [d |]; [| apply IH].
    destruct (Bond_of_doc strict_int d) as [e' | b] eqn:Eb.
    { intros [= <-]. apply Bond_of_doc_error in Eb. now subst. }
    destruct (calculate_dynamic_yield strptime b now) as [e' | y] eqn:Ey.
    { intros [= <-]. apply calculate_dynamic_yield_error in Ey. now subst. }
    apply IH.
Qed.

(** Booking the trade on the holdings raises no HTTP error. *)
Lemma update_holdings_error (trade : TradeRequest.t) (bonds : Dict.t) (e : exn) :
  update_holdings trade bonds = inl e -> is_http e = false.
Proof.
  unfold update_holdings.
  repeat match goal with
         | |- context [match ?x with _ => _ end] => destruct x
         end; try discriminate; now intros [= <-].
Qed.

(** *** Every call ends in one of the outcomes *)

Section OutcomeCases.

Variable env : Env.t.
Variable trade : TradeRequest.t.

(** The saved portfolio is filed under the requester's address. *)
Lemma saved_portfolio_address (db : DB.t) (holdings : Dict.t) (totals : Q * Q) :
  Portfolio.user_address
    (saved_portfolio (loaded_portfolio env trade db) holdings totals)
  = TradeRequest.user_address trade.
Proof.
  unfold saved_portfolio, loaded_portfolio. cbn [Portfolio.user_address].
  destruct (find_portfolio (TradeRequest.user_address trade) (DB.portfolios db))
    eqn:Ep; [| reflexivity].
  eapply find_portfolio_address; eassumption.
Qed.

(** The outcome of a call, read off the pair it returns. *)
Lemma execute_trade_cases (db : DB.t) :
  let (r, db') := execute_trade strptime strict_int env trade db in
  settles strptime strict_int env trade db r db'.
Proof.
  unfold execute_trade.
  unfold bind at 1. unfold bonds_find_one at 1. cbn [fst snd].
  destruct (find_bond (TradeRequest.bond_id trade) (DB.bonds db)) as [d |] eqn:Ef;
    [| apply settles_not_found; assumption].
  unfold bind at 1. unfold lift at 1.
  destruct (Bond_of_doc strict_int d) as [e | bond] eqn:Eb.
  { pose proof (Bond_of_doc_error _ _ Eb) as ->.
    eapply settles_invalid_bond; eassumption. }
  destruct ((TradeRequest.transaction_type trade =? "buy")
            && Py.ltb (inject_Z (Bond.available_supply bond))
                 (TradeRequest.quantity trade)) eqn:Eg.
  { apply andb_true_iff in Eg as [Hb Hlt]. apply ltb_lt in Hlt.
    eapply settles_insufficient; eassumption. }
  assert (Hok : passes_guard trade bond).
  { intros Hb. rewrite Hb in Eg. simpl in Eg. now apply ltb_ge. }
  unfold bind at 1. unfold lift at 1.
  destruct (calculate_bond_price bond 1) as [e | trade_price] eqn:Ep.
  { destruct (calculate_bond_price_error _ _ _ Ep) as [-> Hz].
    eapply settles_no_price; eassumption. }
  unfold bind at 1. unfold transactions_insert_one at 1.
  unfold bind at 1. unfold bonds_update_one at 1.
  cbn [DB.bonds DB.transactions DB.portfolios].
  unfold bind at 1. unfold portfolios_find_one at 1.
  cbn [DB.bonds DB.transactions DB.portfolios].
  change (DB.mk
            (update_bond_supply (TradeRequest.bond_id trade)
               (if TradeRequest.transaction_type trade =? "buy"
                then inject_Z (Bond.available_supply bond)
                     - TradeRequest.quantity trade
                else inject_Z (Bond.available_supply bond)
                     + TradeRequest.quantity trade)
               (DB.bonds db))
            (DB.transactions db
             ++ [BondTransaction.mk (Env.transaction_uuid env)
                   (TradeRequest.user_address trade) (TradeRequest.bond_id trade)
                   (TradeRequest.transaction_type trade) (TradeRequest.quantity trade)
                   trade_price (trade_price * TradeRequest.quantity trade)
                   (Env.utcnow env)])
            (DB.portfolios db))
    with (booked env trade bond trade_price db).
  change (match find_portfolio (TradeRequest.user_address trade) (DB.portfolios db) with
          | Some p => p
          | None =>
              Portfolio.mk (Env.portfolio_uuid env) (TradeRequest.user_address trade)
                [] 0 0 (Env.utcnow env)
          end) with (loaded_portfolio env trade db).
  unfold bind at 1. unfold lift at 1.
  destruct (update_holdings trade (Portfolio.bonds (loaded_portfolio env trade db)))
    as [e | holdings] eqn:Eh.
  { eapply settles_interrupted; try eassumption.
    eapply update_holdings_error; eassumption. }
  unfold bind at 1.
  pose proof (recalculate_snd (Env.now env) holdings (0, 0)
                (booked env trade bond trade_price db)) as Hsnd.
  pose proof (recalculate_error (Env.now env) holdings (0, 0)
                (booked env trade bond trade_price db)) as Herr.
  destruct (recalculate strptime strict_int (Env.now env) holdings
              (0, 0) (booked env trade bond trade_price db))
    as [[e | totals] db1] eqn:Er;
    cbn [fst snd] in *; subst db1.
  { eapply settles_interrupted; try eassumption. now apply Herr. }
  unfold bind, portfolios_replace_one, ret. cbn [fst snd].
  eapply settles_done; try eassumption.
  now rewrite Er.
Qed.

(** Every call of [execute_trade] ends in one of the outcomes of [settles]. *)
Lemma execute_trade_settles (db : DB.t) :
  settles strptime strict_int env trade db
    (fst (execute_trade strptime strict_int env trade db))
    (snd (execute_trade strptime strict_int env trade db)).
Proof.
  pose proof (execute_trade_cases db) as H.
  destruct (execute_trade strptime strict_int env trade db) as [r db']. exact H.
Qed.

End OutcomeCases.

End Settlement.

(** ** Properties of trade settlement *)

Section SettlementProperties.

Variable strptime : string -> option datetime.
Variable strict_int : bool.

(** Case analysis on the outcome of a call, [H : settles ...]. *)
Ltac outcomes H :=
  destruct H as [Hf | d0 Hf Hb | d0 bond0 Hf Hb Hbuy Hlt | d0 bond0 Hf Hb Hok Hz
                 | d0 bond0 price e Hf Hb Hok Hp He
                 | d0 bond0 price holdings totals Hf Hb Hok Hp Hh Hr].

(** *** Integer validation *)

(** Truncating a non-negative float gives an integer between 0 and it. *)
Lemma trunc_nonneg (x : Q) : 0 <= x -> 0 <= inject_Z (Py.trunc x) <= x.
Proof.
  intros Hx. unfold Py.trunc. destruct x as [n dn]. cbn [Qnum Qden].
  set (x := n # dn) in *.
  assert (Hn : (0 <= n)%Z).
  { unfold Qle in Hx. simpl in Hx. lia. }
  rewrite Z.quot_div_nonneg by lia.
  change (n / Z.pos dn)%Z with (Qfloor x).
  split.
  - change 0 with (inject_Z 0). rewrite <- Zle_Qle.
    change 0%Z with (Qfloor 0). now apply Qfloor_resp_le.
  - apply Qfloor_le.
Qed.

(** A validated integer is the truncation of the float, in either mode. *)
Lemma validate_int_trunc (x : Q) (z : Z) :
  validate_int strict_int x = inr z -> z = Py.trunc x.
Proof.
  unfold validate_int.
  destruct (Py.is_integral x); [now intros [= <-] |].
  destruct strict_int; [discriminate | now intros [= <-]].
Qed.

(** *** Supply bounds (C1) *)

(** C1, as stated, fails: on the seed catalog the Ghana bond has 7500 of
    10000 units available; selling 3000 units succeeds and leaves 10500
    available, above the total supply. *)
Lemma sell_breaks_supply_bound :
  let out := execute_trade Calendar.strptime_ymd true Mock.env
               sell_3000 Mock.seeded in
  (find_bond "bond-gh" (DB.bonds Mock.seeded) = Some Mock.ghana
   /\ supply_in_bounds Mock.ghana)
  /\ (exists receipt, fst out = inr receipt)
  /\ match find_bond "bond-gh" (DB.bonds (snd out)) with
     | Some d' => BondDoc.available_supply d' == 10500 /\ ~ supply_in_bounds d'
     | None => False
     end.
Proof.
  split; [split; [reflexivity | split; unfold Qle; simpl; lia] |].
  split; [eexists; vm_compute; reflexivity |].
  vm_compute. split; [reflexivity |].
  intros [_ H]. apply H. reflexivity.
Qed.

(** C1, amended.  A call of [execute_trade] with a non-negative quantity
    that, when it is not a buy, does not exceed the units outstanding
    ([total_supply - available_supply]) keeps the traded bond within
    [0 <= available_supply <= total_supply], however the call ends. *)
Theorem execute_trade_keeps_supply_bounds
    (env : Env.t) (trade : TradeRequest.t) (db : DB.t) (d : BondDoc.t) :
  find_bond (TradeRequest.bond_id trade) (DB.bonds db) = Some d ->
  supply_in_bounds d ->
  0 <= TradeRequest.quantity trade ->
  (TradeRequest.transaction_type trade <> "buy" ->
   BondDoc.available_supply d + TradeRequest.quantity trade
   <= inject_Z (BondDoc.total_supply d)) ->
  exists d',
    find_bond (TradeRequest.bond_id trade)
      (DB.bonds (snd (execute_trade strptime strict_int env trade db))) = Some d'
    /\ supply_in_bounds d'.
Proof.
  intros Hfind [Hlo Hhi] Hq Hsell.
  pose proof (execute_trade_settles strptime strict_int env trade db) as H.
  assert (Hbooked : forall d0 bond price,
    find_bond (TradeRequest.bond_id trade) (DB.bonds db) = Some d0 ->
    Bond_of_doc strict_int d0 = inr bond ->
    ((TradeRequest.transaction_type trade =? "buy") = true ->
     TradeRequest.quantity trade <= inject_Z (Bond.available_supply bond)) ->
    exists d',
      find_bond (TradeRequest.bond_id trade)
        (DB.bonds (booked env trade bond price db)) = Some d'
      /\ supply_in_bounds d').
  { intros d0 bond price Hf0 Hb Hok.
    rewrite Hfind in Hf0. injection Hf0 as <-.
    destruct (Bond_of_doc_fields _ _ _ Hb) as (_ & _ & Ht & Hv).
    apply validate_int_trunc in Hv.
    pose proof (trunc_nonneg _ Hlo) as [Ha0 Ha1]. rewrite <- Hv in Ha0, Ha1.
    eexists. split.
    - unfold booked. cbn [DB.bonds]. rewrite find_bond_update_same, Hfind.
      reflexivity.
    - unfold supply_in_bounds, new_available_supply. simpl.
      destruct (String.eqb_spec (TradeRequest.transaction_type trade) "buy")
        as [Eb | Eb].
      + specialize (Hok eq_refl). split; lra.
      + specialize (Hsell Eb). split; lra. }
  destruct H; cbn [DB.bonds with_portfolio];
    try (exists d; split; [assumption | split; assumption]);
    eapply Hbooked; eassumption.
Qed.

(** *** Rejections (C7) *)

(** C7, amended.  [execute_trade] raises an HTTP error exactly when one of
    its two guards fires: the bond is not in the catalog (404), or the
    request is a buy of more than the available supply (400).  Both are
    raised before any mutation.  Neither guard looks at the sign of the
    quantity or at a transaction type other than "buy", so a request with a
    non-positive quantity or an unknown type is not rejected for that. *)
Theorem execute_trade_http_errors
    (env : Env.t) (trade : TradeRequest.t) (db : DB.t) :
  match fst (execute_trade strptime strict_int env trade db) with
  | inl e =>
      if is_http e
      then guard strict_int trade db = Some e
           /\ snd (execute_trade strptime strict_int env trade db) = db
      else guard strict_int trade db = None
  | inr _ => guard strict_int trade db = None
  end.
Proof.
  pose proof (execute_trade_settles strptime strict_int env trade db) as H.
  unfold guard.
  outcomes H;
    unfold passes_guard in *;
    cbn [is_http]; try rewrite He; rewrite Hf; try rewrite Hb; auto.
  - rewrite Hbuy. apply ltb_lt in Hlt. rewrite Hlt. auto.
  - destruct (TradeRequest.transaction_type trade =? "buy"); [| reflexivity].
    specialize (Hok eq_refl). apply ltb_ge in Hok. now rewrite Hok.
  - destruct (TradeRequest.transaction_type trade =? "buy"); [| reflexivity].
    specialize (Hok eq_refl). apply ltb_ge in Hok. now rewrite Hok.
  - destruct (TradeRequest.transaction_type trade =? "buy"); [| reflexivity].
    specialize (Hok eq_refl). apply ltb_ge in Hok. now rewrite Hok.
Qed.

(** C7, as stated, fails: on the seed catalog a buy of -5 units and a
    request of type "swap" both return a receipt, and both have written the
    log and the bond's supply (7505 in either case). *)
Lemma invalid_requests_are_settled :
  let run := execute_trade Calendar.strptime_ymd true Mock.env in
  ((exists receipt, fst (run buy_minus_5 Mock.seeded) = inr receipt)
   /\ List.length (DB.transactions (snd (run buy_minus_5 Mock.seeded))) = 1%nat
   /\ option_map BondDoc.available_supply
        (find_bond "bond-gh" (DB.bonds (snd (run buy_minus_5 Mock.seeded))))
      = Some (7500 - -5))
  /\
  ((exists receipt, fst (run swap_5 Mock.seeded) = inr receipt)
   /\ List.length (DB.transactions (snd (run swap_5 Mock.seeded))) = 1%nat
   /\ option_map BondDoc.available_supply
        (find_bond "bond-gh" (DB.bonds (snd (run swap_5 Mock.seeded))))
      = Some (7500 + 5)).
Proof.
  split; (split; [eexists; vm_compute; reflexivity |]);
    split; vm_compute; reflexivity.
Qed.

(** *** Selling more than is held (C2) *)

(** C2, as stated, fails: alice holds 2 units and sells 5; the call returns
    a receipt, the log has a new record, the supply went from 7500 to 7505
    and her holding is gone. *)
Lemma oversell_is_settled :
  let out := execute_trade Calendar.strptime_ymd true Mock.env
               sell_5 alice_holds_2 in
  holding alice_holds_2 Mock.alice "bond-gh" < TradeRequest.quantity sell_5
  /\ (exists receipt, fst out = inr receipt)
  /\ snd out <> alice_holds_2
  /\ List.length (DB.transactions (snd out)) = 1%nat
  /\ option_map BondDoc.available_supply (find_bond "bond-gh" (DB.bonds (snd out)))
     = Some (7500 + 5)
  /\ option_map Portfolio.bonds (find_portfolio Mock.alice (DB.portfolios (snd out)))
     = Some [].
Proof.
  split; [reflexivity |].
  split; [eexists; vm_compute; reflexivity |].
  split; [| repeat split; vm_compute; reflexivity].
  intros H. apply (f_equal (fun db => List.length (DB.transactions db))) in H.
  vm_compute in H. discriminate.
Qed.

(** A sale of more than is held removes the bond from the holdings. *)
Lemma update_holdings_oversell (trade : TradeRequest.t) (bonds holdings : Dict.t) :
  (TradeRequest.transaction_type trade =? "buy") = false ->
  match Dict.get (TradeRequest.bond_id trade) bonds with
  | Some q => q
  | None => 0
  end < TradeRequest.quantity trade ->
  update_holdings trade bonds = inr holdings ->
  Dict.mem (TradeRequest.bond_id trade) holdings = false.
Proof.
  intros Hsell Hlt. unfold update_holdings. rewrite Hsell, dict_mem_get.
  set (k := TradeRequest.bond_id trade) in *.
  set (q := TradeRequest.quantity trade) in *.
  assert (Hdel : forall held d h,
    held < q ->
    match Dict.get k (Dict.set k (held - q) d) with
    | Some remaining =>
        if Qle_bool remaining 0 then inr (Dict.del k (Dict.set k (held - q) d))
        else inr (Dict.set k (held - q) d)
    | None => inl KeyError
    end = inr h -> Dict.mem k h = false).
  { intros held d h Hh. rewrite dict_get_set.
    assert (Hle : Qle_bool (held - q) 0 = true) by (apply Qle_bool_iff; lra).
    rewrite Hle. intros [= <-]. apply dict_mem_del. }
  destruct (Dict.get k bonds) as [held |] eqn:Eg; cbn [negb].
  - rewrite Eg. now apply Hdel.
  - rewrite dict_get_set. now apply Hdel.
Qed.

(** C2, amended.  A sell of more than the user holds, of a bond in the
    catalog that validates and has a non-zero total supply, is not rejected:
    the call appends the transaction record and adds the quantity to the
    bond's available supply, raises no HTTP error and, when it returns,
    has saved the user's portfolio without the bond. *)
Theorem execute_trade_oversell
    (env : Env.t) (trade : TradeRequest.t) (db : DB.t)
    (d : BondDoc.t) (bond : Bond.t) :
  TradeRequest.transaction_type trade = "sell" ->
  find_bond (TradeRequest.bond_id trade) (DB.bonds db) = Some d ->
  Bond_of_doc strict_int d = inr bond ->
  Bond.total_supply bond <> 0%Z ->
  holding db (TradeRequest.user_address trade) (TradeRequest.bond_id trade)
  < TradeRequest.quantity trade ->
  let out := execute_trade strptime strict_int env trade db in
  exists trade_price,
    calculate_bond_price bond 1 = inr trade_price
    /\ DB.transactions (snd out)
       = (DB.transactions db ++ [transaction_record env trade trade_price])%list
    /\ find_bond (TradeRequest.bond_id trade) (DB.bonds (snd out))
       = Some (BondDoc.set_available_supply
                 (inject_Z (Bond.available_supply bond)
                  + TradeRequest.quantity trade) d)
    /\ match fst out with
       | inl e => is_http e = false
       | inr _ =>
           exists p,
             find_portfolio (TradeRequest.user_address trade)
               (DB.portfolios (snd out)) = Some p
             /\ Dict.mem (TradeRequest.bond_id trade) (Portfolio.bonds p) = false
       end.
Proof.
  intros Hsell Hfind Hbond Hts Hheld out. subst out.
  assert (Hnb : (TradeRequest.transaction_type trade =? "buy") = false)
    by (rewrite Hsell; reflexivity).
  pose proof (execute_trade_settles strptime strict_int env trade db) as H.
  assert (Hbooked : forall price,
    find_bond (TradeRequest.bond_id trade)
      (DB.bonds (booked env trade bond price db))
    = Some (BondDoc.set_available_supply
              (inject_Z (Bond.available_supply bond)
               + TradeRequest.quantity trade) d)).
  { intros price. unfold booked. cbn [DB.bonds].
    rewrite find_bond_update_same, Hfind. unfold new_available_supply.
    rewrite Hnb. reflexivity. }
  outcomes H;
    try congruence;
    rewrite Hfind in Hf; injection Hf as <-;
    rewrite Hbond in Hb; injection Hb as <-;
    exists price; (split; [exact Hp |]).
  - split; [reflexivity |]. split; [apply Hbooked | exact He].
  - cbn [with_portfolio DB.bonds DB.transactions DB.portfolios booked].
    split; [reflexivity |]. split; [apply (Hbooked price) |].
    eexists. split.
    + apply find_portfolio_replace, saved_portfolio_address.
    + subst p. cbn [saved_portfolio Portfolio.bonds].
      eapply update_holdings_oversell; try eassumption.
      unfold holding, loaded_portfolio in *.
      destruct (find_portfolio (TradeRequest.user_address trade) (DB.portfolios db));
        exact Hheld.
Qed.

(** *** What a settlement leaves alone (C10) *)

(** Writing the supply changes no other field. *)
Lemma set_available_supply_same (v : Q) (d : BondDoc.t) :
  same_but_supply d (BondDoc.set_available_supply v d).
Proof. repeat split. Qed.

(** Booking the trade rewrites the traded document and no other. *)
Lemma booked_frame (env : Env.t) (trade : TradeRequest.t) (bond : Bond.t)
    (price : Q) (db : DB.t) (d : BondDoc.t) :
  find_bond (TradeRequest.bond_id trade) (DB.bonds db) = Some d ->
  exists before after d',
    DB.bonds db = (before ++ d :: after)%list
    /\ find_bond (TradeRequest.bond_id trade) before = None
    /\ DB.bonds (booked env trade bond price db) = (before ++ d' :: after)%list
    /\ same_but_supply d d'.
Proof.
  intros Hf.
  destruct (update_bond_supply_split _ (new_available_supply trade bond) _ _ Hf)
    as (before & after & Hl & Hb & Hu).
  exists before, after,
    (BondDoc.set_available_supply (new_available_supply trade bond) d).
  unfold booked. cbn [DB.bonds]. rewrite Hu.
  repeat split; assumption.
Qed.

(** C10.  A trade that succeeds rewrites one bond document, the first with
    the traded identifier, and on it only [available_supply]: its
    [current_price] and every other field are as before, and so is every
    other bond document.  The portfolios of the other users are as before. *)
Theorem execute_trade_frame
    (env : Env.t) (trade : TradeRequest.t) (db : DB.t) (receipt : TradeReceipt.t) :
  fst (execute_trade strptime strict_int env trade db) = inr receipt ->
  let db' := snd (execute_trade strptime strict_int env trade db) in
  (exists before d d' after,
     DB.bonds db = (before ++ d :: after)%list
     /\ find_bond (TradeRequest.bond_id trade) before = None
     /\ BondDoc.id d = TradeRequest.bond_id trade
     /\ DB.bonds db' = (before ++ d' :: after)%list
     /\ same_but_supply d d')
  /\ other_portfolios (TradeRequest.user_address trade) (DB.portfolios db')
     = other_portfolios (TradeRequest.user_address trade) (DB.portfolios db).
Proof.
  intros Hres db'. subst db'.
  pose proof (execute_trade_settles strptime strict_int env trade db) as H.
  revert Hres.
  outcomes H;
    intros Hres; try discriminate.
  cbn [with_portfolio DB.bonds DB.portfolios]. split.
  - destruct (booked_frame env trade bond0 price db d0 Hf)
      as (before & after & d' & Hl & Hn & Hb' & Hs).
    exists before, d0, d', after.
    repeat split; try assumption; try apply Hs.
    eapply find_bond_id; eassumption.
  - unfold booked. cbn [DB.portfolios].
    apply other_portfolios_replace, saved_portfolio_address.
Qed.

(** *** The portfolio caches (C6) *)

(** Holdings of non-negative value have a non-negative sum. *)
Lemma holdings_value_nonneg (bonds : list BondDoc.t) (items : Dict.t) :
  Forall (fun kv => 0 <= holding_value bonds kv) items ->
  0 <= holdings_value bonds items.
Proof.
  induction 1 as [| kv items Hkv _ IH]; simpl; [apply Qle_refl | lra].
Qed.

(** One round of the recalculation loop. *)
Lemma recalculate_step (now : datetime) (bond_id : string) (quantity : Q)
    (rest : Dict.t) (acc : Q * Q) (db : DB.t) :
  fst (recalculate strptime strict_int now ((bond_id, quantity) :: rest) acc db)
  = match find_bond bond_id (DB.bonds db) with
    | None => fst (recalculate strptime strict_int now rest acc db)
    | Some d =>
        match Bond_of_doc strict_int d with
        | inl e => inl e
        | inr b =>
            match calculate_dynamic_yield strptime b now with
            | inl e => inl e
            | inr y =>
                let total_value := fst acc + Bond.current_price b * quantity in
                fst (recalculate strptime strict_int now rest
                       (total_value,
                        snd acc
                        + (if Py.ltb 0 total_value
                           then y * (Bond.current_price b * quantity) / total_value
                           else 0)) db)
            end
        end
    end.
Proof.
  simpl. unfold bind at 1. unfold bonds_find_one at 1.
  destruct (find_bond bond_id (DB.bonds db)) as [d |]; [| reflexivity].
  unfold bind at 1. unfold lift at 1.
  destruct (Bond_of_doc strict_int d) as [e | b]; [reflexivity |].
  unfold bind at 1. unfold lift at 1.
  destruct (calculate_dynamic_yield strptime b now) as [e | y]; reflexivity.
Qed.

(** The loop's first total is the sum of the holdings' values. *)
Lemma recalculate_total_value (now : datetime) (items : Dict.t) (acc totals : Q * Q)
    (db : DB.t) :
  fst (recalculate strptime strict_int now items acc db) = inr totals ->
  fst totals == fst acc + holdings_value (DB.bonds db) items.
Proof.
  revert acc. induction items as [| [bond_id quantity] rest IH]; intros acc.
  - simpl. intros [= <-]. lra.
  - rewrite recalculate_step. unfold holdings_value. simpl.
    fold (holdings_value (DB.bonds db) rest).
    unfold holding_value at 1. simpl.
    destruct (find_bond bond_id (DB.bonds db)) as [d |] eqn:Ef.
    + destruct (Bond_of_doc strict_int d) as [e | b] eqn:Eb; [discriminate |].
      destruct (Bond_of_doc_fields _ _ _ Eb) as (_ & Hp & _).
      destruct (calculate_dynamic_yield strptime b now) as [e | y]; [discriminate |].
      cbv zeta. intros H. apply IH in H. cbn [fst] in H. rewrite Hp in H. lra.
    + intros H. apply IH in H. lra.
Qed.

(** Without a positive running total the loop adds no yield. *)
Lemma recalculate_zero_yield (now : datetime) (items : Dict.t) (acc totals : Q * Q)
    (db : DB.t) :
  Forall (fun kv => 0 <= holding_value (DB.bonds db) kv) items ->
  fst (recalculate strptime strict_int now items acc db) = inr totals ->
  fst totals <= 0 ->
  snd totals == snd acc.
Proof.
  revert acc. induction items as [| [bond_id quantity] rest IH]; intros acc Hall.
  - simpl. intros [= <-] _. reflexivity.
  - inversion Hall as [| kv l Hkv Hrest]; subst.
    rewrite recalculate_step. unfold holding_value in Hkv. simpl in Hkv.
    destruct (find_bond bond_id (DB.bonds db)) as [d |] eqn:Ef;
      [| intros H Hz; now apply IH].
    destruct (Bond_of_doc strict_int d) as [e | b] eqn:Eb; [discriminate |].
    destruct (Bond_of_doc_fields _ _ _ Eb) as (_ & Hp & _).
    destruct (calculate_dynamic_yield strptime b now) as [e | y]; [discriminate |].
    cbv zeta. intros H Hz.
    pose proof (recalculate_total_value _ _ _ _ _ H) as Ht. cbn [fst] in Ht.
    pose proof (holdings_value_nonneg _ _ Hrest) as Hn.
    assert (Hle : Py.ltb 0 (fst acc + Bond.current_price b * quantity) = false).
    { apply ltb_ge. lra. }
    rewrite Hle in H. apply IH in H; [| assumption | assumption].
    cbn [snd] in H. lra.
Qed.

(** A yield returned by the engine has two decimals. *)
Lemma calculate_dynamic_yield_rounded (b : Bond.t) (now : datetime) (y : Q) :
  calculate_dynamic_yield strptime b now = inr y -> Py.round2 y = y.
Proof.
  unfold calculate_dynamic_yield. destruct (strptime _); [| discriminate].
  intros [= <-]. apply round2_idempotent.
Qed.

(** With a single holding of positive value the loop's second total is the
    bond's yield. *)
Lemma recalculate_single (now : datetime) (bond_id : string) (quantity : Q)
    (totals : Q * Q) (db : DB.t) (d : BondDoc.t) (b : Bond.t) (y : Q) :
  find_bond bond_id (DB.bonds db) = Some d ->
  Bond_of_doc strict_int d = inr b ->
  calculate_dynamic_yield strptime b now = inr y ->
  0 < BondDoc.current_price d * quantity ->
  fst (recalculate strptime strict_int now [(bond_id, quantity)] (0, 0) db)
  = inr totals ->
  snd totals == y.
Proof.
  intros Hf Hb Hy Hpos. rewrite recalculate_step, Hf, Hb, Hy.
  destruct (Bond_of_doc_fields _ _ _ Hb) as (_ & Hp & _).
  cbv zeta. cbn [fst snd]. rewrite Hp.
  assert (Hlt : Py.ltb 0 (0 + BondDoc.current_price d * quantity) = true).
  { apply ltb_lt. lra. }
  rewrite Hlt. simpl. intros [= <-]. cbn [snd].
  field. split; intros E; rewrite E in Hpos; lra.
Qed.

(** C6, amended.  After a trade settlement that returns, the requester's
    saved portfolio has [total_value] equal to the sum of its holdings'
    values rounded to 2 decimals; its [total_yield] is 0 when no holding has
    a negative value and the values sum to 0, and is the bond's yield when
    the portfolio holds a single bond, of positive value. *)
Theorem execute_trade_portfolio_caches
    (env : Env.t) (trade : TradeRequest.t) (db : DB.t) (receipt : TradeReceipt.t) :
  fst (execute_trade strptime strict_int env trade db) = inr receipt ->
  let db' := snd (execute_trade strptime strict_int env trade db) in
  exists p,
    find_portfolio (TradeRequest.user_address trade) (DB.portfolios db') = Some p
    /\ Portfolio.total_value p
       = Py.round2 (holdings_value (DB.bonds db') (Portfolio.bonds p))
    /\ (Forall (fun kv => 0 <= holding_value (DB.bonds db') kv) (Portfolio.bonds p) ->
        holdings_value (DB.bonds db') (Portfolio.bonds p) == 0 ->
        Portfolio.total_yield p == 0)
    /\ (forall bond_id quantity d b y,
          Portfolio.bonds p = [(bond_id, quantity)] ->
          find_bond bond_id (DB.bonds db') = Some d ->
          Bond_of_doc strict_int d = inr b ->
          calculate_dynamic_yield strptime b (Env.now env) = inr y ->
          0 < BondDoc.current_price d * quantity ->
          Portfolio.total_yield p = y).
Proof.
  intros Hres db'. subst db'.
  pose proof (execute_trade_settles strptime strict_int env trade db) as H.
  revert Hres.
  outcomes H;
    intros Hres; try discriminate.
  exists p. cbn [with_portfolio DB.bonds DB.portfolios].
  change (DB.portfolios (booked env trade bond0 price db)) with (DB.portfolios db).
  pose proof (recalculate_total_value _ _ _ _ _ Hr) as Ht. cbn [fst] in Ht.
  split; [| split; [| split]].
  - apply find_portfolio_replace, saved_portfolio_address.
  - subst p. cbn [saved_portfolio Portfolio.total_value Portfolio.bonds].
    apply round2_comp. lra.
  - subst p. cbn [saved_portfolio Portfolio.total_yield Portfolio.bonds].
    intros Hall Hzero.
    assert (Hs : snd totals == 0).
    { apply (recalculate_zero_yield _ _ _ _ _ Hall Hr). lra. }
    rewrite (round2_comp _ _ Hs). reflexivity.
  - subst p. cbn [saved_portfolio Portfolio.total_yield Portfolio.bonds].
    intros bond_id quantity d1 b y -> Hf0 Hb0 Hy Hpos.
    rewrite (round2_comp _ _ (recalculate_single _ _ _ _ _ _ _ _ Hf0 Hb0 Hy Hpos Hr)).
    eapply calculate_dynamic_yield_rounded; eassumption.
Qed.

End SettlementProperties.

(** *** Concrete portfolios *)

Section PortfolioExamples.

(** C6, as stated, fails: after buying one unit quoted at 950.005 the
    portfolio's [total_value] is 950.00, not the holding's value. *)
Lemma total_value_is_rounded :
  let out := execute_trade Calendar.strptime_ymd true Mock.env buy_1
               odd_price_catalog in
  (exists receipt, fst out = inr receipt)
  /\ match find_portfolio Mock.alice (DB.portfolios (snd out)) with
     | Some p =>
         Portfolio.bonds p = [("bond-gh", 1)]
         /\ holdings_value (DB.bonds (snd out)) (Portfolio.bonds p) == 950005 # 1000
         /\ Portfolio.total_value p == 950
         /\ ~ caches_as_specified Calendar.strptime_ymd true (DB.bonds (snd out))
                (Env.now Mock.env) p
     | None => False
     end.
Proof.
  split; [eexists; vm_compute; reflexivity |].
  vm_compute. repeat split. intros [H _]. discriminate H.
Qed.

(** With two holdings the loop divides each holding's contribution by the
    running total, not by the final one: holding 5 Ghana bonds (yield 8.57)
    and 5 Kenya bonds (yield 7.28), the saved [total_yield] is 12.24, above
    both yields, where the weighted average rounds to 7.92. *)
Lemma total_yield_of_two_holdings :
  let out := execute_trade Calendar.strptime_ymd true Mock.env buy_5_kenya
               alice_holds_5 in
  match find_portfolio Mock.alice (DB.portfolios (snd out)) with
  | Some p =>
      Portfolio.bonds p = [("bond-gh", 5); ("bond-ke", 5)]
      /\ Portfolio.total_yield p == 1224 # 100
      /\ Py.round2 (spec_weighted_yield Calendar.strptime_ymd true
                      (DB.bonds (snd out)) (Env.now Mock.env) (Portfolio.bonds p))
         == 792 # 100
  | None => False
  end.
Proof.
  vm_compute. repeat split.
Qed.

(** A holding of negative value can bring the total to 0 after the loop has
    added a yield: holding 92 Ghana bonds (value 87400) and -95 Nigeria bonds
    (value -87400), the saved [total_value] is 0 and [total_yield] is 8.57. *)
Lemma total_yield_with_negative_holding :
  let out := execute_trade Calendar.strptime_ymd true Mock.env buy_minus_95_nigeria
               alice_holds_92 in
  match find_portfolio Mock.alice (DB.portfolios (snd out)) with
  | Some p =>
      Portfolio.bonds p = [("bond-gh", 92); ("bond-ng", -95)]
      /\ holdings_value (DB.bonds (snd out)) (Portfolio.bonds p) == 0
      /\ Portfolio.total_value p == 0
      /\ Portfolio.total_yield p == 857 # 100
  | None => False
  end.
Proof.
  vm_compute. repeat split.
Qed.

End PortfolioExamples.

(** ** Market statistics *)

Section MarketStatistics.

Variable strptime : string -> option datetime.
Variable strict_int : bool.

(** The accumulating sum and the sum agree. *)
Lemma fold_left_total {A : Type} (f : A -> Q) (l : list A) (acc : Q) :
  fold_left (fun a x => a + f x) l acc == acc + total f l.
Proof.
  revert acc. induction l as [| x l IH]; intros acc; simpl.
  - lra.
  - rewrite IH. lra.
Qed.

(** Python's [sum] is the sum. *)
Lemma py_sum_total {A : Type} (f : A -> Q) (l : list A) :
  py_sum f l == total f l.
Proof.
  unfold py_sum. rewrite fold_left_total. lra.
Qed.

(** There is one yield per bond. *)
Lemma yields_length (now : datetime) (bonds : list BondDoc.t) (ys : list Q) :
  yields strptime strict_int now bonds = inr ys -> List.length ys = List.length bonds.
Proof.
  revert ys. induction bonds as [| d rest IH]; intros ys; simpl.
  - now intros [= <-].
  - destruct (Bond_of_doc strict_int d); [discriminate |].
    destruct (calculate_dynamic_yield strptime t now); [discriminate |].
    destruct (yields strptime strict_int now rest) as [| ys']; [discriminate |].
    intros [= <-]. simpl. f_equal. now apply IH.
Qed.

(** The endpoint's running sum of yields is the sum of [yields], and fails
    where and as [yields] does. *)
Lemma sum_yields_total (now : datetime) (bonds : list BondDoc.t) (acc : Q) :
  match yields strptime strict_int now bonds with
  | inl e => sum_yields strptime strict_int now bonds acc = inl e
  | inr ys =>
      exists s, sum_yields strptime strict_int now bonds acc = inr s
                /\ s == acc + total (fun y => y) ys
  end.
Proof.
  revert acc. induction bonds as [| d rest IH]; intros acc; simpl.
  - exists acc. split; [reflexivity | lra].
  - destruct (Bond_of_doc strict_int d) as [e | b]; [reflexivity |].
    destruct (calculate_dynamic_yield strptime b now) as [e | y]; [reflexivity |].
    specialize (IH (acc + y)).
    destruct (yields strptime strict_int now rest) as [e | ys]; [exact IH |].
    destruct IH as (s & Hs & Heq). exists s. split; [exact Hs |].
    simpl. lra.
Qed.

(** The endpoint's test of a transaction is the 24-hour window. *)
Lemma in_last_day_within_24h (now : datetime) (tx : BondTransaction.t) :
  in_last_day now tx = within_24h now tx.
Proof.
  unfold in_last_day, within_24h.
  destruct (Z.ltb_spec (now - BondTransaction.timestamp tx) 86400000000);
    destruct (Z.ltb_spec (now - 86400000000) (BondTransaction.timestamp tx));
    try reflexivity; lia.
Qed.

(** C9, as stated, fails beyond 1000 transactions: on a log of 1001 records
    the endpoint reports 1000 transactions and a 24-hour volume of 1000. *)
Lemma market_stats_count_at_most_1000 :
  List.length (DB.transactions long_log) = 1001%nat
  /\ total BondTransaction.total_amount
       (filter (within_24h (Env.now Mock.env)) (DB.transactions long_log)) == 1001
  /\ match fst (get_market_stats Calendar.strptime_ymd true Mock.env long_log) with
     | inr stats =>
         MarketStats.total_transactions stats = 1000%Z
         /\ MarketStats.total_transactions stats
            <> Z.of_nat (List.length (DB.transactions long_log))
         /\ MarketStats.total_volume_24h stats == 1000
     | inl _ => False
     end.
Proof.
  split; [reflexivity |]. split; [vm_compute; reflexivity |].
  vm_compute. repeat split. discriminate.
Qed.

(** C9, amended.  The endpoint reads at most the first 1000 bonds and the
    first 1000 transactions and leaves the database as it is.  Over these
    documents it returns the sum of [current_price * total_supply], the sum
    of [total_amount] of the transactions stamped within the trailing 24
    hours and the mean of the yields (0 without bonds), each rounded to 2
    decimals, and the two counts: the number of transactions reported is the
    log size up to 1000.  It raises when a bond's yield does. *)
Theorem get_market_stats_formula (env : Env.t) (db : DB.t) :
  let bonds := firstn 1000 (DB.bonds db) in
  let transactions := firstn 1000 (DB.transactions db) in
  snd (get_market_stats strptime strict_int env db) = db
  /\ List.length transactions = Nat.min 1000 (List.length (DB.transactions db))
  /\ match yields strptime strict_int (Env.now env) bonds with
     | inr ys =>
         fst (get_market_stats strptime strict_int env db)
         = inr (spec_market_stats (Env.now env) bonds transactions ys)
     | inl e => fst (get_market_stats strptime strict_int env db) = inl e
     end.
Proof.
  intros bonds transactions.
  unfold get_market_stats, bind, bonds_to_list, transactions_to_list, lift, ret.
  cbn [fst snd]. fold bonds transactions.
  split; [| split].
  - destruct bonds as [| d rest]; [reflexivity |].
    destruct (sum_yields _ _ _ _ _); reflexivity.
  - apply length_firstn.
  - pose proof (sum_yields_total (Env.now env) bonds 0) as Hs.
    destruct (yields strptime strict_int (Env.now env) bonds) as [e | ys] eqn:Ey.
    + destruct bonds as [| d rest]; [discriminate Ey |].
      rewrite Hs. reflexivity.
    + pose proof (yields_length _ _ _ Ey) as Hlen.
      assert (Hfilter : filter (in_last_day (Env.now env)) transactions
                        = filter (within_24h (Env.now env)) transactions).
      { apply filter_ext. intros tx. apply in_last_day_within_24h. }
      rewrite Hfilter. unfold spec_market_stats.
      destruct bonds as [| d rest] eqn:Eb.
      * injection Ey as <-. cbn [fst snd mean].
        f_equal. f_equal; apply round2_comp; apply py_sum_total.
      * destruct Hs as (s & -> & Hs). cbn [fst snd].
        f_equal. f_equal; try (apply round2_comp; apply py_sum_total).
        apply round2_comp. unfold mean.
        destruct ys as [| y ys']; [discriminate Hlen |].
        rewrite Hlen, Hs. field.
        change 0 with (inject_Z 0). rewrite inject_Z_injective. simpl. lia.
Qed.

End MarketStatistics.

(** ** The theorems at concrete requests *)

Section Witnesses.

(** Raising the Ghana bond's risk factor from 2.3 to 4.1 does not lower
    its yield. *)
Lemma calculate_dynamic_yield_monotone_in_risk_witness :
  0 <= Bond.coupon_rate ghana_bond
  /\ 23 # 10 <= 41 # 10
  /\ match calculate_dynamic_yield Calendar.strptime_ymd
             (Bond.with_risk_factor (23 # 10) ghana_bond) (Env.now Mock.env),
           calculate_dynamic_yield Calendar.strptime_ymd
             (Bond.with_risk_factor (41 # 10) ghana_bond) (Env.now Mock.env)
     with
     | inr y1, inr y2 => y1 <= y2
     | inl e1, inl e2 => e1 = ValueError /\ e2 = ValueError
     | _, _ => False
     end.
Proof.
  assert (Hc : 0 <= Bond.coupon_rate ghana_bond) by (unfold Qle; simpl; lia).
  assert (Hr : 23 # 10 <= 41 # 10) by (unfold Qle; simpl; lia).
  split; [exact Hc |]. split; [exact Hr |].
  exact (calculate_dynamic_yield_monotone_in_risk Calendar.strptime_ymd
           ghana_bond (23 # 10) (41 # 10) (Env.now Mock.env) Hc Hr).
Defined.

(** Alice sells her 5 units of the Ghana bond: the bond stays within its
    bounds. *)
Lemma execute_trade_keeps_supply_bounds_witness :
  find_bond (TradeRequest.bond_id sell_5) (DB.bonds alice_holds_5) = Some Mock.ghana
  /\ supply_in_bounds Mock.ghana
  /\ 0 <= TradeRequest.quantity sell_5
  /\ exists d',
       find_bond (TradeRequest.bond_id sell_5)
         (DB.bonds (snd (execute_trade Calendar.strptime_ymd true Mock.env sell_5
                           alice_holds_5))) = Some d'
       /\ supply_in_bounds d'.
Proof.
  assert (Hf : find_bond (TradeRequest.bond_id sell_5) (DB.bonds alice_holds_5)
               = Some Mock.ghana) by reflexivity.
  assert (Hb : supply_in_bounds Mock.ghana) by (split; unfold Qle; simpl; lia).
  assert (Hq : 0 <= TradeRequest.quantity sell_5) by (unfold Qle; simpl; lia).
  split; [exact Hf |]. split; [exact Hb |]. split; [exact Hq |].
  apply (execute_trade_keeps_supply_bounds Calendar.strptime_ymd true Mock.env
           sell_5 alice_holds_5 Mock.ghana Hf Hb Hq).
  intros _. unfold Qle. simpl. lia.
Defined.

(** Alice, holding 2 units, sells 5. *)
Lemma execute_trade_oversell_witness :
  TradeRequest.transaction_type sell_5 = "sell"
  /\ holding alice_holds_2 Mock.alice "bond-gh" < TradeRequest.quantity sell_5
  /\ exists trade_price,
       calculate_bond_price ghana_bond 1 = inr trade_price
       /\ DB.transactions
            (snd (execute_trade Calendar.strptime_ymd true Mock.env sell_5
                    alice_holds_2))
          = (DB.transactions alice_holds_2
             ++ [transaction_record Mock.env sell_5 trade_price])%list
       /\ find_bond "bond-gh"
            (DB.bonds
               (snd (execute_trade Calendar.strptime_ymd true Mock.env sell_5
                       alice_holds_2)))
          = Some (BondDoc.set_available_supply (inject_Z 7500 + 5) Mock.ghana)
       /\ match
            fst (execute_trade Calendar.strptime_ymd true Mock.env sell_5 alice_holds_2)
          with
          | inl e => is_http e = false
          | inr _ =>
              exists p,
                find_portfolio Mock.alice
                  (DB.portfolios
                     (snd (execute_trade Calendar.strptime_ymd true Mock.env sell_5
                             alice_holds_2))) = Some p
                /\ Dict.mem "bond-gh" (Portfolio.bonds p) = false
          end.
Proof.
  assert (Hs : TradeRequest.transaction_type sell_5 = "sell") by reflexivity.
  assert (Hh : holding alice_holds_2 Mock.alice "bond-gh"
               < TradeRequest.quantity sell_5) by reflexivity.
  split; [exact Hs |]. split; [exact Hh |].
  apply (execute_trade_oversell Calendar.strptime_ymd true Mock.env sell_5
           alice_holds_2 Mock.ghana ghana_bond Hs).
  - reflexivity.
  - reflexivity.
  - simpl. lia.
  - exact Hh.
Defined.

(** Alice buys 5 units of the Ghana bond from the seed catalog. *)
Lemma execute_trade_frame_witness :
  let out := execute_trade Calendar.strptime_ymd true Mock.env buy_5 Mock.seeded in
  (exists receipt, fst out = inr receipt)
  /\ (exists before d d' after,
        DB.bonds Mock.seeded = (before ++ d :: after)%list
        /\ find_bond (TradeRequest.bond_id buy_5) before = None
        /\ BondDoc.id d = TradeRequest.bond_id buy_5
        /\ DB.bonds (snd out) = (before ++ d' :: after)%list
        /\ same_but_supply d d')
  /\ other_portfolios (TradeRequest.user_address buy_5) (DB.portfolios (snd out))
     = other_portfolios (TradeRequest.user_address buy_5) (DB.portfolios Mock.seeded).
Proof.
  assert (Hr : { receipt | fst (execute_trade Calendar.strptime_ymd true Mock.env
                                  buy_5 Mock.seeded) = inr receipt }).
  { eexists. vm_compute. reflexivity. }
  destruct Hr as [receipt Hr].
  split; [exists receipt; exact Hr |].
  exact (execute_trade_frame Calendar.strptime_ymd true Mock.env buy_5 Mock.seeded
           receipt Hr).
Defined.

(** Alice's portfolio after she buys 5 units of the Ghana bond. *)
Lemma execute_trade_portfolio_caches_witness :
  let out := execute_trade Calendar.strptime_ymd true Mock.env buy_5 Mock.seeded in
  (exists receipt, fst out = inr receipt)
  /\ exists p,
       find_portfolio Mock.alice (DB.portfolios (snd out)) = Some p
       /\ Portfolio.total_value p
          = Py.round2 (holdings_value (DB.bonds (snd out)) (Portfolio.bonds p))
       /\ (Forall (fun kv => 0 <= holding_value (DB.bonds (snd out)) kv)
             (Portfolio.bonds p) ->
           holdings_value (DB.bonds (snd out)) (Portfolio.bonds p) == 0 ->
           Portfolio.total_yield p == 0)
       /\ (forall bond_id quantity d b y,
             Portfolio.bonds p = [(bond_id, quantity)] ->
             find_bond bond_id (DB.bonds (snd out)) = Some d ->
             Bond_of_doc true d = inr b ->
             calculate_dynamic_yield Calendar.strptime_ymd b (Env.now Mock.env)
             = inr y ->
             0 < BondDoc.current_price d * quantity ->
             Portfolio.total_yield p = y).
Proof.
  assert (Hr : { receipt | fst (execute_trade Calendar.strptime_ymd true Mock.env
                                  buy_5 Mock.seeded) = inr receipt }).
  { eexists. vm_compute. reflexivity. }
  destruct Hr as [receipt Hr].
  split; [exists receipt; exact Hr |].
  exact (execute_trade_portfolio_caches Calendar.strptime_ymd true Mock.env buy_5
           Mock.seeded receipt Hr).
Defined.

End Witnesses.

(** * Further properties *)

(** ** More on the pricing engine *)

Section PricingMore.

(** [max] is monotone in its first argument. *)
Lemma max_mono_l (a a' b : Q) : a <= a' -> Py.max a b <= Py.max a' b.
Proof.
  intros H. unfold Py.max.
  destruct (Py.ltb a b) eqn:E; destruct (Py.ltb a' b) eqn:E';
    try apply ltb_lt in E; try apply ltb_lt in E';
    try apply ltb_ge in E; try apply ltb_ge in E'; lra.
Qed.

(** [max] is monotone in its second argument. *)
Lemma max_mono_r (a b b' : Q) : b <= b' -> Py.max a b <= Py.max a b'.
Proof.
  intros H. unfold Py.max.
  destruct (Py.ltb a b) eqn:E; destruct (Py.ltb a b') eqn:E';
    try apply ltb_lt in E; try apply ltb_lt in E';
    try apply ltb_ge in E; try apply ltb_ge in E'; lra.
Qed.

(** The share of the supply still available is between 0 and 1. *)
Lemma supply_ratio_bounds (a t : Z) :
  (0 < t)%Z -> (0 <= a <= t)%Z -> 0 <= inject_Z a / inject_Z t <= 1.
Proof.
  intros Ht [Ha0 Hat].
  assert (Htq : 0 < inject_Z t).
  { change 0 with (inject_Z 0). now rewrite <- Zlt_Qlt. }
  assert (Ha0q : 0 <= inject_Z a).
  { change 0 with (inject_Z 0). now rewrite <- Zle_Qle. }
  assert (Hatq : inject_Z a <= inject_Z t) by now rewrite <- Zle_Qle.
  split.
  - apply Qle_shift_div_l; [exact Htq | lra].
  - apply Qle_shift_div_r; [exact Htq | lra].
Qed.

(** The share available grows with the available supply. *)
Lemma supply_ratio_mono (a1 a2 t : Z) :
  (0 < t)%Z -> (a1 <= a2)%Z -> inject_Z a1 / inject_Z t <= inject_Z a2 / inject_Z t.
Proof.
  intros Ht Ha.
  assert (Htq : 0 < inject_Z t).
  { change 0 with (inject_Z 0). now rewrite <- Zlt_Qlt. }
  assert (Haq : inject_Z a1 <= inject_Z a2) by now rewrite <- Zle_Qle.
  unfold Qdiv. apply Qmult_le_compat_r; [exact Haq |].
  apply Qlt_le_weak, Qinv_lt_0_compat, Htq.
Qed.

(** The price as the engine computes it when the total supply is not zero. *)
Lemma calculate_bond_price_value (bond : Bond.t) (market_demand : Q) :
  Bond.total_supply bond <> 0%Z ->
  calculate_bond_price bond market_demand
  = inr (Py.max
           (Bond.current_price bond
            + (1 - inject_Z (Bond.available_supply bond)
                   / inject_Z (Bond.total_supply bond)) * 50
            - Bond.risk_factor bond * 10 + (market_demand - 1) * 25)
           (Bond.face_value bond * (7 # 10))).
Proof.
  intros H. unfold calculate_bond_price.
  destruct (Z.eqb_spec (Bond.total_supply bond) 0); [contradiction | reflexivity].
Qed.

(** X1.  For a bond whose available supply is within [0, total_supply], the
    scarcity premium is between 0 and 50: the price lies between the floored
    base price and the floored base price plus 50. *)
Theorem calculate_bond_price_scarcity_premium (bond : Bond.t) (market_demand : Q) :
  (0 < Bond.total_supply bond)%Z ->
  (0 <= Bond.available_supply bond <= Bond.total_supply bond)%Z ->
  exists price,
    calculate_bond_price bond market_demand = inr price
    /\ Py.max (base_price bond market_demand) (Bond.face_value bond * (7 # 10))
       <= price
    /\ price
       <= Py.max (base_price bond market_demand + 50) (Bond.face_value bond * (7 # 10)).
Proof.
  intros Ht Ha. eexists. split.
  - apply calculate_bond_price_value. lia.
  - pose proof (supply_ratio_bounds _ _ Ht Ha) as [H0 H1].
    unfold base_price. split; apply max_mono_l; lra.
Qed.

(** X2.  The price does not fall when the market demand rises; with a total
    supply of zero the engine raises at either demand. *)
Theorem calculate_bond_price_monotone_in_demand (bond : Bond.t) (d1 d2 : Q) :
  d1 <= d2 ->
  match calculate_bond_price bond d1, calculate_bond_price bond d2 with
  | inr p1, inr p2 => p1 <= p2
  | inl e1, inl e2 => e1 = ZeroDivisionError /\ e2 = ZeroDivisionError
  | _, _ => False
  end.
Proof.
  intros H. unfold calculate_bond_price.
  destruct (Bond.total_supply bond =? 0)%Z; [split; reflexivity |].
  apply max_mono_l. lra.
Qed.

(** X3.  A higher risk factor gives a lower or equal price, the other fields
    being fixed. *)
Theorem calculate_bond_price_antitone_in_risk (bond : Bond.t) (r1 r2 d : Q) :
  r1 <= r2 ->
  match calculate_bond_price (Bond.with_risk_factor r1 bond) d,
        calculate_bond_price (Bond.with_risk_factor r2 bond) d with
  | inr p1, inr p2 => p2 <= p1
  | inl e1, inl e2 => e1 = ZeroDivisionError /\ e2 = ZeroDivisionError
  | _, _ => False
  end.
Proof.
  intros H. unfold calculate_bond_price. simpl.
  destruct (Bond.total_supply bond =? 0)%Z; [split; reflexivity |].
  apply max_mono_l. lra.
Qed.

(** X4.  With a positive total supply, the scarcer bond is the dearer: a
    smaller available supply gives a higher or equal price. *)
Theorem calculate_bond_price_antitone_in_supply (bond : Bond.t) (a1 a2 : Z) (d : Q) :
  (0 < Bond.total_supply bond)%Z ->
  (a1 <= a2)%Z ->
  exists p1 p2,
    calculate_bond_price (Bond_with_supply a1 bond) d = inr p1
    /\ calculate_bond_price (Bond_with_supply a2 bond) d = inr p2
    /\ p2 <= p1.
Proof.
  intros Ht Ha. do 2 eexists. split; [| split].
  - apply calculate_bond_price_value. simpl. lia.
  - apply calculate_bond_price_value. simpl. lia.
  - simpl. apply max_mono_l.
    pose proof (supply_ratio_mono _ _ _ Ht Ha). lra.
Qed.

End PricingMore.

(** ** More on the yield engine *)

Section YieldMore.

Variable strptime : string -> option datetime.
Variable strict_int : bool.

(** The maturity premium is never negative. *)
Lemma maturity_premium_nonneg (x : Q) : 0 <= Py.max 0 x * (3 # 10).
Proof.
  pose proof (max_ge_l 0 x). lra.
Qed.

(** The day count grows with the time left. *)
Lemma timedelta_days_mono (a b : Z) :
  (a <= b)%Z -> (Py.timedelta_days a <= Py.timedelta_days b)%Z.
Proof.
  intros H. unfold Py.timedelta_days. apply Z.div_le_mono; lia.
Qed.

(** The years to maturity grow with the day count. *)
Lemma years_mono (a b : Z) :
  (a <= b)%Z -> inject_Z a / (36525 # 100) <= inject_Z b / (36525 # 100).
Proof.
  intros H. unfold Qdiv. change (/ (36525 # 100)) with (100 # 36525).
  assert (Hq : inject_Z a <= inject_Z b) by now rewrite <- Zle_Qle.
  lra.
Qed.

(** X5.  [GET /bonds/{id}/yield] leaves the database as it is; it answers 404
    exactly when no bond has the identifier, and the dynamic yield of a
    response is at least the base yield adjusted for risk, rounded. *)
Theorem get_bond_yield_at_least_risk_adjusted
    (env : Env.t) (bond_id : string) (db : DB.t) :
  snd (get_bond_yield strptime strict_int env bond_id db) = db
  /\ match fst (get_bond_yield strptime strict_int env bond_id db) with
     | inr info =>
         find_bond bond_id (DB.bonds db) <> None
         /\ YieldInfo.bond_id info = bond_id
         /\ Py.round2 (risk_adjusted (YieldInfo.base_yield info)
                         (YieldInfo.risk_factor info))
            <= YieldInfo.dynamic_yield info
     | inl e =>
         if is_http e
         then e = HTTPException 404 "Bond not found"
              /\ find_bond bond_id (DB.bonds db) = None
         else find_bond bond_id (DB.bonds db) <> None
     end.
Proof.
  unfold get_bond_yield, bind, bonds_find_one, lift, raise, ret. cbn [fst snd].
  destruct (find_bond bond_id (DB.bonds db)) as [d |] eqn:Ef; cbn [fst snd is_http];
    [| auto].
  destruct (Bond_of_doc strict_int d) as [e | bond] eqn:Eb; cbn [fst snd].
  { apply Bond_of_doc_error in Eb. subst e. split; [reflexivity | discriminate]. }
  unfold calculate_dynamic_yield.
  destruct (strptime (Bond.maturity_date bond)) as [maturity |]; cbn [fst snd is_http].
  - split; [reflexivity |]. split; [discriminate |]. split; [reflexivity |].
    cbn [YieldInfo.base_yield YieldInfo.risk_factor YieldInfo.dynamic_yield].
    apply round2_mono. unfold risk_adjusted.
    pose proof (maturity_premium_nonneg
                  (inject_Z (Py.timedelta_days (maturity - Env.now env))
                   / (36525 # 100) - 2)).
    lra.
  - split; [reflexivity | discriminate].
Qed.

(** X6.  Longer maturity, higher yield: of two bonds that differ only in
    their maturity date, the one maturing later has the higher or equal
    yield. *)
Theorem calculate_dynamic_yield_monotone_in_maturity
    (bond : Bond.t) (s1 s2 : string) (m1 m2 now : datetime) :
  strptime s1 = Some m1 ->
  strptime s2 = Some m2 ->
  (m1 <= m2)%Z ->
  exists y1 y2,
    calculate_dynamic_yield strptime (Bond_with_maturity s1 bond) now = inr y1
    /\ calculate_dynamic_yield strptime (Bond_with_maturity s2 bond) now = inr y2
    /\ y1 <= y2.
Proof.
  intros H1 H2 Hm. unfold calculate_dynamic_yield. simpl. rewrite H1, H2.
  do 2 eexists. split; [reflexivity |]. split; [reflexivity |].
  apply round2_mono.
  assert (Hd : (Py.timedelta_days (m1 - now) <= Py.timedelta_days (m2 - now))%Z)
    by (apply timedelta_days_mono; lia).
  pose proof (years_mono _ _ Hd) as Hy.
  pose proof (max_mono_r 0
                (inject_Z (Py.timedelta_days (m1 - now)) / (36525 # 100) - 2)
                (inject_Z (Py.timedelta_days (m2 - now)) / (36525 # 100) - 2)) as Hmax.
  assert (Hle : inject_Z (Py.timedelta_days (m1 - now)) / (36525 # 100) - 2
                <= inject_Z (Py.timedelta_days (m2 - now)) / (36525 # 100) - 2)
    by lra.
  specialize (Hmax Hle). lra.
Qed.

(** X7.  As time passes the yield of a bond does not rise. *)
Theorem calculate_dynamic_yield_antitone_in_time
    (bond : Bond.t) (maturity now1 now2 : datetime) :
  strptime (Bond.maturity_date bond) = Some maturity ->
  (now1 <= now2)%Z ->
  exists y1 y2,
    calculate_dynamic_yield strptime bond now1 = inr y1
    /\ calculate_dynamic_yield strptime bond now2 = inr y2
    /\ y2 <= y1.
Proof.
  intros Hs Hn. unfold calculate_dynamic_yield. rewrite Hs.
  do 2 eexists. split; [reflexivity |]. split; [reflexivity |].
  apply round2_mono.
  assert (Hd : (Py.timedelta_days (maturity - now2)
                <= Py.timedelta_days (maturity - now1))%Z)
    by (apply timedelta_days_mono; lia).
  pose proof (years_mono _ _ Hd) as Hy.
  pose proof (max_mono_r 0
                (inject_Z (Py.timedelta_days (maturity - now2)) / (36525 # 100) - 2)
                (inject_Z (Py.timedelta_days (maturity - now1)) / (36525 # 100) - 2))
    as Hmax.
  assert (Hle : inject_Z (Py.timedelta_days (maturity - now2)) / (36525 # 100) - 2
                <= inject_Z (Py.timedelta_days (maturity - now1)) / (36525 # 100) - 2)
    by lra.
  specialize (Hmax Hle). lra.
Qed.

(** X8.  A bond with less than 731 days to maturity, matured bonds included,
    earns no maturity premium: its yield is the risk-adjusted coupon rate,
    rounded. *)
Theorem calculate_dynamic_yield_without_premium
    (bond : Bond.t) (maturity now : datetime) :
  strptime (Bond.maturity_date bond) = Some maturity ->
  (maturity - now < 731 * 86400000000)%Z ->
  calculate_dynamic_yield strptime bond now
  = inr (Py.round2 (risk_adjusted (Bond.coupon_rate bond) (Bond.risk_factor bond))).
Proof.
  intros Hs Hd. unfold calculate_dynamic_yield. rewrite Hs. f_equal.
  apply round2_comp. unfold risk_adjusted.
  assert (Hdays : (Py.timedelta_days (maturity - now) <= 730)%Z).
  { unfold Py.timedelta_days.
    assert ((maturity - now) / 86400000000 < 731)%Z
      by (apply Z.div_lt_upper_bound; lia).
    lia. }
  pose proof (years_mono _ _ Hdays) as Hy.
  assert (H730 : inject_Z 730 / (36525 # 100) - 2 <= 0) by (vm_compute; discriminate).
  assert (Hmax : Py.max 0
                   (inject_Z (Py.timedelta_days (maturity - now)) / (36525 # 100) - 2)
                 = 0).
  { unfold Py.max.
    destruct (Py.ltb 0 _) eqn:E; [| reflexivity].
    apply ltb_lt in E. exfalso. lra. }
  rewrite Hmax. lra.
Qed.

End YieldMore.

(** ** More on trade settlement *)

Section TradeMore.

Variable strptime : string -> option datetime.
Variable strict_int : bool.

(** Case analysis on the outcome of a call, [H : settles ...]. *)
Ltac trade_outcomes H :=
  destruct H as [Hf | d0 Hf Hb | d0 bond0 Hf Hb Hbuy Hlt | d0 bond0 Hf Hb Hok Hz
                 | d0 bond0 price e0 Hf Hb Hok Hp He
                 | d0 bond0 price holdings totals Hf Hb Hok Hp Hh Hr].

(** *** Dictionaries *)

(** Writing a key does not change the value of another. *)
Lemma dict_get_set_other (k k' : string) (v : Q) (d : Dict.t) :
  k' <> k -> Dict.get k' (Dict.set k v d) = Dict.get k' d.
Proof.
  intros Hne. induction d as [| [k0 v0] d IH]; simpl.
  - destruct (String.eqb_spec k k'); [congruence | reflexivity].
  - destruct (String.eqb_spec k0 k) as [E | E]; simpl.
    + destruct (String.eqb_spec k0 k'); [congruence | reflexivity].
    + destruct (k0 =? k'); [reflexivity | exact IH].
Qed.

(** Deleting a key does not change the value of another. *)
Lemma dict_get_del_other (k k' : string) (d : Dict.t) :
  k' <> k -> Dict.get k' (Dict.del k d) = Dict.get k' d.
Proof.
  intros Hne. unfold Dict.del. induction d as [| [k0 v0] d IH]; simpl.
  - reflexivity.
  - destruct (String.eqb_spec k0 k) as [E | E]; simpl.
    + destruct (String.eqb_spec k0 k'); [congruence | exact IH].
    + destruct (k0 =? k'); [reflexivity | exact IH].
Qed.

(** A deleted key has no value. *)
Lemma dict_get_del (k : string) (d : Dict.t) : Dict.get k (Dict.del k d) = None.
Proof.
  pose proof (dict_mem_del k d) as H. rewrite dict_mem_get in H.
  destruct (Dict.get k (Dict.del k d)); [discriminate | reflexivity].
Qed.

(** Writing a key twice keeps the second value. *)
Lemma dict_set_set (k : string) (v v' : Q) (d : Dict.t) :
  Dict.set k v' (Dict.set k v d) = Dict.set k v' d.
Proof.
  induction d as [| [k0 v0] d IH]; simpl.
  - now rewrite String.eqb_refl.
  - destruct (k0 =? k) eqn:E; simpl; rewrite E; [reflexivity | now rewrite IH].
Qed.

(** Deleting a key forgets that it was written. *)
Lemma dict_del_set (k : string) (v : Q) (d : Dict.t) :
  Dict.del k (Dict.set k v d) = Dict.del k d.
Proof.
  unfold Dict.del. induction d as [| [k0 v0] d IH]; simpl.
  - now rewrite String.eqb_refl.
  - destruct (k0 =? k) eqn:E; simpl; rewrite E; simpl; [reflexivity | now rewrite IH].
Qed.

(** Writing a positive quantity keeps the holdings positive. *)
Lemma positive_holdings_set (k : string) (v : Q) (d : Dict.t) :
  0 < v -> positive_holdings d -> positive_holdings (Dict.set k v d).
Proof.
  intros Hv. unfold positive_holdings.
  induction 1 as [| [k0 v0] d Hkv Hd IH]; simpl.
  - constructor; [exact Hv | constructor].
  - destruct (k0 =? k); constructor; auto.
Qed.

(** Deleting a key keeps the holdings positive. *)
Lemma positive_holdings_del (k : string) (d : Dict.t) :
  positive_holdings d -> positive_holdings (Dict.del k d).
Proof.
  unfold positive_holdings, Dict.del. intros H.
  apply Forall_forall. intros kv Hin. apply filter_In in Hin as [Hin _].
  revert kv Hin. now apply Forall_forall.
Qed.

(** A quantity held under positive holdings is not negative. *)
Lemma positive_holdings_held (k : string) (d : Dict.t) :
  positive_holdings d -> 0 <= held d k.
Proof.
  unfold positive_holdings, held.
  induction 1 as [| [k0 v0] d Hkv Hd IH]; simpl.
  - apply Qle_refl.
  - destruct (k0 =? k); [simpl in Hkv; lra | exact IH].
Qed.

(** *** The holdings after a trade *)

(** The holdings a trade leaves, from the quantity held before. *)
Lemma update_holdings_value (trade : TradeRequest.t) (bonds : Dict.t) :
  let k := TradeRequest.bond_id trade in
  let q := TradeRequest.quantity trade in
  update_holdings trade bonds
  = inr (if TradeRequest.transaction_type trade =? "buy"
         then Dict.set k (held bonds k + q) bonds
         else if Qle_bool (held bonds k - q) 0 then Dict.del k bonds
              else Dict.set k (held bonds k - q) bonds).
Proof.
  intros k q. unfold update_holdings, held. fold k q.
  rewrite dict_mem_get.
  destruct (Dict.get k bonds) as [h |] eqn:Eg; cbn [negb].
  - rewrite Eg. destruct (TradeRequest.transaction_type trade =? "buy");
      [reflexivity |].
    rewrite dict_get_set. destruct (Qle_bool (h - q) 0); [| reflexivity].
    now rewrite dict_del_set.
  - rewrite dict_get_set.
    destruct (TradeRequest.transaction_type trade =? "buy").
    + now rewrite dict_set_set.
    + rewrite dict_get_set, dict_set_set.
      destruct (Qle_bool (0 - q) 0); [| reflexivity].
      now rewrite dict_del_set.
Qed.

(** The requester's holding in a database is what the loaded portfolio holds. *)
Lemma holding_loaded (env : Env.t) (trade : TradeRequest.t) (db : DB.t) (k : string) :
  holding db (TradeRequest.user_address trade) k
  = held (Portfolio.bonds (loaded_portfolio env trade db)) k.
Proof.
  unfold holding, held, loaded_portfolio.
  destruct (find_portfolio (TradeRequest.user_address trade) (DB.portfolios db));
    reflexivity.
Qed.

(** The requester's holding after the portfolio is saved. *)
Lemma holding_saved (env : Env.t) (trade : TradeRequest.t) (db db0 : DB.t)
    (holdings : Dict.t) (totals : Q * Q) (k : string) :
  holding
    (with_portfolio trade
       (saved_portfolio (loaded_portfolio env trade db0) holdings totals) db)
    (TradeRequest.user_address trade) k
  = held holdings k.
Proof.
  unfold holding, with_portfolio. cbn [DB.portfolios].
  rewrite find_portfolio_replace by apply saved_portfolio_address.
  reflexivity.
Qed.

(** X9.  A trade that succeeds adds the quantity to the requester's holding
    on a buy; otherwise it subtracts it, and a holding that would not stay
    positive is removed. *)
Theorem execute_trade_holding
    (env : Env.t) (trade : TradeRequest.t) (db : DB.t) (receipt : TradeReceipt.t) :
  fst (execute_trade strptime strict_int env trade db) = inr receipt ->
  let user := TradeRequest.user_address trade in
  let k := TradeRequest.bond_id trade in
  let q := TradeRequest.quantity trade in
  holding (snd (execute_trade strptime strict_int env trade db)) user k
  = if TradeRequest.transaction_type trade =? "buy" then holding db user k + q
    else if Qle_bool (holding db user k - q) 0 then 0
         else holding db user k - q.
Proof.
  intros Hres user k q. subst user k q.
  pose proof (execute_trade_settles strptime strict_int env trade db) as H.
  revert Hres. trade_outcomes H; intros Hres; try discriminate.
  subst p. rewrite holding_saved, (holding_loaded env).
  rewrite update_holdings_value in Hh. injection Hh as <-.
  unfold held at 1.
  destruct (TradeRequest.transaction_type trade =? "buy").
  - now rewrite dict_get_set.
  - destruct (Qle_bool _ 0).
    + now rewrite dict_get_del.
    + now rewrite dict_get_set.
Qed.

(** X10.  A trade that succeeds leaves the requester's holdings of the other
    bonds as they were. *)
Theorem execute_trade_other_holdings
    (env : Env.t) (trade : TradeRequest.t) (db : DB.t) (receipt : TradeReceipt.t)
    (k' : string) :
  fst (execute_trade strptime strict_int env trade db) = inr receipt ->
  k' <> TradeRequest.bond_id trade ->
  holding (snd (execute_trade strptime strict_int env trade db))
    (TradeRequest.user_address trade) k'
  = holding db (TradeRequest.user_address trade) k'.
Proof.
  intros Hres Hne.
  pose proof (execute_trade_settles strptime strict_int env trade db) as H.
  revert Hres. trade_outcomes H; intros Hres; try discriminate.
  subst p. rewrite holding_saved, (holding_loaded env).
  rewrite update_holdings_value in Hh. injection Hh as <-.
  unfold held.
  destruct (TradeRequest.transaction_type trade =? "buy").
  - now rewrite dict_get_set_other.
  - destruct (Qle_bool _ 0).
    + now rewrite dict_get_del_other.
    + now rewrite dict_get_set_other.
Qed.

(** X11.  Holdings stay positive: when every quantity in the requester's
    portfolio is positive and a buy has a positive quantity, every quantity
    in the portfolio a successful trade saves is positive. *)
Theorem execute_trade_keeps_holdings_positive
    (env : Env.t) (trade : TradeRequest.t) (db : DB.t) (receipt : TradeReceipt.t) :
  (forall p,
     find_portfolio (TradeRequest.user_address trade) (DB.portfolios db) = Some p ->
     positive_holdings (Portfolio.bonds p)) ->
  (TradeRequest.transaction_type trade = "buy" -> 0 < TradeRequest.quantity trade) ->
  fst (execute_trade strptime strict_int env trade db) = inr receipt ->
  exists p',
    find_portfolio (TradeRequest.user_address trade)
      (DB.portfolios (snd (execute_trade strptime strict_int env trade db)))
    = Some p'
    /\ positive_holdings (Portfolio.bonds p').
Proof.
  intros Hpos Hq Hres.
  pose proof (execute_trade_settles strptime strict_int env trade db) as H.
  revert Hres. trade_outcomes H; intros Hres; try discriminate.
  eexists. split.
  - unfold with_portfolio. cbn [DB.portfolios].
    apply find_portfolio_replace, saved_portfolio_address.
  - subst p. cbn [saved_portfolio Portfolio.bonds].
    assert (Hl : positive_holdings (Portfolio.bonds (loaded_portfolio env trade db))).
    { unfold loaded_portfolio.
      destruct (find_portfolio (TradeRequest.user_address trade) (DB.portfolios db))
        as [p0 |] eqn:Ep; [now apply Hpos | constructor]. }
    pose proof (positive_holdings_held (TradeRequest.bond_id trade) _ Hl) as Hheld.
    rewrite update_holdings_value in Hh. injection Hh as <-.
    destruct (String.eqb_spec (TradeRequest.transaction_type trade) "buy") as [Eb | Eb].
    + specialize (Hq Eb). apply positive_holdings_set; [lra | exact Hl].
    + destruct (Qle_bool _ 0) eqn:El.
      * now apply positive_holdings_del.
      * apply positive_holdings_set; [| exact Hl].
        apply Qnot_le_lt. intros Hle. apply Qle_bool_iff in Hle. congruence.
Qed.

(** *** The log and the receipt *)

(** X12.  The transaction log only grows, by at most one record per call: a
    call that succeeds appends the record of the trade at the receipt's
    price; a call that raises leaves the log as it was or, when the exception
    is not an HTTP error, has appended the record of the trade. *)
Theorem execute_trade_log (env : Env.t) (trade : TradeRequest.t) (db : DB.t) :
  let db' := snd (execute_trade strptime strict_int env trade db) in
  match fst (execute_trade strptime strict_int env trade db) with
  | inr receipt =>
      DB.transactions db'
      = (DB.transactions db
         ++ [transaction_record env trade (TradeReceipt.trade_price receipt)])%list
  | inl e =>
      DB.transactions db' = DB.transactions db
      \/ (is_http e = false
          /\ exists price,
               DB.transactions db'
               = (DB.transactions db ++ [transaction_record env trade price])%list)
  end.
Proof.
  intros db'. subst db'.
  pose proof (execute_trade_settles strptime strict_int env trade db) as H.
  trade_outcomes H; cbn [booked with_portfolio DB.transactions]; auto.
  right. split; [exact He |]. exists price. reflexivity.
Qed.

(** X13.  The receipt of a successful trade: the price is the pricing
    engine's for the bond as read, at demand 1, and so at least 70% of the
    face value; the total is price times quantity; the portfolio value is the
    one saved for the requester. *)
Theorem execute_trade_receipt
    (env : Env.t) (trade : TradeRequest.t) (db : DB.t) (receipt : TradeReceipt.t) :
  fst (execute_trade strptime strict_int env trade db) = inr receipt ->
  exists d bond p,
    find_bond (TradeRequest.bond_id trade) (DB.bonds db) = Some d
    /\ Bond_of_doc strict_int d = inr bond
    /\ calculate_bond_price bond 1 = inr (TradeReceipt.trade_price receipt)
    /\ Bond.face_value bond * (7 # 10) <= TradeReceipt.trade_price receipt
    /\ TradeReceipt.total_amount receipt
       = TradeReceipt.trade_price receipt * TradeRequest.quantity trade
    /\ TradeReceipt.success receipt = true
    /\ TradeReceipt.transaction_id receipt = Env.transaction_uuid env
    /\ find_portfolio (TradeRequest.user_address trade)
         (DB.portfolios (snd (execute_trade strptime strict_int env trade db)))
       = Some p
    /\ TradeReceipt.new_portfolio_value receipt = Portfolio.total_value p.
Proof.
  intros Hres.
  pose proof (execute_trade_settles strptime strict_int env trade db) as H.
  revert Hres. trade_outcomes H; intros Hres; try discriminate.
  injection Hres as <-. exists d0, bond0, p.
  cbn [TradeReceipt.trade_price TradeReceipt.total_amount TradeReceipt.success
         TradeReceipt.transaction_id TradeReceipt.new_portfolio_value].
  repeat split; try assumption.
  - unfold calculate_bond_price in Hp.
    destruct (Bond.total_supply bond0 =? 0)%Z; [discriminate |].
    injection Hp as <-. apply max_ge_r.
  - unfold with_portfolio. cbn [DB.portfolios].
    apply find_portfolio_replace, saved_portfolio_address.
Qed.

(** X14.  When a call raises, no portfolio has been written; the rest of the
    database is as it was or, for an exception that is not an HTTP error, has
    the transaction appended and the supply written. *)
Theorem execute_trade_on_exception
    (env : Env.t) (trade : TradeRequest.t) (db : DB.t) (e : exn) :
  fst (execute_trade strptime strict_int env trade db) = inl e ->
  let db' := snd (execute_trade strptime strict_int env trade db) in
  DB.portfolios db' = DB.portfolios db
  /\ (db' = db
      \/ (is_http e = false
          /\ exists bond price, db' = booked env trade bond price db)).
Proof.
  intros Hres db'. subst db'.
  pose proof (execute_trade_settles strptime strict_int env trade db) as H.
  revert Hres. trade_outcomes H; intros Hres; try discriminate; auto.
  injection Hres as <-. split; [reflexivity |].
  right. split; [exact He |]. exists bond0, price. reflexivity.
Qed.

(** *** The supply after a trade *)

(** The difference of two integers as floats. *)
Lemma inject_Z_sub (a b : Z) : inject_Z (a - b) == inject_Z a - inject_Z b.
Proof.
  unfold Z.sub. rewrite inject_Z_plus, inject_Z_opp. reflexivity.
Qed.

(** A float that is an integer truncates to it. *)
Lemma trunc_integral (x : Q) (z : Z) : x == inject_Z z -> Py.trunc x = z.
Proof.
  destruct x as [n d]. unfold Qeq, Py.trunc. simpl. intros H.
  assert (Hn : n = (z * Z.pos d)%Z) by lia.
  rewrite Hn. apply Z.quot_mul. lia.
Qed.

(** The supply a successful trade stores. *)
Lemma execute_trade_supply_written
    (env : Env.t) (trade : TradeRequest.t) (db : DB.t) (receipt : TradeReceipt.t) :
  fst (execute_trade strptime strict_int env trade db) = inr receipt ->
  exists d bond,
    find_bond (TradeRequest.bond_id trade) (DB.bonds db) = Some d
    /\ Bond_of_doc strict_int d = inr bond
    /\ passes_guard trade bond
    /\ calculate_bond_price bond 1 = inr (TradeReceipt.trade_price receipt)
    /\ find_bond (TradeRequest.bond_id trade)
         (DB.bonds (snd (execute_trade strptime strict_int env trade db)))
       = Some (BondDoc.set_available_supply (new_available_supply trade bond) d).
Proof.
  intros Hres.
  pose proof (execute_trade_settles strptime strict_int env trade db) as H.
  revert Hres. trade_outcomes H; intros Hres; try discriminate.
  injection Hres as <-. exists d0, bond0. repeat split; try assumption.
  unfold with_portfolio, booked. cbn [DB.bonds].
  now rewrite find_bond_update_same, Hf.
Qed.

(** X15.  A trade that succeeds stores, for the traded bond, the available
    supply it read minus the quantity on a buy and plus the quantity
    otherwise. *)
Theorem execute_trade_supply
    (env : Env.t) (trade : TradeRequest.t) (db : DB.t) (receipt : TradeReceipt.t) :
  fst (execute_trade strptime strict_int env trade db) = inr receipt ->
  exists d bond,
    find_bond (TradeRequest.bond_id trade) (DB.bonds db) = Some d
    /\ Bond_of_doc strict_int d = inr bond
    /\ find_bond (TradeRequest.bond_id trade)
         (DB.bonds (snd (execute_trade strptime strict_int env trade db)))
       = Some (BondDoc.set_available_supply
                 (if TradeRequest.transaction_type trade =? "buy"
                  then inject_Z (Bond.available_supply bond)
                       - TradeRequest.quantity trade
                  else inject_Z (Bond.available_supply bond)
                       + TradeRequest.quantity trade) d).
Proof.
  intros Hres.
  destruct (execute_trade_supply_written env trade db receipt Hres)
    as (d & bond & Hf & Hb & _ & _ & Hs).
  exists d, bond. auto.
Qed.

(** X16.  Buying a whole number of units and selling them back restores the
    bond's available supply, whoever sells: after the two trades the bond has
    the supply the buy read, and its other fields are as before. *)
Theorem buy_then_sell_restores_supply
    (env1 env2 : Env.t) (buyer seller bond_id : string) (n : Z) (db : DB.t)
    (d : BondDoc.t) (bond : Bond.t) (r1 r2 : TradeReceipt.t) :
  let buy := TradeRequest.mk buyer bond_id (inject_Z n) "buy" in
  let sell := TradeRequest.mk seller bond_id (inject_Z n) "sell" in
  let db1 := snd (execute_trade strptime strict_int env1 buy db) in
  let db2 := snd (execute_trade strptime strict_int env2 sell db1) in
  find_bond bond_id (DB.bonds db) = Some d ->
  Bond_of_doc strict_int d = inr bond ->
  fst (execute_trade strptime strict_int env1 buy db) = inr r1 ->
  fst (execute_trade strptime strict_int env2 sell db1) = inr r2 ->
  exists d2,
    find_bond bond_id (DB.bonds db2) = Some d2
    /\ BondDoc.available_supply d2 == inject_Z (Bond.available_supply bond)
    /\ same_but_supply d d2.
Proof.
  intros buy sell db1 db2 Hfind Hbond H1 H2.
  destruct (execute_trade_supply_written env1 buy db r1 H1)
    as (d' & bond' & Hf1 & Hb1 & _ & _ & Hs1).
  cbn [TradeRequest.bond_id buy] in Hf1, Hs1.
  rewrite Hfind in Hf1. injection Hf1 as <-.
  rewrite Hbond in Hb1. injection Hb1 as <-.
  fold db1 in Hs1.
  destruct (execute_trade_supply_written env2 sell db1 r2 H2)
    as (d1 & bond1 & Hf2 & Hb2 & _ & _ & Hs2).
  cbn [TradeRequest.bond_id sell] in Hf2, Hs2.
  rewrite Hs1 in Hf2. injection Hf2 as <-.
  fold db2 in Hs2.
  unfold new_available_supply in *. cbn in Hs1, Hs2, Hb2.
  destruct (Bond_of_doc_fields strict_int _ _ Hb2) as (_ & _ & _ & Hv).
  cbn in Hv. apply validate_int_trunc in Hv.
  assert (Ht : Py.trunc (inject_Z (Bond.available_supply bond) - inject_Z n)
               = (Bond.available_supply bond - n)%Z).
  { apply trunc_integral. rewrite inject_Z_sub. reflexivity. }
  rewrite Ht in Hv.
  eexists. split; [exact Hs2 |]. split.
  - cbn [BondDoc.available_supply BondDoc.set_available_supply].
    rewrite Hv, inject_Z_sub. ring.
  - repeat split.
Qed.

(** X17.  A buy does not lower the price: after a successful buy of a
    non-negative quantity, the pricing engine's price of the bond as stored,
    at demand 1, is at least the price the trade was executed at. *)
Theorem buy_does_not_lower_price
    (env : Env.t) (trade : TradeRequest.t) (db : DB.t) (receipt : TradeReceipt.t)
    (d' : BondDoc.t) (bond' : Bond.t) :
  TradeRequest.transaction_type trade = "buy" ->
  0 <= TradeRequest.quantity trade ->
  fst (execute_trade strptime strict_int env trade db) = inr receipt ->
  find_bond (TradeRequest.bond_id trade)
    (DB.bonds (snd (execute_trade strptime strict_int env trade db))) = Some d' ->
  Bond_of_doc strict_int d' = inr bond' ->
  (0 < Bond.total_supply bond')%Z ->
  exists price',
    calculate_bond_price bond' 1 = inr price'
    /\ TradeReceipt.trade_price receipt <= price'.
Proof.
  intros Hbuy Hq Hres Hf' Hb' Ht.
  destruct (execute_trade_supply_written env trade db receipt Hres)
    as (d & bond & Hf & Hb & Hok & Hp & Hs).
  rewrite Hs in Hf'. injection Hf' as <-.
  assert (Hbuyb : (TradeRequest.transaction_type trade =? "buy") = true)
    by (rewrite Hbuy; reflexivity).
  specialize (Hok Hbuyb).
  unfold new_available_supply in Hb'. rewrite Hbuyb in Hb'.
  destruct (Bond_of_doc_fields strict_int _ _ Hb)
    as (_ & Hprice & Htot & _).
  unfold Bond_of_doc in Hb, Hb'. cbn in Hb'.
  destruct (validate_int strict_int
              (inject_Z (Bond.available_supply bond) - TradeRequest.quantity trade))
    as [e | a'] eqn:Ev; [discriminate |].
  injection Hb' as <-. cbn [Bond.total_supply] in Ht.
  apply validate_int_trunc in Ev.
  assert (Hx : 0 <= inject_Z (Bond.available_supply bond)
                    - TradeRequest.quantity trade) by lra.
  pose proof (trunc_nonneg _ Hx) as [_ Hle]. rewrite <- Ev in Hle.
  assert (Hza : (a' <= Bond.available_supply bond)%Z).
  { rewrite Zle_Qle. lra. }
  destruct (validate_int strict_int (BondDoc.available_supply d)) as [e | a] eqn:Ea;
    [discriminate |].
  injection Hb as <-. cbn [Bond.available_supply Bond.total_supply] in *.
  rewrite calculate_bond_price_value in Hp by (cbn; lia).
  injection Hp as <-.
  eexists. split; [apply calculate_bond_price_value; cbn; lia |].
  cbn. apply max_mono_l.
  pose proof (supply_ratio_mono _ _ _ Ht Hza). lra.
Qed.

End TradeMore.

(** ** Market statistics after a trade *)

Section StatsMore.

Variable strptime : string -> option datetime.
Variable strict_int : bool.


(** The endpoint raises no HTTP error. *)
Lemma get_market_stats_error (env : Env.t) (db : DB.t) (e : exn) :
  fst (get_market_stats strptime strict_int env db) = inl e -> is_http e = false.
Proof.
  unfold get_market_stats, bind, bonds_to_list, transactions_to_list, lift, ret.
  cbn [fst snd].
  destruct (firstn 1000 (DB.bonds db)) as [| d rest]; [discriminate |].
  generalize (d :: rest) as l. generalize 0 as acc. intros acc l.
  destruct (sum_yields strptime strict_int (Env.now env) l acc) as [e' |] eqn:Es;
    cbn [fst snd]; [| discriminate].
  intros [= <-]. revert acc Es.
  induction l as [| d0 l IH]; intros acc; simpl; [discriminate |].
  destruct (Bond_of_doc strict_int d0) as [e0 | b] eqn:Eb.
  { intros [= <-]. apply Bond_of_doc_error in Eb. now subst. }
  destruct (calculate_dynamic_yield strptime b (Env.now env)) as [e0 | y] eqn:Ey.
  { intros [= <-]. apply calculate_dynamic_yield_error in Ey. now subst. }
  apply IH.
Qed.







End StatsMore.

(** ** Seeding and listing the catalog *)

Section Catalog.

Variable strptime : string -> option datetime.
Variable strict_int : bool.
Variable seed_uuid : nat -> string.
Variable market_demand : nat -> Q.

(** *** Seeding *)

(** A float that is an integer validates to it, in either mode. *)
Lemma validate_int_integral (z : Z) :
  validate_int strict_int (inject_Z z) = inr z.
Proof.
  unfold validate_int, Py.is_integral, Py.trunc. simpl.
  rewrite Z.rem_1_r, Z.quot_1_r. reflexivity.
Qed.

(** Seeding an empty catalog inserts the four bonds under the identifiers
    drawn. *)
Lemma insert_seeds_empty (txs : list BondTransaction.t) (pfs : list Portfolio.t) :
  insert_seeds strict_int seed_uuid 0 Mock.MOCK_BONDS (DB.mk [] txs pfs)
  = (inr tt,
     DB.mk
       [BondDoc.mk (seed_uuid 0) "Ghana" "GH" 1000 (75 # 10) "2029-12-31"
          "2024-01-01" 950 (23 # 10) "USD" 10000 (inject_Z 7500);
        BondDoc.mk (seed_uuid 1) "Nigeria" "NG" 1000 (82 # 10) "2026-06-30"
          "2023-07-01" 920 (41 # 10) "USD" 15000 (inject_Z 12000);
        BondDoc.mk (seed_uuid 2) "Kenya" "KE" 1000 (68 # 10) "2028-03-15"
          "2023-03-15" 965 (18 # 10) "USD" 8000 (inject_Z 5500);
        BondDoc.mk (seed_uuid 3) "South Africa" "ZA" 1000 (91 # 10) "2027-09-30"
          "2023-10-01" 890 (52 # 10) "USD" 20000 (inject_Z 18500)]
       txs pfs).
Proof.
  unfold Mock.MOCK_BONDS, insert_seeds, bind, lift, bonds_insert_one, ret,
    Bond_of_doc.
  unfold Mock.ghana, Mock.nigeria, Mock.kenya, Mock.south_africa.
  cbn [BondDoc.available_supply].
  change 7500 with (inject_Z 7500). change 12000 with (inject_Z 12000).
  change 5500 with (inject_Z 5500). change 18500 with (inject_Z 18500).
  rewrite !validate_int_integral. reflexivity.
Qed.

(** X20.  Seeding is idempotent and touches only an empty catalog: it never
    raises and leaves the log and the portfolios alone; a catalog with bonds
    is left as it is; an empty one receives the four seed bonds, under the
    identifiers drawn and within their supply bounds; seeding again changes
    nothing. *)
Theorem initialize_bonds_idempotent (db : DB.t) :
  let db1 := snd (initialize_bonds strict_int seed_uuid db) in
  fst (initialize_bonds strict_int seed_uuid db) = inr tt
  /\ snd (initialize_bonds strict_int seed_uuid db1) = db1
  /\ DB.transactions db1 = DB.transactions db
  /\ DB.portfolios db1 = DB.portfolios db
  /\ match DB.bonds db with
     | [] =>
         map BondDoc.id (DB.bonds db1)
         = [seed_uuid 0; seed_uuid 1; seed_uuid 2; seed_uuid 3]
         /\ map BondDoc.country (DB.bonds db1)
            = ["Ghana"; "Nigeria"; "Kenya"; "South Africa"]
         /\ Forall supply_in_bounds (DB.bonds db1)
     | _ :: _ => db1 = db
     end.
Proof.
  destruct db as [bonds txs pfs].
  unfold initialize_bonds, bind, bonds_count_documents. cbn [fst snd DB.bonds].
  destruct bonds as [| d bonds].
  - cbn [List.length Nat.eqb]. rewrite insert_seeds_empty. cbn [fst snd].
    unfold bind, bonds_count_documents. cbn [fst snd DB.bonds List.length Nat.eqb].
    unfold ret. cbn [fst snd DB.transactions DB.portfolios DB.bonds].
    repeat split; try reflexivity.
    repeat constructor; unfold Qle; simpl; lia.
  - cbn [List.length Nat.eqb]. unfold ret. cbn [fst snd].
    unfold bind. cbn [fst snd DB.bonds List.length Nat.eqb].
    repeat split; reflexivity.
Qed.

(** A catalog with bonds is not seeded. *)
Lemma initialize_bonds_nonempty (db : DB.t) :
  DB.bonds db <> [] -> initialize_bonds strict_int seed_uuid db = (inr tt, db).
Proof.
  intros H. unfold initialize_bonds, bind, bonds_count_documents. cbn [fst snd].
  destruct (DB.bonds db); [contradiction | reflexivity].
Qed.

(** Seeding leaves the log and the portfolios alone. *)
Lemma initialize_bonds_frame (db : DB.t) :
  DB.transactions (snd (initialize_bonds strict_int seed_uuid db)) = DB.transactions db
  /\ DB.portfolios (snd (initialize_bonds strict_int seed_uuid db)) = DB.portfolios db.
Proof.
  destruct db as [bonds txs pfs]. destruct bonds as [| d bonds].
  - unfold initialize_bonds, bind, bonds_count_documents.
    cbn [fst snd DB.bonds List.length Nat.eqb].
    rewrite insert_seeds_empty. split; reflexivity.
  - rewrite initialize_bonds_nonempty by discriminate. split; reflexivity.
Qed.

(** *** Refreshing the prices *)

(** [same_but_price] is reflexive. *)
Lemma same_but_price_refl (d : BondDoc.t) : same_but_price d d.
Proof. repeat split. Qed.

(** [same_but_price] is transitive. *)
Lemma same_but_price_trans (d1 d2 d3 : BondDoc.t) :
  same_but_price d1 d2 -> same_but_price d2 d3 -> same_but_price d1 d3.
Proof.
  unfold same_but_price. intros H1 H2.
  repeat match goal with H : _ /\ _ |- _ => destruct H end.
  repeat split; congruence.
Qed.

(** Pointwise [same_but_price] on catalogs is reflexive. *)
Lemma catalog_same_but_price_refl (l : list BondDoc.t) : Forall2 same_but_price l l.
Proof.
  induction l; constructor; [apply same_but_price_refl | assumption].
Qed.

(** Pointwise [same_but_price] on catalogs is transitive. *)
Lemma catalog_same_but_price_trans (l1 l2 l3 : list BondDoc.t) :
  Forall2 same_but_price l1 l2 -> Forall2 same_but_price l2 l3 ->
  Forall2 same_but_price l1 l3.
Proof.
  intros H. revert l3. induction H as [| d1 d2 l1 l2 Hd Hl IH]; intros l3 H3.
  - inversion H3. constructor.
  - inversion H3 as [| d2' d3 l2' l3' Hd' Hl']; subst. constructor.
    + eapply same_but_price_trans; eassumption.
    + now apply IH.
Qed.

(** Writing a price changes the price of one bond and nothing else. *)
Lemma update_bond_price_same (id : string) (v : Q) (l : list BondDoc.t) :
  Forall2 same_but_price l (update_bond_price id v l).
Proof.
  induction l as [| d l IH]; simpl; [constructor |].
  destruct (BondDoc.id d =? id); constructor;
    try apply catalog_same_but_price_refl; try assumption;
    repeat split.
Qed.

(** One round of the refresh loop. *)
Lemma refresh_prices_step (i : nat) (d : BondDoc.t) (rest : list BondDoc.t)
    (db : DB.t) :
  refresh_prices strict_int market_demand i (d :: rest) db
  = match Bond_of_doc strict_int d with
    | inl e => (inl e, db)
    | inr b =>
        match calculate_bond_price b (market_demand i) with
        | inl e => (inl e, db)
        | inr p =>
            refresh_prices strict_int market_demand (S i) rest
              (DB.mk (update_bond_price (Bond.id b) (Py.round2 p) (DB.bonds db))
                 (DB.transactions db) (DB.portfolios db))
        end
    end.
Proof.
  simpl. unfold bind at 1. unfold lift at 1.
  destruct (Bond_of_doc strict_int d) as [e | b]; [reflexivity |].
  unfold bind at 1. unfold lift at 1.
  destruct (calculate_bond_price b (market_demand i)) as [e | p]; reflexivity.
Qed.

(** The refresh loop writes prices only, however it ends. *)
Lemma refresh_prices_frame (l : list BondDoc.t) :
  forall (i : nat) (db : DB.t),
    let db' := snd (refresh_prices strict_int market_demand i l db) in
    DB.transactions db' = DB.transactions db
    /\ DB.portfolios db' = DB.portfolios db
    /\ Forall2 same_but_price (DB.bonds db) (DB.bonds db').
Proof.
  induction l as [| d l IH]; intros i db; cbn zeta.
  - simpl. repeat split. apply catalog_same_but_price_refl.
  - rewrite refresh_prices_step.
    destruct (Bond_of_doc strict_int d) as [e | b].
    { cbn [snd]. repeat split. apply catalog_same_but_price_refl. }
    destruct (calculate_bond_price b (market_demand i)) as [e | p].
    { cbn [snd]. repeat split. apply catalog_same_but_price_refl. }
    destruct (IH (S i)
                (DB.mk (update_bond_price (Bond.id b) (Py.round2 p) (DB.bonds db))
                   (DB.transactions db) (DB.portfolios db))) as (Ht & Hp & Hb).
    cbn [DB.transactions DB.portfolios DB.bonds] in Ht, Hp, Hb.
    rewrite Ht, Hp. repeat split.
    eapply catalog_same_but_price_trans; [| exact Hb].
    apply update_bond_price_same.
Qed.

(** The endpoint, step by step. *)
Lemma get_bonds_unfold (db : DB.t) :
  get_bonds strict_int seed_uuid market_demand db
  = match initialize_bonds strict_int seed_uuid db with
    | (inl e, db0) => (inl e, db0)
    | (inr _, db0) =>
        match refresh_prices strict_int market_demand 0
                (firstn 1000 (DB.bonds db0)) db0 with
        | (inl e, db1) => (inl e, db1)
        | (inr _, db1) =>
            (validate_bonds strict_int (firstn 1000 (DB.bonds db1)), db1)
        end
    end.
Proof.
  unfold get_bonds. unfold bind at 1.
  destruct (initialize_bonds strict_int seed_uuid db) as [[e | u] db0];
    [reflexivity |].
  unfold bind at 1. unfold bonds_to_list at 1. unfold bind at 1.
  destruct (refresh_prices strict_int market_demand 0 (firstn 1000 (DB.bonds db0)) db0)
    as [[e | u'] db1]; reflexivity.
Qed.

(** X21.  Listing the bonds writes prices only: the log and the portfolios
    are as before, and the catalog, after seeding, keeps its bonds in order
    with every field but [current_price], whether the call returns or
    raises. *)
Theorem get_bonds_frame (db : DB.t) :
  let db0 := snd (initialize_bonds strict_int seed_uuid db) in
  let db' := snd (get_bonds strict_int seed_uuid market_demand db) in
  DB.transactions db' = DB.transactions db
  /\ DB.portfolios db' = DB.portfolios db
  /\ Forall2 same_but_price (DB.bonds db0) (DB.bonds db').
Proof.
  intros db0 db'. subst db0 db'.
  destruct (initialize_bonds_frame db) as [Ht0 Hp0].
  rewrite get_bonds_unfold.
  destruct (initialize_bonds strict_int seed_uuid db) as [[e | u] db0] eqn:Ei;
    cbn [fst snd] in *.
  { repeat split; try assumption. apply catalog_same_but_price_refl. }
  destruct (refresh_prices_frame (firstn 1000 (DB.bonds db0)) 0 db0)
    as (Ht & Hp & Hb).
  destruct (refresh_prices strict_int market_demand 0 (firstn 1000 (DB.bonds db0)) db0)
    as [[e | u'] db1]; cbn [fst snd] in *; rewrite Ht, Hp; auto.
Qed.

(** An identifier borne by no document is not found. *)
Lemma find_bond_not_in (id : string) (l : list BondDoc.t) :
  ~ In id (map BondDoc.id l) -> find_bond id l = None.
Proof.
  induction l as [| d l IH]; simpl; [reflexivity |].
  intros H. destruct (String.eqb_spec (BondDoc.id d) id) as [E | E].
  - exfalso. apply H. now left.
  - apply IH. intros Hin. apply H. now right.
Qed.

(** Writing a price reaches the first document with the identifier. *)
Lemma update_bond_price_app (id : string) (v : Q) (before after : list BondDoc.t)
    (d : BondDoc.t) :
  find_bond id before = None ->
  BondDoc.id d = id ->
  update_bond_price id v (before ++ d :: after)
  = (before ++ set_current_price v d :: after)%list.
Proof.
  intros Hb Hd. induction before as [| d0 before IH]; simpl in *.
  - rewrite Hd, String.eqb_refl. reflexivity.
  - destruct (BondDoc.id d0 =? id); [discriminate |]. now rewrite IH.
Qed.

(** Under distinct identifiers the refresh loop refreshes each bond it was
    given, in place, at its own draw of the demand. *)
Lemma refresh_prices_spec (todo : list BondDoc.t) :
  forall (before after : list BondDoc.t) (i : nat)
         (txs : list BondTransaction.t) (pfs : list Portfolio.t),
    NoDup (map BondDoc.id (before ++ todo)) ->
    Forall (priceable strict_int) todo ->
    refresh_prices strict_int market_demand i todo
      (DB.mk (before ++ todo ++ after) txs pfs)
    = (inr tt,
       DB.mk (before ++ refreshed strict_int market_demand i todo ++ after) txs pfs).
Proof.
  induction todo as [| d todo IH]; intros before after i txs pfs Hnd Hall.
  - reflexivity.
  - inversion Hall as [| d' l' (b & Hb & Ht) Hrest]; subst.
    rewrite refresh_prices_step, Hb.
    rewrite (calculate_bond_price_value b (market_demand i) Ht).
    cbn [DB.bonds DB.transactions DB.portfolios].
    destruct (Bond_of_doc_fields strict_int _ _ Hb) as (Hid & _).
    assert (Hnot : find_bond (Bond.id b) before = None).
    { apply find_bond_not_in. rewrite Hid.
      rewrite map_app in Hnd. simpl in Hnd.
      apply NoDup_remove_2 in Hnd. intros Hin. apply Hnd.
      apply in_or_app. now left. }
    simpl app.
    rewrite (update_bond_price_app _ _ before (todo ++ after) d Hnot (eq_sym Hid)).
    set (d1 := set_current_price _ d).
    specialize (IH (before ++ [d1])%list after (S i) txs pfs).
    rewrite <- !app_assoc in IH. simpl in IH. rewrite IH; [| | exact Hrest].
    + simpl. unfold refreshed_bond. rewrite Hb.
      rewrite (calculate_bond_price_value b (market_demand i) Ht). reflexivity.
    + rewrite map_app in *. simpl in *. exact Hnd.
Qed.

(** The bonds read back after the refresh are the refreshed ones. *)
Lemma firstn_refreshed (l : list BondDoc.t) (i : nat) :
  firstn 1000 (refreshed strict_int market_demand i (firstn 1000 l) ++ skipn 1000 l)
  = refreshed strict_int market_demand i (firstn 1000 l).
Proof.
  assert (Hlen : forall l0 j,
            List.length (refreshed strict_int market_demand j l0) = List.length l0).
  { induction l0 as [| d l0 IH0]; intros j; simpl; [reflexivity | now rewrite IH0]. }
  rewrite firstn_app, Hlen, length_firstn.
  destruct (Nat.le_gt_cases (List.length l) 1000) as [Hle | Hgt].
  - rewrite skipn_all2 by exact Hle. rewrite firstn_nil, app_nil_r.
    apply firstn_all2. rewrite Hlen, length_firstn. lia.
  - replace (1000 - Nat.min 1000 (List.length l))%nat with 0%nat by lia.
    rewrite firstn_O, app_nil_r.
    apply firstn_all2. rewrite Hlen, length_firstn. lia.
Qed.

(** The catalog and the answer of a listing of a catalog with bonds, of
    distinct identifiers, all priceable. *)
Lemma get_bonds_value (db : DB.t) :
  DB.bonds db <> [] ->
  NoDup (map BondDoc.id (firstn 1000 (DB.bonds db))) ->
  Forall (priceable strict_int) (firstn 1000 (DB.bonds db)) ->
  get_bonds strict_int seed_uuid market_demand db
  = (validate_bonds strict_int
       (refreshed strict_int market_demand 0 (firstn 1000 (DB.bonds db))),
     DB.mk
       (refreshed strict_int market_demand 0 (firstn 1000 (DB.bonds db))
        ++ skipn 1000 (DB.bonds db))
       (DB.transactions db) (DB.portfolios db)).
Proof.
  intros Hne Hnd Hall.
  rewrite get_bonds_unfold, (initialize_bonds_nonempty db Hne).
  destruct db as [bonds txs pfs]. cbn [DB.bonds DB.transactions DB.portfolios] in *.
  assert (Hspec :
    refresh_prices strict_int market_demand 0 (firstn 1000 bonds)
      (DB.mk bonds txs pfs)
    = (inr tt,
       DB.mk (refreshed strict_int market_demand 0 (firstn 1000 bonds)
              ++ skipn 1000 bonds) txs pfs)).
  { rewrite <- (firstn_skipn 1000 bonds) at 2.
    exact (refresh_prices_spec (firstn 1000 bonds) [] (skipn 1000 bonds) 0 txs pfs
             Hnd Hall). }
  rewrite Hspec. cbn [DB.bonds].
  now rewrite firstn_refreshed.
Qed.

(** Validating a stored bond whose price was written. *)
Lemma Bond_of_doc_set_current_price (v : Q) (d : BondDoc.t) (b : Bond.t) :
  Bond_of_doc strict_int d = inr b ->
  Bond_of_doc strict_int (set_current_price v d) = inr (Bond_with_price v b).
Proof.
  unfold Bond_of_doc. cbn.
  destruct (validate_int strict_int (BondDoc.available_supply d)); [discriminate |].
  now intros [= <-].
Qed.

(** The prices of refreshed bonds: two decimals, not below the rounded floor. *)
Lemma validate_refreshed (l : list BondDoc.t) :
  forall i,
    Forall (priceable strict_int) l ->
    exists bs,
      validate_bonds strict_int (refreshed strict_int market_demand i l) = inr bs
      /\ List.length bs = List.length l
      /\ Forall
           (fun b =>
              Py.round2 (Bond.face_value b * (7 # 10)) <= Bond.current_price b
              /\ Py.round2 (Bond.current_price b) = Bond.current_price b) bs.
Proof.
  induction l as [| d l IH]; intros i Hall.
  - exists []. repeat split. constructor.
  - inversion Hall as [| d' l' (b & Hb & Ht) Hrest]; subst.
    destruct (IH (S i) Hrest) as (bs & Hbs & Hlen & Hp).
    simpl. unfold refreshed_bond. rewrite Hb.
    rewrite (calculate_bond_price_value b (market_demand i) Ht).
    rewrite (Bond_of_doc_set_current_price _ _ _ Hb), Hbs.
    eexists. split; [reflexivity |]. split; [simpl; now rewrite Hlen |].
    constructor; [| exact Hp]. cbn. split.
    + apply round2_mono, max_ge_r.
    + apply round2_idempotent.
Qed.

(** X22.  On a catalog with bonds, whose first 1000 documents have distinct
    identifiers, validate and have a non-zero total supply, listing the bonds
    rewrites each of these documents' price to the pricing engine's price at
    its own draw of the demand, rounded to 2 decimals, and leaves the other
    documents, the log and the portfolios as they are; the answer is these
    documents, validated. *)
Theorem get_bonds_refreshes (db : DB.t) :
  DB.bonds db <> [] ->
  NoDup (map BondDoc.id (firstn 1000 (DB.bonds db))) ->
  Forall (priceable strict_int) (firstn 1000 (DB.bonds db)) ->
  snd (get_bonds strict_int seed_uuid market_demand db)
  = DB.mk
      (refreshed strict_int market_demand 0 (firstn 1000 (DB.bonds db))
       ++ skipn 1000 (DB.bonds db))
      (DB.transactions db) (DB.portfolios db)
  /\ fst (get_bonds strict_int seed_uuid market_demand db)
     = validate_bonds strict_int
         (refreshed strict_int market_demand 0 (firstn 1000 (DB.bonds db))).
Proof.
  intros Hne Hnd Hall. rewrite (get_bonds_value db Hne Hnd Hall).
  split; reflexivity.
Qed.

(** X23.  On such a catalog the listing returns, whatever demands are drawn:
    as many bonds as it read, at most 1000, each with a price of two decimals
    that is not below 70% of the face value, rounded. *)
Theorem get_bonds_prices (db : DB.t) :
  DB.bonds db <> [] ->
  NoDup (map BondDoc.id (firstn 1000 (DB.bonds db))) ->
  Forall (priceable strict_int) (firstn 1000 (DB.bonds db)) ->
  exists bs,
    fst (get_bonds strict_int seed_uuid market_demand db) = inr bs
    /\ List.length bs = Nat.min 1000 (List.length (DB.bonds db))
    /\ Forall
         (fun b =>
            Py.round2 (Bond.face_value b * (7 # 10)) <= Bond.current_price b
            /\ Py.round2 (Bond.current_price b) = Bond.current_price b) bs.
Proof.
  intros Hne Hnd Hall. rewrite (get_bonds_value db Hne Hnd Hall). cbn [fst].
  destruct (validate_refreshed (firstn 1000 (DB.bonds db)) 0 Hall)
    as (bs & Hbs & Hlen & Hp).
  exists bs. split; [exact Hbs |]. split; [| exact Hp].
  rewrite Hlen. apply length_firstn.
Qed.

End Catalog.

(** ** Reading a bond and a portfolio *)

Section Reads.

Variable strptime : string -> option datetime.
Variable strict_int : bool.

(** *** A bond *)


(** X24.  [GET /bonds/{id}] leaves the database as it is; it answers 404
    exactly when no bond has the identifier, and a bond it returns is the
    first stored under the identifier, validated, and bears that
    identifier. *)
Theorem get_bond_reads (bond_id : string) (db : DB.t) :
  snd (get_bond strict_int bond_id db) = db
  /\ match fst (get_bond strict_int bond_id db) with
     | inr bond =>
         Bond.id bond = bond_id
         /\ exists d,
              find_bond bond_id (DB.bonds db) = Some d
              /\ Bond_of_doc strict_int d = inr bond
     | inl e =>
         if is_http e
         then e = HTTPException 404 "Bond not found"
              /\ find_bond bond_id (DB.bonds db) = None
         else find_bond bond_id (DB.bonds db) <> None
     end.
Proof.
  unfold get_bond, bind, bonds_find_one, lift, raise. cbn [fst snd].
  destruct (find_bond bond_id (DB.bonds db)) as [d |] eqn:Ef; cbn [fst snd is_http];
    [| auto].
  split; [reflexivity |].
  destruct (Bond_of_doc strict_int d) as [e | bond] eqn:Eb.
  - apply Bond_of_doc_error in Eb. subst e. cbn. discriminate.
  - split; [| eauto].
    destruct (Bond_of_doc_fields strict_int _ _ Eb) as (Hid & _).
    rewrite Hid. eapply find_bond_id; eassumption.
Qed.


(** *** A portfolio *)

(** One round of the loop that enriches the holdings. *)
Lemma enrich_step (now : datetime) (bond_id : string) (quantity : Q)
    (rest : Dict.t) (acc : list Holding.t) (db : DB.t) :
  enrich strptime strict_int now ((bond_id, quantity) :: rest) acc db
  = match find_bond bond_id (DB.bonds db) with
    | None => enrich strptime strict_int now rest acc db
    | Some d =>
        match Bond_of_doc strict_int d with
        | inl e => (inl e, db)
        | inr b =>
            match calculate_dynamic_yield strptime b now with
            | inl e => (inl e, db)
            | inr y =>
                enrich strptime strict_int now rest
                  (acc
                   ++ [Holding.mk (Bond_dict b) quantity
                         (Py.round2 (Bond.current_price b * quantity)) y
                         (Py.round2
                            ((Bond.current_price b - Bond.face_value b) * quantity))])
                  db
            end
        end
    end.
Proof.
  simpl. unfold bind at 1. unfold bonds_find_one at 1.
  destruct (find_bond bond_id (DB.bonds db)) as [d |]; [| reflexivity].
  unfold bind at 1. unfold lift at 1.
  destruct (Bond_of_doc strict_int d) as [e | b]; [reflexivity |].
  unfold bind at 1. unfold lift at 1.
  destruct (calculate_dynamic_yield strptime b now) as [e | y]; reflexivity.
Qed.

(** The loop reads the catalog only. *)
Lemma enrich_bonds_only (now : datetime) (db db' : DB.t) (items : Dict.t) :
  DB.bonds db = DB.bonds db' ->
  forall acc : list Holding.t,
    fst (enrich strptime strict_int now items acc db)
    = fst (enrich strptime strict_int now items acc db').
Proof.
  intros Hb. induction items as [| [bond_id quantity] rest IH]; intros acc.
  - reflexivity.
  - rewrite !enrich_step, <- Hb.
    destruct (find_bond bond_id (DB.bonds db)) as [d |]; [| apply IH].
    destruct (Bond_of_doc strict_int d) as [e | b]; [reflexivity |].
    destruct (calculate_dynamic_yield strptime b now) as [e | y]; [reflexivity |].
    apply IH.
Qed.

(** The loop only reads, raises no HTTP error, and appends one consistent
    entry per holding whose bond is in the catalog, in order. *)
Lemma enrich_spec (now : datetime) (db : DB.t) (items : Dict.t) :
  forall acc : list Holding.t,
    snd (enrich strptime strict_int now items acc db) = db
    /\ match fst (enrich strptime strict_int now items acc db) with
       | inr hs =>
           exists new,
             hs = (acc ++ new)%list
             /\ map Holding.quantity new
                = map snd (filter (in_catalog (DB.bonds db)) items)
             /\ Forall consistent_entry new
       | inl e => is_http e = false
       end.
Proof.
  induction items as [| [bond_id quantity] rest IH]; intros acc.
  - simpl. split; [reflexivity |]. exists []. rewrite app_nil_r.
    repeat split. constructor.
  - rewrite enrich_step. unfold in_catalog at 1. simpl filter.
    cbn [fst]. fold (in_catalog (DB.bonds db)).
    destruct (find_bond bond_id (DB.bonds db)) as [d |] eqn:Ef; [| apply IH].
    destruct (Bond_of_doc strict_int d) as [e | b] eqn:Eb.
    { apply Bond_of_doc_error in Eb. subst e. split; reflexivity. }
    destruct (calculate_dynamic_yield strptime b now) as [e | y] eqn:Ey.
    { apply calculate_dynamic_yield_error in Ey. subst e. split; reflexivity. }
    match goal with
    | |- context [enrich _ _ _ _ ?acc1 _] => destruct (IH acc1) as [Hs Hr]
    end.
    split; [exact Hs |].
    destruct (fst (enrich strptime strict_int now rest _ db)) as [e | hs];
      [exact Hr |].
    destruct Hr as (new & -> & Hq & Hc).
    eexists (_ :: new). rewrite <- app_assoc. split; [reflexivity |].
    split; [simpl; now rewrite Hq |].
    constructor; [| exact Hc]. split; reflexivity.
Qed.


(** Whether the yield engine returns does not depend on the time. *)
Lemma calculate_dynamic_yield_defined (b : Bond.t) (now now' : datetime) (y : Q) :
  calculate_dynamic_yield strptime b now = inr y ->
  exists y', calculate_dynamic_yield strptime b now' = inr y'.
Proof.
  unfold calculate_dynamic_yield.
  destruct (strptime (Bond.maturity_date b)); [eauto | discriminate].
Qed.

(** Holdings whose totals could be recalculated can be enriched. *)
Lemma enrich_succeeds (now now' : datetime) (db : DB.t) (items : Dict.t) :
  forall (acc : Q * Q) (acc' : list Holding.t) (totals : Q * Q),
    fst (recalculate strptime strict_int now items acc db) = inr totals ->
    exists hs, fst (enrich strptime strict_int now' items acc' db) = inr hs.
Proof.
  induction items as [| [bond_id quantity] rest IH]; intros acc acc' totals.
  - simpl. eauto.
  - rewrite recalculate_step, enrich_step.
    destruct (find_bond bond_id (DB.bonds db)) as [d |]; [| apply IH].
    destruct (Bond_of_doc strict_int d) as [e | b]; [discriminate |].
    destruct (calculate_dynamic_yield strptime b now) as [e | y] eqn:Ey;
      [discriminate |].
    destruct (calculate_dynamic_yield_defined b now now' y Ey) as [y' ->].
    cbv zeta. apply IH.
Qed.

(** X27.  After a successful trade the requester's portfolio can be read: the
    endpoint returns a report, of the portfolio the trade saved, whose total
    value is the one on the receipt. *)
Theorem get_portfolio_after_trade
    (env env' : Env.t) (trade : TradeRequest.t) (db : DB.t)
    (receipt : TradeReceipt.t) :
  fst (execute_trade strptime strict_int env trade db) = inr receipt ->
  let db' := snd (execute_trade strptime strict_int env trade db) in
  exists report,
    fst (get_portfolio strptime strict_int env' (TradeRequest.user_address trade) db')
    = inr (inr report)
    /\ find_portfolio (TradeRequest.user_address trade) (DB.portfolios db')
       = Some (PortfolioReport.portfolio report)
    /\ PortfolioReport.total_value report = TradeReceipt.new_portfolio_value receipt.
Proof.
  intros Hres db'. subst db'.
  pose proof (execute_trade_settles strptime strict_int env trade db) as H.
  revert Hres.
  destruct H as [Hf | d0 Hf Hb | d0 bond0 Hf Hb Hbuy Hlt | d0 bond0 Hf Hb Hok Hz
                 | d0 bond0 price e0 Hf Hb Hok Hp He
                 | d0 bond0 price holdings totals Hf Hb Hok Hp Hh Hr];
    intros Hres; try discriminate.
  injection Hres as <-.
  assert (Hfind : find_portfolio (TradeRequest.user_address trade)
                    (DB.portfolios (with_portfolio trade p
                                      (booked env trade bond0 price db)))
                  = Some p).
  { unfold with_portfolio. cbn [DB.portfolios].
    apply find_portfolio_replace, saved_portfolio_address. }
  unfold get_portfolio, bind, portfolios_find_one, ret. cbn [fst snd].
  rewrite Hfind.
  destruct (enrich_succeeds (Env.now env) (Env.now env')
              (booked env trade bond0 price db) holdings (0, 0) [] totals Hr)
    as [hs Hhs].
  assert (Hsame : enrich strptime strict_int (Env.now env') (Portfolio.bonds p) []
                    (with_portfolio trade p (booked env trade bond0 price db))
                  = (inr hs, with_portfolio trade p (booked env trade bond0 price db))).
  { pose proof (enrich_spec (Env.now env')
                  (with_portfolio trade p (booked env trade bond0 price db))
                  (Portfolio.bonds p) []) as [Hs _].
    destruct (enrich strptime strict_int (Env.now env') (Portfolio.bonds p) []
                (with_portfolio trade p (booked env trade bond0 price db)))
      as [r db1] eqn:Ee. cbn [snd] in Hs. subst db1. f_equal.
    rewrite <- Hhs. subst p. cbn [saved_portfolio Portfolio.bonds].
    apply (f_equal fst) in Ee. cbn [fst] in Ee. rewrite <- Ee.
    apply enrich_bonds_only. reflexivity. }
  rewrite Hsame. cbn [fst snd].
  eexists. split; [reflexivity |]. split; reflexivity.
Qed.

End Reads.

(** ** The further theorems at concrete inputs *)

Section WitnessesMore.

(** Alice's buy of 5 units from the seed catalog succeeds. *)
Lemma buy_5_succeeds :
  { receipt | fst (execute_trade Calendar.strptime_ymd true Mock.env buy_5 Mock.seeded)
              = inr receipt }.
Proof. eexists. vm_compute. reflexivity. Defined.

(** The Ghana bond at demand 1. *)
Lemma calculate_bond_price_scarcity_premium_witness :
  (0 < Bond.total_supply ghana_bond)%Z
  /\ (0 <= Bond.available_supply ghana_bond <= Bond.total_supply ghana_bond)%Z
  /\ exists price,
       calculate_bond_price ghana_bond 1 = inr price
       /\ Py.max (base_price ghana_bond 1) (Bond.face_value ghana_bond * (7 # 10))
          <= price
       /\ price
          <= Py.max (base_price ghana_bond 1 + 50)
               (Bond.face_value ghana_bond * (7 # 10)).
Proof.
  assert (H1 : (0 < Bond.total_supply ghana_bond)%Z) by (simpl; lia).
  assert (H2 : (0 <= Bond.available_supply ghana_bond
                <= Bond.total_supply ghana_bond)%Z) by (simpl; lia).
  split; [exact H1 |]. split; [exact H2 |].
  exact (calculate_bond_price_scarcity_premium ghana_bond 1 H1 H2).
Defined.

(** The Ghana bond at demands 0.8 and 1.3. *)
Lemma calculate_bond_price_monotone_in_demand_witness :
  8 # 10 <= 13 # 10
  /\ match calculate_bond_price ghana_bond (8 # 10),
           calculate_bond_price ghana_bond (13 # 10) with
     | inr p1, inr p2 => p1 <= p2
     | inl e1, inl e2 => e1 = ZeroDivisionError /\ e2 = ZeroDivisionError
     | _, _ => False
     end.
Proof.
  assert (H : 8 # 10 <= 13 # 10) by (unfold Qle; simpl; lia).
  split; [exact H |].
  exact (calculate_bond_price_monotone_in_demand ghana_bond (8 # 10) (13 # 10) H).
Defined.

(** The Ghana bond at risk factors 2.3 and 4.1. *)
Lemma calculate_bond_price_antitone_in_risk_witness :
  23 # 10 <= 41 # 10
  /\ match calculate_bond_price (Bond.with_risk_factor (23 # 10) ghana_bond) 1,
           calculate_bond_price (Bond.with_risk_factor (41 # 10) ghana_bond) 1 with
     | inr p1, inr p2 => p2 <= p1
     | inl e1, inl e2 => e1 = ZeroDivisionError /\ e2 = ZeroDivisionError
     | _, _ => False
     end.
Proof.
  assert (H : 23 # 10 <= 41 # 10) by (unfold Qle; simpl; lia).
  split; [exact H |].
  exact (calculate_bond_price_antitone_in_risk ghana_bond (23 # 10) (41 # 10) 1 H).
Defined.

(** The Ghana bond with 7495 and 7500 units available. *)
Lemma calculate_bond_price_antitone_in_supply_witness :
  (0 < Bond.total_supply ghana_bond)%Z
  /\ (7495 <= 7500)%Z
  /\ exists p1 p2,
       calculate_bond_price (Bond_with_supply 7495 ghana_bond) 1 = inr p1
       /\ calculate_bond_price (Bond_with_supply 7500 ghana_bond) 1 = inr p2
       /\ p2 <= p1.
Proof.
  assert (H1 : (0 < Bond.total_supply ghana_bond)%Z) by (simpl; lia).
  assert (H2 : (7495 <= 7500)%Z) by lia.
  split; [exact H1 |]. split; [exact H2 |].
  exact (calculate_bond_price_antitone_in_supply ghana_bond 7495 7500 1 H1 H2).
Defined.

(** The Ghana bond maturing at the end of 2029 or of 2030. *)
Lemma calculate_dynamic_yield_monotone_in_maturity_witness :
  Calendar.strptime_ymd "2029-12-31" = Some (Calendar.midnight 2029 12 31)
  /\ Calendar.strptime_ymd "2030-12-31" = Some (Calendar.midnight 2030 12 31)
  /\ (Calendar.midnight 2029 12 31 <= Calendar.midnight 2030 12 31)%Z
  /\ exists y1 y2,
       calculate_dynamic_yield Calendar.strptime_ymd
         (Bond_with_maturity "2029-12-31" ghana_bond) (Env.now Mock.env) = inr y1
       /\ calculate_dynamic_yield Calendar.strptime_ymd
            (Bond_with_maturity "2030-12-31" ghana_bond) (Env.now Mock.env) = inr y2
       /\ y1 <= y2.
Proof.
  assert (H1 : Calendar.strptime_ymd "2029-12-31"
               = Some (Calendar.midnight 2029 12 31)) by reflexivity.
  assert (H2 : Calendar.strptime_ymd "2030-12-31"
               = Some (Calendar.midnight 2030 12 31)) by reflexivity.
  assert (H3 : (Calendar.midnight 2029 12 31 <= Calendar.midnight 2030 12 31)%Z)
    by (vm_compute; discriminate).
  split; [exact H1 |]. split; [exact H2 |]. split; [exact H3 |].
  exact (calculate_dynamic_yield_monotone_in_maturity Calendar.strptime_ymd
           ghana_bond "2029-12-31" "2030-12-31" _ _ (Env.now Mock.env) H1 H2 H3).
Defined.

(** The Ghana bond at the start of 2025 and of 2026. *)
Lemma calculate_dynamic_yield_antitone_in_time_witness :
  Calendar.strptime_ymd (Bond.maturity_date ghana_bond)
  = Some (Calendar.midnight 2029 12 31)
  /\ (Calendar.midnight 2025 1 1 <= Calendar.midnight 2026 1 1)%Z
  /\ exists y1 y2,
       calculate_dynamic_yield Calendar.strptime_ymd ghana_bond
         (Calendar.midnight 2025 1 1) = inr y1
       /\ calculate_dynamic_yield Calendar.strptime_ymd ghana_bond
            (Calendar.midnight 2026 1 1) = inr y2
       /\ y2 <= y1.
Proof.
  assert (H1 : Calendar.strptime_ymd (Bond.maturity_date ghana_bond)
               = Some (Calendar.midnight 2029 12 31)) by reflexivity.
  assert (H2 : (Calendar.midnight 2025 1 1 <= Calendar.midnight 2026 1 1)%Z)
    by (vm_compute; discriminate).
  split; [exact H1 |]. split; [exact H2 |].
  exact (calculate_dynamic_yield_antitone_in_time Calendar.strptime_ymd ghana_bond
           _ _ _ H1 H2).
Defined.

(** The Nigeria bond, 545 days from maturity at the start of 2025. *)
Lemma calculate_dynamic_yield_without_premium_witness :
  Calendar.strptime_ymd (Bond.maturity_date nigeria_bond)
  = Some (Calendar.midnight 2026 6 30)
  /\ (Calendar.midnight 2026 6 30 - Calendar.midnight 2025 1 1
      < 731 * 86400000000)%Z
  /\ calculate_dynamic_yield Calendar.strptime_ymd nigeria_bond
       (Calendar.midnight 2025 1 1)
     = inr (Py.round2 (risk_adjusted (Bond.coupon_rate nigeria_bond)
                         (Bond.risk_factor nigeria_bond))).
Proof.
  assert (H1 : Calendar.strptime_ymd (Bond.maturity_date nigeria_bond)
               = Some (Calendar.midnight 2026 6 30)) by reflexivity.
  assert (H2 : (Calendar.midnight 2026 6 30 - Calendar.midnight 2025 1 1
                < 731 * 86400000000)%Z) by (vm_compute; reflexivity).
  split; [exact H1 |]. split; [exact H2 |].
  exact (calculate_dynamic_yield_without_premium Calendar.strptime_ymd nigeria_bond
           _ _ H1 H2).
Defined.

(** Alice's holding after she buys 5 units of the Ghana bond. *)
Lemma execute_trade_holding_witness :
  (exists receipt,
     fst (execute_trade Calendar.strptime_ymd true Mock.env buy_5 Mock.seeded)
     = inr receipt)
  /\ holding (snd (execute_trade Calendar.strptime_ymd true Mock.env buy_5 Mock.seeded))
       Mock.alice "bond-gh"
     = holding Mock.seeded Mock.alice "bond-gh" + 5.
Proof.
  split; [exists (proj1_sig buy_5_succeeds); exact (proj2_sig buy_5_succeeds) |].
  exact (execute_trade_holding Calendar.strptime_ymd true Mock.env buy_5 Mock.seeded
           (proj1_sig buy_5_succeeds) (proj2_sig buy_5_succeeds)).
Defined.

(** Alice's holding of the Kenya bond after she buys 5 units of the Ghana
    bond. *)
Lemma execute_trade_other_holdings_witness :
  (exists receipt,
     fst (execute_trade Calendar.strptime_ymd true Mock.env buy_5 Mock.seeded)
     = inr receipt)
  /\ "bond-ke" <> TradeRequest.bond_id buy_5
  /\ holding (snd (execute_trade Calendar.strptime_ymd true Mock.env buy_5 Mock.seeded))
       (TradeRequest.user_address buy_5) "bond-ke"
     = holding Mock.seeded (TradeRequest.user_address buy_5) "bond-ke".
Proof.
  assert (Hne : "bond-ke" <> TradeRequest.bond_id buy_5) by discriminate.
  split; [exists (proj1_sig buy_5_succeeds); exact (proj2_sig buy_5_succeeds) |].
  split; [exact Hne |].
  exact (execute_trade_other_holdings Calendar.strptime_ymd true Mock.env buy_5
           Mock.seeded (proj1_sig buy_5_succeeds) "bond-ke"
           (proj2_sig buy_5_succeeds) Hne).
Defined.

(** Alice, holding 5 units of the Ghana bond, buys 5 of the Kenya bond. *)
Lemma buy_5_kenya_succeeds :
  { receipt
  | fst (execute_trade Calendar.strptime_ymd true Mock.env buy_5_kenya alice_holds_5)
    = inr receipt }.
Proof. eexists. vm_compute. reflexivity. Defined.

(** Alice's holdings stay positive when she adds 5 units of the Kenya bond to
    her 5 units of the Ghana bond. *)
Lemma execute_trade_keeps_holdings_positive_witness :
  (forall p,
     find_portfolio (TradeRequest.user_address buy_5_kenya)
       (DB.portfolios alice_holds_5) = Some p ->
     positive_holdings (Portfolio.bonds p))
  /\ 0 < TradeRequest.quantity buy_5_kenya
  /\ exists p',
       find_portfolio (TradeRequest.user_address buy_5_kenya)
         (DB.portfolios
            (snd (execute_trade Calendar.strptime_ymd true Mock.env buy_5_kenya
                    alice_holds_5)))
       = Some p'
       /\ positive_holdings (Portfolio.bonds p').
Proof.
  assert (Hp : forall p,
            find_portfolio (TradeRequest.user_address buy_5_kenya)
              (DB.portfolios alice_holds_5) = Some p ->
            positive_holdings (Portfolio.bonds p)).
  { intros p Hp. injection Hp as <-. repeat constructor. }
  assert (Hq : 0 < TradeRequest.quantity buy_5_kenya) by reflexivity.
  split; [exact Hp |]. split; [exact Hq |].
  exact (execute_trade_keeps_holdings_positive Calendar.strptime_ymd true Mock.env
           buy_5_kenya alice_holds_5 (proj1_sig buy_5_kenya_succeeds) Hp
           (fun _ => Hq) (proj2_sig buy_5_kenya_succeeds)).
Defined.

(** The receipt of alice's buy of 5 units. *)
Lemma execute_trade_receipt_witness :
  exists d bond p,
    find_bond (TradeRequest.bond_id buy_5) (DB.bonds Mock.seeded) = Some d
    /\ Bond_of_doc true d = inr bond
    /\ calculate_bond_price bond 1
       = inr (TradeReceipt.trade_price (proj1_sig buy_5_succeeds))
    /\ Bond.face_value bond * (7 # 10)
       <= TradeReceipt.trade_price (proj1_sig buy_5_succeeds)
    /\ TradeReceipt.total_amount (proj1_sig buy_5_succeeds)
       = TradeReceipt.trade_price (proj1_sig buy_5_succeeds)
         * TradeRequest.quantity buy_5
    /\ TradeReceipt.success (proj1_sig buy_5_succeeds) = true
    /\ TradeReceipt.transaction_id (proj1_sig buy_5_succeeds)
       = Env.transaction_uuid Mock.env
    /\ find_portfolio (TradeRequest.user_address buy_5)
         (DB.portfolios
            (snd (execute_trade Calendar.strptime_ymd true Mock.env buy_5 Mock.seeded)))
       = Some p
    /\ TradeReceipt.new_portfolio_value (proj1_sig buy_5_succeeds)
       = Portfolio.total_value p.
Proof.
  exact (execute_trade_receipt Calendar.strptime_ymd true Mock.env buy_5 Mock.seeded
           (proj1_sig buy_5_succeeds) (proj2_sig buy_5_succeeds)).
Defined.

(** A request for a bond that is not in the catalog. *)
Lemma execute_trade_on_exception_witness :
  fst (execute_trade Calendar.strptime_ymd true Mock.env buy_unknown Mock.seeded)
  = inl (HTTPException 404 "Bond not found")
  /\ DB.portfolios
       (snd (execute_trade Calendar.strptime_ymd true Mock.env buy_unknown Mock.seeded))
     = DB.portfolios Mock.seeded
  /\ (snd (execute_trade Calendar.strptime_ymd true Mock.env buy_unknown Mock.seeded)
      = Mock.seeded
      \/ (is_http (HTTPException 404 "Bond not found") = false
          /\ exists bond price,
               snd (execute_trade Calendar.strptime_ymd true Mock.env buy_unknown
                      Mock.seeded)
               = booked Mock.env buy_unknown bond price Mock.seeded)).
Proof.
  assert (H : fst (execute_trade Calendar.strptime_ymd true Mock.env buy_unknown
                     Mock.seeded)
              = inl (HTTPException 404 "Bond not found")) by reflexivity.
  split; [exact H |].
  exact (execute_trade_on_exception Calendar.strptime_ymd true Mock.env buy_unknown
           Mock.seeded _ H).
Defined.

(** The supply of the Ghana bond after alice's buy of 5 units. *)
Lemma execute_trade_supply_witness :
  exists d bond,
    find_bond (TradeRequest.bond_id buy_5) (DB.bonds Mock.seeded) = Some d
    /\ Bond_of_doc true d = inr bond
    /\ find_bond (TradeRequest.bond_id buy_5)
         (DB.bonds
            (snd (execute_trade Calendar.strptime_ymd true Mock.env buy_5 Mock.seeded)))
       = Some (BondDoc.set_available_supply
                 (if TradeRequest.transaction_type buy_5 =? "buy"
                  then inject_Z (Bond.available_supply bond)
                       - TradeRequest.quantity buy_5
                  else inject_Z (Bond.available_supply bond)
                       + TradeRequest.quantity buy_5) d).
Proof.
  exact (execute_trade_supply Calendar.strptime_ymd true Mock.env buy_5 Mock.seeded
           (proj1_sig buy_5_succeeds) (proj2_sig buy_5_succeeds)).
Defined.

(** Alice's sale of the 5 units she bought succeeds. *)
Lemma sell_5_back_succeeds :
  { receipt
  | fst (execute_trade Calendar.strptime_ymd true Mock.env
           (TradeRequest.mk Mock.alice "bond-gh" (inject_Z 5) "sell")
           (snd (execute_trade Calendar.strptime_ymd true Mock.env
                   (TradeRequest.mk Mock.alice "bond-gh" (inject_Z 5) "buy")
                   Mock.seeded)))
    = inr receipt }.
Proof. eexists. vm_compute. reflexivity. Defined.

(** Alice buys 5 units of the Ghana bond and sells them back. *)
Lemma buy_then_sell_restores_supply_witness :
  exists d2,
    find_bond "bond-gh"
      (DB.bonds
         (snd (execute_trade Calendar.strptime_ymd true Mock.env
                 (TradeRequest.mk Mock.alice "bond-gh" (inject_Z 5) "sell")
                 (snd (execute_trade Calendar.strptime_ymd true Mock.env
                         (TradeRequest.mk Mock.alice "bond-gh" (inject_Z 5) "buy")
                         Mock.seeded)))))
    = Some d2
    /\ BondDoc.available_supply d2 == inject_Z (Bond.available_supply ghana_bond)
    /\ same_but_supply Mock.ghana d2.
Proof.
  apply (buy_then_sell_restores_supply Calendar.strptime_ymd true Mock.env Mock.env
           Mock.alice Mock.alice "bond-gh" 5 Mock.seeded Mock.ghana ghana_bond
           (proj1_sig buy_5_succeeds) (proj1_sig sell_5_back_succeeds)).
  - reflexivity.
  - reflexivity.
  - exact (proj2_sig buy_5_succeeds).
  - exact (proj2_sig sell_5_back_succeeds).
Defined.

(** The price of the Ghana bond after alice's buy of 5 units. *)
Lemma buy_does_not_lower_price_witness :
  TradeRequest.transaction_type buy_5 = "buy"
  /\ 0 <= TradeRequest.quantity buy_5
  /\ exists price',
       calculate_bond_price (Bond_with_supply 7495 ghana_bond) 1 = inr price'
       /\ TradeReceipt.trade_price (proj1_sig buy_5_succeeds) <= price'.
Proof.
  assert (Hb : TradeRequest.transaction_type buy_5 = "buy") by reflexivity.
  assert (Hq : 0 <= TradeRequest.quantity buy_5) by (unfold Qle; simpl; lia).
  split; [exact Hb |]. split; [exact Hq |].
  apply (buy_does_not_lower_price Calendar.strptime_ymd true Mock.env buy_5
           Mock.seeded (proj1_sig buy_5_succeeds)
           (BondDoc.set_available_supply (inject_Z 7500 - 5) Mock.ghana)
           (Bond_with_supply 7495 ghana_bond) Hb Hq (proj2_sig buy_5_succeeds)).
  - reflexivity.
  - reflexivity.
  - simpl. lia.
Defined.



(** The seed catalog has bonds. *)
Lemma seeded_nonempty : DB.bonds Mock.seeded <> [].
Proof. discriminate. Defined.

(** The bonds of the seed catalog have distinct identifiers. *)
Lemma seeded_distinct : NoDup (map BondDoc.id (firstn 1000 (DB.bonds Mock.seeded))).
Proof.
  simpl. repeat constructor; simpl; intuition discriminate.
Defined.

(** The bonds of the seed catalog can be priced. *)
Lemma seeded_priceable : Forall (priceable true) (firstn 1000 (DB.bonds Mock.seeded)).
Proof.
  simpl. repeat constructor; eexists; (split; [reflexivity | discriminate]).
Defined.

(** A poll of the seed catalog at a steady demand. *)
Lemma get_bonds_refreshes_witness :
  snd (get_bonds true some_uuid steady_demand Mock.seeded)
  = DB.mk
      (refreshed true steady_demand 0 (firstn 1000 (DB.bonds Mock.seeded))
       ++ skipn 1000 (DB.bonds Mock.seeded))
      (DB.transactions Mock.seeded) (DB.portfolios Mock.seeded)
  /\ fst (get_bonds true some_uuid steady_demand Mock.seeded)
     = validate_bonds true
         (refreshed true steady_demand 0 (firstn 1000 (DB.bonds Mock.seeded))).
Proof.
  exact (get_bonds_refreshes true some_uuid steady_demand Mock.seeded
           seeded_nonempty seeded_distinct seeded_priceable).
Defined.

(** The prices a poll of the seed catalog returns. *)
Lemma get_bonds_prices_witness :
  exists bs,
    fst (get_bonds true some_uuid steady_demand Mock.seeded) = inr bs
    /\ List.length bs = Nat.min 1000 (List.length (DB.bonds Mock.seeded))
    /\ Forall
         (fun b =>
            Py.round2 (Bond.face_value b * (7 # 10)) <= Bond.current_price b
            /\ Py.round2 (Bond.current_price b) = Bond.current_price b) bs.
Proof.
  exact (get_bonds_prices true some_uuid steady_demand Mock.seeded
           seeded_nonempty seeded_distinct seeded_priceable).
Defined.


(** Reading alice's portfolio after her buy of 5 units. *)
Lemma get_portfolio_after_trade_witness :
  exists report,
    fst (get_portfolio Calendar.strptime_ymd true Mock.env
           (TradeRequest.user_address buy_5)
           (snd (execute_trade Calendar.strptime_ymd true Mock.env buy_5 Mock.seeded)))
    = inr (inr report)
    /\ find_portfolio (TradeRequest.user_address buy_5)
         (DB.portfolios
            (snd (execute_trade Calendar.strptime_ymd true Mock.env buy_5 Mock.seeded)))
       = Some (PortfolioReport.portfolio report)
    /\ PortfolioReport.total_value report
       = TradeReceipt.new_portfolio_value (proj1_sig buy_5_succeeds).
Proof.
  exact (get_portfolio_after_trade Calendar.strptime_ymd true Mock.env Mock.env buy_5
           Mock.seeded (proj1_sig buy_5_succeeds) (proj2_sig buy_5_succeeds)).
Defined.

End WitnessesMore.
